(** * Credit ledger and generation jobs of the KasperCoin website builder

    A shallow embedding of the deposit reconciliation code
    (services/depositService.js), of the account schema (models/User.js)
    and of the generation routes of the API server (server.js), together
    with the properties of the credit ledger and of the job table.

    Conventions of the embedding.
    - A JavaScript [Number] that holds a credit balance or a coin amount is
      an exact rational ([Q]); rounding of IEEE doubles is outside the model.
      Arithmetic results are compared with [==] ([Qeq]).
    - [parseInt(s, 10)] of a feed field is taken as already done: the feed
      records hold the parsed integer ([Z]).
    - A JavaScript string is the sequence of the bytes of its UTF-8
      encoding ([string], one [ascii] per byte), so that every well-formed
      text the server can receive is a value of the model (a text with an
      unpaired surrogate has no encoding).  The program searches
      for, and compares with, ASCII texts only; on UTF-8 this is done byte
      by byte.  A value that the code treats as a string is a string or is
      missing, unless a definition says otherwise.
    - Every awaited call to the outside (HTTP feeds, the content provider,
      the database) is an oracle: its outcome is an input of the model, so
      that each handler is a total, executable function.
    - Handlers run one at a time: a request, with the background task it
      launches, runs to its end before the next one starts.  Interleavings
      of concurrent requests are outside the model. *)

From Stdlib Require Import ZArith QArith Lqa Lia String Ascii List Bool Sorted.
From stdpp Require Import gmap strings list.

Import ListNotations.
Local Open Scope string_scope.
Local Open Scope Q_scope.

(** ** models/User.js *)

Inductive CoinType : Type := KAS | KASPER.

Record GeneratedFile : Type := mkGeneratedFile {
  requestId : string;
  content : string;
  generatedAt : Z
}.

Record ProcessedTransaction : Type := mkProcessedTransaction {
  txid : string;
  coinType : CoinType;
  amount : Q;
  creditsAdded : Q;
  timestamp : Z
}.

Record User : Type := mkUser {
  username : string;
  walletAddress : string;
  passwordHash : string;
  xPrv : string;
  mnemonic : string;
  credits : Q;
  generatedFiles : list GeneratedFile;
  processedTransactions : list ProcessedTransaction
}.

Definition set_credits (c : Q) (u : User) : User :=
  mkUser (username u) (walletAddress u) (passwordHash u) (xPrv u) (mnemonic u)
         c (generatedFiles u) (processedTransactions u).

Definition push_processedTransaction (t : ProcessedTransaction) (u : User) : User :=
  mkUser (username u) (walletAddress u) (passwordHash u) (xPrv u) (mnemonic u)
         (credits u) (generatedFiles u) (processedTransactions u ++ [t]).

Definition push_generatedFile (f : GeneratedFile) (u : User) : User :=
  mkUser (username u) (walletAddress u) (passwordHash u) (xPrv u) (mnemonic u)
         (credits u) (generatedFiles u ++ [f]) (processedTransactions u).

(** The [users] collection; [walletAddress] is a unique index, so the
    collection is a finite map keyed by it. *)
Abbreviation Db := (gmap string User).

(** ** JavaScript helpers *)

(** [String.prototype.toLowerCase], as far as its result can be an ASCII
    text.  The letters A to Z go to a to z, and the KELVIN SIGN (U+212A,
    the bytes E2 84 AA) goes to k: no other character has a lower case
    made of ASCII characters only.  Every other character is left as it
    is (JavaScript maps some of them to other characters outside ASCII),
    so that [toLowerCase s] is an ASCII text exactly when
    [s.toLowerCase()] is, and then it is the same text.  The program only
    compares the result with ASCII words. *)
Definition lower_ascii (c : ascii) : ascii :=
  let n := nat_of_ascii c in
  if (65 <=? n)%nat && (n <=? 90)%nat then ascii_of_nat (n + 32) else c.

Definition is_kelvin_sign (c1 c2 c3 : ascii) : bool :=
  (nat_of_ascii c1 =? 226)%nat && (nat_of_ascii c2 =? 132)%nat
  && (nat_of_ascii c3 =? 170)%nat.

Fixpoint toLowerCase (s : string) : string :=
  match s with
  | EmptyString => EmptyString
  | String c s' =>
      match s' with
      | String c2 (String c3 rest) =>
          if is_kelvin_sign c c2 c3 then String "k"%char (toLowerCase rest)
          else String (lower_ascii c) (toLowerCase s')
      | _ => String (lower_ascii c) (toLowerCase s')
      end
  end.

(** [a < b] on numbers. *)
Definition Qlt_bool (a b : Q) : bool :=
  match a ?= b with Lt => true | _ => false end.

(** [String.prototype.trim] strips the white space and the line
    terminators of ECMAScript from both ends: tab, line feed, vertical
    tab, form feed, carriage return, space, U+00A0, U+1680, U+2000 to
    U+200A, U+2028, U+2029, U+202F, U+205F, U+3000 and U+FEFF.  Here they
    are given by their UTF-8 bytes. *)
Definition utf8 (bytes : list nat) : string :=
  string_of_list_ascii (map ascii_of_nat bytes).

Definition white_space : list string :=
  map utf8
    [ [9]; [10]; [11]; [12]; [13]; [32];
      [194; 160];                                   (* U+00A0 *)
      [225; 154; 128];                              (* U+1680 *)
      [226; 128; 128]; [226; 128; 129]; [226; 128; 130]; [226; 128; 131];
      [226; 128; 132]; [226; 128; 133]; [226; 128; 134]; [226; 128; 135];
      [226; 128; 136]; [226; 128; 137]; [226; 128; 138]; (* U+2000 to U+200A *)
      [226; 128; 168]; [226; 128; 169];             (* U+2028, U+2029 *)
      [226; 128; 175];                              (* U+202F *)
      [226; 129; 159];                              (* U+205F *)
      [227; 128; 128];                              (* U+3000 *)
      [239; 187; 191] ]%nat.                        (* U+FEFF *)

(** The number of bytes of the character of [spaces] that [s] starts
    with; 0 when it starts with none. *)
Definition space_length (spaces : list string) (s : string) : nat :=
  match List.find (fun w => String.prefix w s) spaces with
  | Some w => String.length w
  | None => O
  end.

(** [s] without the characters of [spaces] it starts with; [skip] counts
    the bytes of the current character still to be passed. *)
Fixpoint strip_from (spaces : list string) (skip : nat) (s : string) : string :=
  match s with
  | EmptyString => EmptyString
  | String c s' =>
      match skip with
      | S skip' => strip_from spaces skip' s'
      | O =>
          match space_length spaces s with
          | O => s
          | S skip' => strip_from spaces skip' s'
          end
      end
  end.

Definition trimStart (s : string) : string := strip_from white_space O s.

Definition reverse_string (s : string) : string :=
  string_of_list_ascii (rev (list_ascii_of_string s)).

(** The end of the text is stripped as the start of the reversed text,
    with the bytes of each character reversed. *)
Definition trimEnd (s : string) : string :=
  reverse_string (strip_from (map reverse_string white_space) O (reverse_string s)).

Definition trim (s : string) : string := trimEnd (trimStart s).

(** [s.replace(/```+/g, "")]: every maximal run of three or more backticks
    is removed; [run] counts the backticks read and not yet emitted. *)
Definition backtick : ascii := ascii_of_nat 96.

Fixpoint backticks (n : nat) : string :=
  match n with
  | O => EmptyString
  | S n' => String backtick (backticks n')
  end.

Definition flush_run (run : nat) : string :=
  if (3 <=? run)%nat then EmptyString else backticks run.

Fixpoint replace_fences_from (run : nat) (s : string) : string :=
  match s with
  | EmptyString => flush_run run
  | String c s' =>
      if Ascii.eqb c backtick then replace_fences_from (S run) s'
      else flush_run run ++ String c (replace_fences_from O s')
  end.

Definition replace_fences (s : string) : string := replace_fences_from O s.

(** [!x] for a value that is a string or is missing. *)
Definition falsy (x : option string) : bool :=
  match x with
  | None => true
  | Some s => String.eqb s ""
  end.

(** The outcome of an awaited call: a value, or a thrown error. *)
Inductive Outcome (A : Type) : Type :=
| Returns (a : A)
| Throws (message : string).
Arguments Returns {A} a.
Arguments Throws {A} message.

(** ** services/depositService.js *)

Module Deposit.

(** [CREDIT_CONVERSION]: 1 credit = 1 KAS, 1 credit = 800 KASPER. *)
Definition CREDIT_CONVERSION (c : CoinType) : Q :=
  match c with
  | KAS => 1 / 1
  | KASPER => 1 / 800
  end.

(** [1e8]: sompi per coin. *)
Definition sompi : Q := 100000000.

(** One entry of the KRC20 operation list; [amt] is [parseInt(tx.amt, 10)]. *)
Record KasperTx : Type := mkKasperTx {
  hashRev : string;
  amt : Z;
  op : string;
  to : string
}.

(** [response.data] of the KRC20 feed. *)
Record KasperData : Type := mkKasperData {
  message : string;
  result : option (list KasperTx)
}.

(** One output of a Kaspa transaction; [out_amount] is
    [parseInt(out.amount, 10)]. *)
Record KaspaOutput : Type := mkKaspaOutput {
  script_public_key_address : string;
  out_amount : Z
}.

Record KaspaTx : Type := mkKaspaTx {
  hash : string;
  outputs : option (list KaspaOutput)
}.

(** [response.data] of the Kaspa feed: an array of transactions, or
    anything else. *)
Inductive KaspaData : Type :=
| KaspaArray (txs : list KaspaTx)
| KaspaOther.

(** [user.processedTransactions.some(t => t.txid === h)] *)
Definition alreadyProcessed (u : User) (h : string) : bool :=
  existsb (fun t => String.eqb (txid t) h) (processedTransactions u).

(** Body of the [for (const tx of transactions)] loop of
    [processUserKasperDeposits]. *)
Definition kasper_tx (now : Z) (walletAddress : string) (u : User) (tx : KasperTx) : User :=
  let hashRev := hashRev tx in
  let amt := inject_Z (amt tx) / sompi in
  let opType := op tx in
  let toAddress := to tx in
  let alreadyProcessed := alreadyProcessed u hashRev in
  if String.eqb (toLowerCase opType) "transfer"
     && String.eqb toAddress walletAddress
     && negb alreadyProcessed
  then
    let creditsToAdd := amt * CREDIT_CONVERSION KASPER in
    push_processedTransaction
      (mkProcessedTransaction hashRev KASPER amt creditsToAdd now)
      (set_credits (credits u + creditsToAdd) u)
  else u.

(** [processUserKasperDeposits(user)]; [response] is the outcome of
    [axios.get(url)].  The function mutates [user] in memory and swallows
    every error. *)
Definition processUserKasperDeposits
    (now : Z) (response : Outcome KasperData) (user : User) : User :=
  match response with
  | Throws _ => user
  | Returns data =>
      if negb (String.eqb (message data) "successful") then user
      else
        let transactions := default [] (result data) in
        fold_left (kasper_tx now (walletAddress user)) transactions user
  end.

(** The inner loop of [processUserKaspaDeposits]: sum of the outputs that
    pay the user, in KAS. *)
Definition sumToUser (kaspaAddress : string) (outs : list KaspaOutput) : Q :=
  fold_left
    (fun sum out =>
       if String.eqb (script_public_key_address out) kaspaAddress
       then sum + inject_Z (out_amount out) / sompi
       else sum)
    outs 0.

(** Body of the [for (const tx of transactions)] loop of
    [processUserKaspaDeposits]. *)
Definition kaspa_tx (now : Z) (kaspaAddress : string) (u : User) (tx : KaspaTx) : User :=
  let txHash := hash tx in
  match outputs tx with
  | None => u
  | Some [] => u
  | Some outs =>
      let sumToUser := sumToUser kaspaAddress outs in
      if Qlt_bool 0 sumToUser then
        if negb (alreadyProcessed u txHash) then
          let creditsToAdd := sumToUser * CREDIT_CONVERSION KAS in
          push_processedTransaction
            (mkProcessedTransaction txHash KAS sumToUser creditsToAdd now)
            (set_credits (credits u + creditsToAdd) u)
        else u
      else u
  end.

(** [processUserKaspaDeposits(user)]. *)
Definition processUserKaspaDeposits
    (now : Z) (response : Outcome KaspaData) (user : User) : User :=
  match response with
  | Throws _ => user
  | Returns data =>
      let transactions := match data with KaspaArray txs => txs | KaspaOther => [] end in
      fold_left (kaspa_tx now (walletAddress user)) transactions user
  end.

(** What one on-demand scan meets outside the process.
    - [save_ok] is the outcome of [user.save()] as a whole: the promise
      rejects when the store cannot be reached and also when the schema
      refuses the document (models/User.js: a processed transaction needs
      a [txid]); both are [save_ok = false].
    - [clock] stands for every [new Date()] of the scan.  The code reads
      the clock once for each record it creates; the records of one scan
      get one time here, and no statement below depends on the time of a
      record. *)
Record Feeds : Type := mkFeeds {
  find_ok : bool;                         (* User.findOne reaches the store *)
  kasper_response : Outcome KasperData;   (* axios.get of the KRC20 feed *)
  kaspa_response : Outcome KaspaData;     (* axios.get of the Kaspa feed *)
  clock : Z;                              (* new Date() *)
  save_ok : bool                          (* user.save() fulfils *)
}.

(** The in-memory part of [fetchAndProcessUserDeposits]: KASPER, then KAS. *)
Definition processUserDeposits (f : Feeds) (user : User) : User :=
  processUserKaspaDeposits (clock f) (kaspa_response f)
    (processUserKasperDeposits (clock f) (kasper_response f) user).

(** [fetchAndProcessUserDeposits(walletAddress)]: load the account, scan
    both feeds, save the document. *)
Definition fetchAndProcessUserDeposits
    (f : Feeds) (walletAddress : string) (db : Db) : Outcome unit * Db :=
  if negb (find_ok f) then (Throws "MongoError", db)
  else
    match db !! walletAddress with
    | None => (Throws ("User not found for wallet " ++ walletAddress), db)
    | Some user =>
        let user := processUserDeposits f user in
        if save_ok f then (Returns tt, <[walletAddress := user]> db)
        else (Throws "MongoError", db)
    end.

End Deposit.

(** ** The state of the API server and its effects *)

(** [progressMap[requestId].status]: 'in-progress', 'done' or 'error'. *)
Inductive Status : Type := in_progress | done | error.

(** [progressMap[requestId].images] *)
Record Images : Type := mkImages {
  navLogo : option string;
  heroBg : option string;
  footerImg : option string
}.

Definition no_images : Images := mkImages None None None.

(** One entry of [progressMap]. *)
Record Job : Type := mkJob {
  status : Status;
  progress : Z;
  code : option string;
  images : Images
}.

Definition set_status (v : Status) (j : Job) : Job :=
  mkJob v (progress j) (code j) (images j).
Definition set_progress (v : Z) (j : Job) : Job :=
  mkJob (status j) v (code j) (images j).
Definition set_code (v : string) (j : Job) : Job :=
  mkJob (status j) (progress j) (Some v) (images j).
Definition set_images (v : Images) (j : Job) : Job :=
  mkJob (status j) (progress j) (code j) v.

(** The server: the [users] collection, the in-memory [progressMap], and a
    journal.  The journal is not program state: it lists, in order, every
    value that an assignment gave to an entry of [progressMap], which is
    what successive polls of GET /progress can observe. *)
Record Server : Type := mkServer {
  users : Db;
  progressMap : gmap string Job;
  journal : list (string * Job)
}.

(** [progressMap] is a plain object ([{}]).  Besides the entries that the
    server writes, [progressMap[name]] is a function or an object, and so
    not [undefined], for the names that every object inherits from
    [Object.prototype]; its [status], [progress], [code] and [images] are
    [undefined]. *)
Definition inherited_keys : list string :=
  ["constructor"; "__proto__"; "hasOwnProperty"; "isPrototypeOf";
   "propertyIsEnumerable"; "toLocaleString"; "toString"; "valueOf";
   "__defineGetter__"; "__defineSetter__"; "__lookupGetter__"; "__lookupSetter__"].

Definition inherited (name : string) : bool :=
  existsb (String.eqb name) inherited_keys.

(** Computations of the server: they read and write the state and either
    return or throw. *)
Definition M (A : Type) : Type := Server -> Outcome A * Server.

Definition ret {A} (a : A) : M A := fun s => (Returns a, s).

Definition bind {A B} (m : M A) (k : A -> M B) : M B :=
  fun s =>
    match m s with
    | (Returns a, s') => k a s'
    | (Throws e, s') => (Throws e, s')
    end.

Definition throw {A} (e : string) : M A := fun s => (Throws e, s).

(** [await] of an outside call whose outcome is [o]. *)
Definition await {A} (o : Outcome A) : M A := fun s => (o, s).

(** [try { body } catch (err) { handler }]; what [body] wrote before it
    threw stays written. *)
Definition try_catch {A} (body : M A) (handler : string -> M A) : M A :=
  fun s =>
    match body s with
    | (Returns a, s') => (Returns a, s')
    | (Throws e, s') => handler e s'
    end.

(** [promise.catch(handler)]: the handler runs iff the promise rejects. *)
Definition promise_catch (promise : M unit) (handler : string -> M unit) : M unit :=
  fun s =>
    match promise s with
    | (Returns tt, s') => (Returns tt, s')
    | (Throws e, s') => handler e s'
    end.

Declare Scope server_scope.
Delimit Scope server_scope with server.
Notation "x <- c1 ;; c2" := (bind c1 (fun x => c2))
  (at level 100, c1 at next level, c2 at level 200, right associativity) : server_scope.
Notation "c1 ;; c2" := (bind c1 (fun _ => c2))
  (at level 100, c2 at level 200, right associativity) : server_scope.
Local Open Scope server_scope.

(** [progressMap[requestId].field = v]: a TypeError when the entry is
    missing. *)
Definition assign (requestId : string) (f : Job -> Job) : M unit :=
  fun s =>
    match progressMap s !! requestId with
    | None => (Throws "TypeError: Cannot set properties of undefined", s)
    | Some j =>
        (Returns tt,
         mkServer (users s)
                  (<[requestId := f j]> (progressMap s))
                  (journal s ++ [(requestId, f j)]))
    end.

(** [progressMap[requestId] = job] *)
Definition register (requestId : string) (job : Job) : M unit :=
  fun s =>
    (Returns tt,
     mkServer (users s)
              (<[requestId := job]> (progressMap s))
              (journal s ++ [(requestId, job)])).

(** A database call that fails as a whole when the store is unavailable. *)
Definition db_call {A} (available : bool) (m : M A) : M A :=
  if available then m else throw "MongoError".

(** [User.findOne({ walletAddress })] *)
Definition findOne (walletAddress : string) : M (option User) :=
  fun s => (Returns (users s !! walletAddress), s).

(** [User.findOneAndUpdate({ walletAddress, credits: { $gte: n } },
    { $inc: { credits: -n } }, { new: true })] *)
Definition findOneAndUpdate_debit (walletAddress : string) (n : Q) : M (option User) :=
  fun s =>
    match users s !! walletAddress with
    | Some u =>
        if Qle_bool n (credits u) then
          let u' := set_credits (credits u + - n) u in
          (Returns (Some u'),
           mkServer (<[walletAddress := u']> (users s)) (progressMap s) (journal s))
        else (Returns None, s)
    | None => (Returns None, s)
    end.

(** [User.findOneAndUpdate({ walletAddress }, { $inc: { credits: n } })] *)
Definition findOneAndUpdate_credit (walletAddress : string) (n : Q) : M unit :=
  fun s =>
    match users s !! walletAddress with
    | Some u =>
        (Returns tt,
         mkServer (<[walletAddress := set_credits (credits u + n) u]> (users s))
                  (progressMap s) (journal s))
    | None => (Returns tt, s)
    end.

(** [user.save()] when it fulfils: the in-memory document replaces the
    stored one.  Whether it fulfils is an input of each handler (the store
    can be reached and the schema accepts the document). *)
Definition save (user : User) : M unit :=
  fun s =>
    (Returns tt,
     mkServer (<[walletAddress user := user]> (users s)) (progressMap s) (journal s)).

(** Responses of the routes. *)
Inductive Payload : Type :=
| ErrorJson (error_message : string)
| RequestIdJson (requestId : string)
| ProgressJson (status : Status) (progress : Z)
| EmptyJson                     (* {}: every field is undefined *)
| SectionJson (snippet : string) (sectionImage : option string) (newCredits : Q).

Record Response : Type := mkResponse {
  http_status : Z;
  payload : Payload
}.

(** [userInputs] of a request body; a field may be missing. *)
Record UserInputs : Type := mkUserInputs {
  coinName : option string;
  colorPalette : option string;
  projectType : option string;
  themeSelection : option string;
  projectDesc : option string
}.

Definition no_inputs : UserInputs := mkUserInputs None None None None None.

(** The content provider, as one job meets it: the text of the chat
    completion ([gptResponse.data.choices[0].message.content]) and the two
    images as data URLs, or an error thrown on the way. *)
Record Provider : Type := mkProvider {
  createChatCompletion : Outcome string;
  createLogoImage : Outcome string;
  createHeroImage : Outcome string
}.

(** ** server.js: full-site generation *)

Module Server.

(** What one POST /start-generation meets outside the process.
    [store_up_save] is the outcome of [user.save()] as a whole: the
    promise rejects when the store cannot be reached and also when the
    schema refuses the document (models/User.js: a generated file needs a
    [requestId] and a [content], so a site code that is empty is
    refused); both are [store_up_save = false]. *)
Record World : Type := mkWorld {
  store_up_debit : bool;          (* the debit reaches the store *)
  generateRequestId : string;     (* crypto.randomBytes(8).toString('hex') *)
  provider : Provider;
  date : Z;                       (* new Date() *)
  store_up_save : bool;           (* user.save() fulfils *)
  store_up_refund : bool          (* the refund reaches the store *)
}.

(** [req.body] of POST /start-generation. *)
Record Body : Type := mkBody {
  body_walletAddress : option string;
  body_userInputs : option UserInputs
}.

Definition logo_fallback : string :=
  "data:image/png;base64,iVBORw0KGgoAAAANSUhEUgAAAAUAAAAFCAYAAACNbyblAAAAHElEQ...".
Definition hero_fallback : string :=
  "data:image/png;base64,iVBORw0KGgoAAAANSUhEUgAAAAU...".

(** [doWebsiteGeneration(requestId, userInputs, user)], the background task
    of a job: the chat completion (primary stage), the logo and the hero
    image (auxiliary stages, each with a fallback), the job entry, and the
    save of the generated file. *)
Definition doWebsiteGeneration
    (w : World) (requestId : string) (userInputs : option UserInputs) (user : User)
    : M unit :=
  try_catch
    (let inputs := default no_inputs userInputs in
     if falsy (coinName inputs) || falsy (colorPalette inputs)
     then throw "Missing 'coinName' or 'colorPalette'."
     else
       assign requestId (set_progress 10) ;;
       assign requestId (set_progress 20) ;;
       gptResponse <- await (createChatCompletion (provider w)) ;;
       let siteCode := trim gptResponse in
       assign requestId (set_progress 40) ;;
       let imagesObj := no_images in
       imagesObj <-
         try_catch
           (assign requestId (set_progress 45) ;;
            base64Logo <- await (createLogoImage (provider w)) ;;
            ret (mkImages (Some base64Logo) (heroBg imagesObj) (Some base64Logo)))
           (fun _ =>
              ret (mkImages (Some logo_fallback) (heroBg imagesObj) (Some logo_fallback))) ;;
       imagesObj <-
         try_catch
           (assign requestId (set_progress 55) ;;
            bg <- await (createHeroImage (provider w)) ;;
            ret (mkImages (navLogo imagesObj) (Some bg) (footerImg imagesObj)))
           (fun _ =>
              ret (mkImages (navLogo imagesObj) (Some hero_fallback) (footerImg imagesObj))) ;;
       assign requestId (set_progress 60) ;;
       let siteCode := replace_fences siteCode in
       assign requestId (set_code siteCode) ;;
       assign requestId (set_images imagesObj) ;;
       assign requestId (set_status done) ;;
       assign requestId (set_progress 100) ;;
       let user := push_generatedFile (mkGeneratedFile requestId siteCode (date w)) user in
       db_call (store_up_save w) (save user))
    (fun _ =>
       assign requestId (set_status error) ;;
       assign requestId (set_progress 100)).

(** The [.catch] handler that POST /start-generation attaches to the
    background task: mark the job as failed and refund the credit.  A
    failure of the refund itself is logged and dropped. *)
Definition on_background_error (w : World) (requestId walletAddress : string) : M unit :=
  assign requestId (set_status error) ;;
  assign requestId (set_progress 100) ;;
  try_catch
    (db_call (store_up_refund w) (findOneAndUpdate_credit walletAddress 1))
    (fun _ => ret tt).

Definition background (w : World) (requestId walletAddress : string)
    (userInputs : option UserInputs) (user : User) : M unit :=
  promise_catch
    (doWebsiteGeneration w requestId userInputs user)
    (fun _ => on_background_error w requestId walletAddress).

Definition new_job : Job := mkJob in_progress 0 None no_images.

(** POST /start-generation up to its response: the debit of one credit,
    the new entry of [progressMap], and the background task it launched
    (if any). *)
Definition start_generation (w : World) (body : Body)
    : M (Response * option (M unit)) :=
  match body_walletAddress body, body_userInputs body with
  | Some walletAddress, Some userInputs =>
      if String.eqb walletAddress "" then
        ret (mkResponse 400 (ErrorJson "walletAddress and userInputs are required."), None)
      else
        try_catch
          (user <- db_call (store_up_debit w) (findOneAndUpdate_debit walletAddress 1) ;;
           match user with
           | None =>
               ret (mkResponse 400
                      (ErrorJson "Insufficient credits or invalid wallet address."), None)
           | Some user =>
               let requestId := generateRequestId w in
               register requestId new_job ;;
               ret (mkResponse 200 (RequestIdJson requestId),
                    Some (background w requestId walletAddress (Some userInputs) user))
           end)
          (fun _ => ret (mkResponse 500 (ErrorJson "Internal server error."), None))
  | _, _ =>
      ret (mkResponse 400 (ErrorJson "walletAddress and userInputs are required."), None)
  end.

(** POST /start-generation with its background task run to the end. *)
Definition post_start_generation (w : World) (body : Body) : M Response :=
  fun s =>
    match start_generation w body s with
    | (Returns (response, Some task), s') => (Returns response, snd (task s'))
    | (Returns (response, None), s') => (Returns response, s')
    | (Throws e, s') => (Throws e, s')
    end.

(** GET /progress?requestId=XYZ *)
Definition get_progress (requestId : option string) (s : Server) : Response :=
  match requestId with
  | None => mkResponse 400 (ErrorJson "Invalid or missing requestId")
  | Some requestId =>
      if String.eqb requestId "" then
        mkResponse 400 (ErrorJson "Invalid or missing requestId")
      else
        match progressMap s !! requestId with
        | None =>
            if inherited requestId then mkResponse 200 EmptyJson
            else mkResponse 400 (ErrorJson "Invalid or missing requestId")
        | Some job => mkResponse 200 (ProgressJson (status job) (progress job))
        end
  end.

End Server.

(** ** The server with project types, themes and the section refresh

    The later version of the server, whose text follows
    services/depositService.js in the sources: POST /start-generation
    validates the project type and the theme, and POST /generate-section
    refreshes one section for 0.25 credits. *)

Module SectionServer.

(** The fields of [userInputs] are strings or missing in this module;
    [SectionServerRaw] below has the route for the other values a JSON
    body can give them.  [store_up_save] is the outcome of [user.save()]
    as a whole, as in [Server.World]. *)
Record World : Type := mkWorld {
  store_up_debit : bool;
  generateRequestId : string;
  provider : Provider;
  date : Z;
  store_up_save : bool;
  store_up_refund : bool
}.

Record Body : Type := mkBody {
  body_walletAddress : option string;
  body_userInputs : option UserInputs
}.

Definition image_fallback : string := "data:image/png;base64,iVBORw0K...".

(** [!x || !list.includes(x.toLowerCase())] *)
Definition not_one_of (allowed : list string) (x : option string) : bool :=
  match x with
  | None => true
  | Some v =>
      String.eqb v "" || negb (existsb (String.eqb (toLowerCase v)) allowed)
  end.

(** [doWebsiteGeneration(requestId, userInputs, user)] of this version:
    [projectType.toLowerCase()] is a TypeError when the project type is
    missing. *)
Definition doWebsiteGeneration
    (w : World) (requestId : string) (userInputs : option UserInputs) (user : User)
    : M unit :=
  try_catch
    (let inputs := default no_inputs userInputs in
     assign requestId (set_progress 10) ;;
     match projectType inputs with
     | None => throw "TypeError: Cannot read properties of undefined"
     | Some _ =>
         assign requestId (set_progress 20) ;;
         gptResponse <- await (createChatCompletion (provider w)) ;;
         let siteCode := trim gptResponse in
         assign requestId (set_progress 40) ;;
         let imagesObj := no_images in
         imagesObj <-
           try_catch
             (assign requestId (set_progress 45) ;;
              logo <- await (createLogoImage (provider w)) ;;
              ret (mkImages (Some logo) (heroBg imagesObj) (Some logo)))
             (fun _ =>
                ret (mkImages (Some image_fallback) (heroBg imagesObj)
                              (Some image_fallback))) ;;
         imagesObj <-
           try_catch
             (assign requestId (set_progress 55) ;;
              bg <- await (createHeroImage (provider w)) ;;
              ret (mkImages (navLogo imagesObj) (Some bg) (footerImg imagesObj)))
             (fun _ =>
                ret (mkImages (navLogo imagesObj) (Some image_fallback)
                              (footerImg imagesObj))) ;;
         let siteCode := replace_fences siteCode in
         assign requestId (set_progress 60) ;;
         assign requestId (set_code siteCode) ;;
         assign requestId (set_images imagesObj) ;;
         assign requestId (set_status done) ;;
         assign requestId (set_progress 100) ;;
         let user :=
           push_generatedFile (mkGeneratedFile requestId siteCode (date w)) user in
         db_call (store_up_save w) (save user)
     end)
    (fun _ =>
       assign requestId (set_status error) ;;
       assign requestId (set_progress 100)).

Definition on_background_error (w : World) (requestId walletAddress : string) : M unit :=
  assign requestId (set_status error) ;;
  assign requestId (set_progress 100) ;;
  try_catch
    (db_call (store_up_refund w) (findOneAndUpdate_credit walletAddress 1))
    (fun _ => ret tt).

Definition background (w : World) (requestId walletAddress : string)
    (userInputs : option UserInputs) (user : User) : M unit :=
  promise_catch
    (doWebsiteGeneration w requestId userInputs user)
    (fun _ => on_background_error w requestId walletAddress).

Definition new_job : Job := mkJob in_progress 0 None no_images.

(** POST /start-generation (full site, costs 1 credit) up to its response. *)
Definition start_generation (w : World) (body : Body)
    : M (Response * option (M unit)) :=
  match body_walletAddress body, body_userInputs body with
  | Some walletAddress, Some userInputs =>
      if String.eqb walletAddress "" then
        ret (mkResponse 400 (ErrorJson "walletAddress and userInputs are required."), None)
      else if not_one_of ["nft"; "token"] (projectType userInputs) then
        ret (mkResponse 400 (ErrorJson "projectType must be either 'nft' or 'token'."), None)
      else if not_one_of ["dark"; "light"] (themeSelection userInputs) then
        ret (mkResponse 400
               (ErrorJson "themeSelection must be either 'dark' or 'light'."), None)
      else
        try_catch
          (user <- db_call (store_up_debit w) (findOneAndUpdate_debit walletAddress 1) ;;
           match user with
           | None =>
               ret (mkResponse 400
                      (ErrorJson "Insufficient credits or invalid wallet address."), None)
           | Some user =>
               let requestId := generateRequestId w in
               register requestId new_job ;;
               ret (mkResponse 200 (RequestIdJson requestId),
                    Some (background w requestId walletAddress (Some userInputs) user))
           end)
          (fun _ => ret (mkResponse 500 (ErrorJson "Internal server error."), None))
  | _, _ =>
      ret (mkResponse 400 (ErrorJson "walletAddress and userInputs are required."), None)
  end.

Definition post_start_generation (w : World) (body : Body) : M Response :=
  fun s =>
    match start_generation w body s with
    | (Returns (response, Some task), s') => (Returns response, snd (task s'))
    | (Returns (response, None), s') => (Returns response, s')
    | (Throws e, s') => (Throws e, s')
    end.

(** What one POST /generate-section meets outside the process. *)
Record SectionWorld : Type := mkSectionWorld {
  store_up_find : bool;                     (* User.findOne reaches the store *)
  store_up_section_save : bool;             (* user.save() fulfils *)
  createSectionCompletion : Outcome string; (* the chat completion *)
  createSectionImage : Outcome string       (* the nav or hero image *)
}.

(** [req.body] of POST /generate-section; the fields that only feed the
    prompt are left out. *)
Record SectionBody : Type := mkSectionBody {
  section_walletAddress : option string;
  section : option string
}.

(** The price of a section refresh. *)
Definition section_price : Q := 0.25.

(** POST /generate-section: check the balance, deduct 0.25 and save, ask
    for the snippet, optionally for an image, and answer. *)
Definition post_generate_section (w : SectionWorld) (body : SectionBody) : M Response :=
  match section_walletAddress body, section body with
  | Some walletAddress, Some section =>
      if String.eqb walletAddress "" || String.eqb section "" then
        ret (mkResponse 400 (ErrorJson "Missing walletAddress or section."))
      else
        try_catch
          (user <- db_call (store_up_find w) (findOne walletAddress) ;;
           match user with
           | None => ret (mkResponse 400 (ErrorJson "Invalid wallet address."))
           | Some user =>
               if Qlt_bool (credits user) section_price then
                 ret (mkResponse 400
                        (ErrorJson "Insufficient credits for a section refresh (need 0.25)."))
               else
                 let user := set_credits (credits user - section_price) user in
                 db_call (store_up_section_save w) (save user) ;;
                 gptResp <- await (createSectionCompletion w) ;;
                 let snippet := replace_fences (trim gptResp) in
                 sectionImage <-
                   (if String.eqb (toLowerCase section) "nav"
                       || String.eqb (toLowerCase section) "hero"
                    then
                      try_catch
                        (image <- await (createSectionImage w) ;; ret (Some image))
                        (fun _ => ret None)
                    else ret None) ;;
                 ret (mkResponse 200 (SectionJson snippet sectionImage (credits user)))
           end)
          (fun _ => ret (mkResponse 500 (ErrorJson "Internal server error.")))
  | _, _ => ret (mkResponse 400 (ErrorJson "Missing walletAddress or section."))
  end.

End SectionServer.

(** ** Vocabulary of the statements *)

(** The progress values and the states of a run of journal entries. *)
Definition progresses (writes : list (string * Job)) : list Z :=
  map (fun e => progress (snd e)) writes.

Definition statuses (writes : list (string * Job)) : list Status :=
  map (fun e => status (snd e)) writes.

(** Every entry of [writes] is a value of [progressMap[requestId]]. *)
Definition written_to (requestId : string) (writes : list (string * Job)) : Prop :=
  Forall (fun e => fst e = requestId) writes.

(** The balance of an account in the store ([None]: no such account). *)
Definition balance (walletAddress : string) (s : Server) : option Q :=
  credits <$> (users s !! walletAddress).

(** A job is in a terminal state. *)
Definition terminal (st : Status) : bool :=
  match st with
  | in_progress => false
  | done | error => true
  end.

(** The transaction ids recorded for an account. *)
Definition txids (u : User) : list string := map txid (processedTransactions u).

(** The records of an account for one transaction id. *)
Definition records_of (h : string) (u : User) : list ProcessedTransaction :=
  List.filter (fun t => String.eqb (txid t) h) (processedTransactions u).

(** The credits that a list of records added. *)
Definition total_creditsAdded (l : list ProcessedTransaction) : Q :=
  fold_right (fun t acc => creditsAdded t + acc) 0 l.


(** The transactions that the two loops of the deposit service iterate
    over, for a given response of the feed. *)
Definition kasper_transactions (r : Outcome Deposit.KasperData) : list Deposit.KasperTx :=
  match r with
  | Returns data =>
      if String.eqb (Deposit.message data) "successful"
      then default [] (Deposit.result data) else []
  | Throws _ => []
  end.

Definition kaspa_transactions (r : Outcome Deposit.KaspaData) : list Deposit.KaspaTx :=
  match r with
  | Returns (Deposit.KaspaArray txs) => txs
  | _ => []
  end.

(** A KRC20 operation is a transfer to the scanned address. *)
Definition kasper_qualifies (walletAddress : string) (tx : Deposit.KasperTx) : bool :=
  String.eqb (toLowerCase (Deposit.op tx)) "transfer"
  && String.eqb (Deposit.to tx) walletAddress.

(** The KAS that the outputs of a transaction pay to the scanned address. *)
Definition kaspa_sum (kaspaAddress : string) (tx : Deposit.KaspaTx) : Q :=
  match Deposit.outputs tx with
  | Some outs => Deposit.sumToUser kaspaAddress outs
  | None => 0
  end.

(** The sompis that the outputs of a transaction pay to the scanned
    address. *)
Definition sompis_to (kaspaAddress : string) (outs : list Deposit.KaspaOutput) : Z :=
  fold_right
    (fun out acc =>
       if String.eqb (Deposit.script_public_key_address out) kaspaAddress
       then (Deposit.out_amount out + acc)%Z else acc)
    0%Z outs.



(** Every account is stored under its own wallet address. *)
Definition keyed_by_wallet (db : Db) : Prop :=
  forall k u, db !! k = Some u -> walletAddress u = k.

(** No stored balance is negative. *)
Definition no_overdraft (db : Db) : Prop :=
  forall k u, db !! k = Some u -> 0 <= credits u.

(** Along a run of journal entries, once an entry is terminal, the state,
    the code and the images of every later entry are the same. *)
Fixpoint final_once_terminal (writes : list (string * Job)) : Prop :=
  match writes with
  | [] => True
  | e :: rest =>
      (terminal (status (snd e)) = true ->
       Forall (fun e' => status (snd e') = status (snd e)
                         /\ code (snd e') = code (snd e)
                         /\ images (snd e') = images (snd e)) rest)
      /\ final_once_terminal rest
  end.

(** ** Accounts, requests and feeds used in the examples *)

Definition alice_wallet : string := "kaspa:qzalice".

Definition alice (c : Q) : User :=
  mkUser "alice" alice_wallet "$2b$10$hash" "xprv" "mnemonic" c [] [].

Definition server_with (u : User) : Server :=
  mkServer {[ walletAddress u := u ]} ∅ [].

Definition coin_inputs : UserInputs :=
  mkUserInputs (Some "Kasper") (Some "teal") (Some "token") (Some "dark")
               (Some "a friendly ghost").

Definition start_body : Server.Body :=
  Server.mkBody (Some alice_wallet) (Some coin_inputs).

Definition provider_up : Provider :=
  mkProvider (Returns "<html></html>") (Returns "data:logo") (Returns "data:hero").

Definition provider_down : Provider :=
  mkProvider (Throws "Request failed with status code 429")
             (Returns "data:logo") (Returns "data:hero").

(** Everything outside works. *)
Definition world_up : Server.World :=
  Server.mkWorld true "00c0ffee00c0ffee" provider_up 1700000000 true true.

(** The chat completion (the primary stage) fails. *)
Definition world_primary_fails : Server.World :=
  Server.mkWorld true "00c0ffee00c0ffee" provider_down 1700000000 true true.

(** The generation succeeds and the save of the generated file fails. *)
Definition world_save_fails : Server.World :=
  Server.mkWorld true "00c0ffee00c0ffee" provider_up 1700000000 false true.

Definition section_world_save_fails : SectionServer.World :=
  SectionServer.mkWorld true "00c0ffee00c0ffee" provider_up 1700000000 false true.

Definition section_start_body : SectionServer.Body :=
  SectionServer.mkBody (Some alice_wallet) (Some coin_inputs).

Definition section_body : SectionServer.SectionBody :=
  SectionServer.mkSectionBody (Some alice_wallet) (Some "hero").

(** The store works and the chat completion of the section fails. *)
Definition section_world_chat_fails : SectionServer.SectionWorld :=
  SectionServer.mkSectionWorld true true
    (Throws "Request failed with status code 429") (Returns "data:hero").

Definition section_world_up : SectionServer.SectionWorld :=
  SectionServer.mkSectionWorld true true
    (Returns "<!-- SECTION: hero --><!-- END: hero -->") (Returns "data:hero").

(** A Kaspa transaction with one output, to the account of the examples. *)
Definition kas_tx (h : string) (sompis : Z) : Deposit.KaspaTx :=
  Deposit.mkKaspaTx h (Some [Deposit.mkKaspaOutput alice_wallet sompis]).

(** A KRC20 transfer to the account of the examples. *)
Definition kasper_transfer (h : string) (raw : Z) : Deposit.KasperTx :=
  Deposit.mkKasperTx h raw "transfer" alice_wallet.

Definition kasper_feed (txs : list Deposit.KasperTx) : Outcome Deposit.KasperData :=
  Returns (Deposit.mkKasperData "successful" (Some txs)).

(** The Kaspa feed delivers the same transaction (2.5 KAS) twice. *)
Definition feeds_duplicate : Deposit.Feeds :=
  Deposit.mkFeeds true (kasper_feed [])
    (Returns (Deposit.KaspaArray [kas_tx "9f3c" 250000000; kas_tx "9f3c" 250000000]))
    1700000000 true.

(** The account of the examples after a deposit of 2.5 KAS, recorded under
    the id 9f3c. *)
Definition alice_paid_in_kas : User :=
  mkUser "alice" alice_wallet "$2b$10$hash" "xprv" "mnemonic" 2.5 []
         [mkProcessedTransaction "9f3c" KAS 2.5 2.5 1700000000].

(** * The rest of the server *)

(** ** server.js: file names and placeholders *)

(** [[a-zA-Z0-9_-]] *)
Definition filename_char (c : ascii) : bool :=
  let n := nat_of_ascii c in
  ((97 <=? n)%nat && (n <=? 122)%nat)
  || ((65 <=? n)%nat && (n <=? 90)%nat)
  || ((48 <=? n)%nat && (n <=? 57)%nat)
  || (n =? 95)%nat || (n =? 45)%nat.

(** [sanitizeFilename(name)]: [name.replace(/[^a-zA-Z0-9_-]/g, '_')].  A
    character outside ASCII gives one underscore for each of its bytes
    here, and one for each of its UTF-16 code units in JavaScript. *)
Fixpoint sanitizeFilename (name : string) : string :=
  match name with
  | EmptyString => EmptyString
  | String c rest =>
      String (if filename_char c then c else "_"%char) (sanitizeFilename rest)
  end.

(** The replacement text of [String.prototype.replace] for a pattern
    without capture groups: [$$] is a dollar, [$&] the matched text,
    [$`] the text before the match, [$'] the text after it; any other
    dollar stands for itself. *)
Fixpoint get_substitution (matched before after replacement : string) : string :=
  match replacement with
  | EmptyString => EmptyString
  | String c rest =>
      if Ascii.eqb c "$"%char then
        match rest with
        | EmptyString => String c EmptyString
        | String d rest' =>
            if Ascii.eqb d "$"%char then
              String "$"%char (get_substitution matched before after rest')
            else if Ascii.eqb d "&"%char then
              matched ++ get_substitution matched before after rest'
            else if Ascii.eqb d "`"%char then
              before ++ get_substitution matched before after rest'
            else if Ascii.eqb d "'"%char then
              after ++ get_substitution matched before after rest'
            else String c (get_substitution matched before after rest)
        end
      else String c (get_substitution matched before after rest)
  end.

(** The text after the first [n] characters. *)
Fixpoint drop_string (n : nat) (s : string) : string :=
  match n, s with
  | O, _ => s
  | S n', String _ rest => drop_string n' rest
  | S _, EmptyString => EmptyString
  end.

(** [s.replace(/placeholder/g, replacement)] for a literal, non-empty
    [placeholder]: the matches are found from left to right without
    overlap.  [skip] counts the characters of the current match still to be
    passed, [before] is the text already read. *)
Fixpoint replace_from (placeholder replacement : string) (skip : nat)
    (before s : string) : string :=
  match s with
  | EmptyString => EmptyString
  | String c rest =>
      match skip with
      | S skip' =>
          replace_from placeholder replacement skip' (before ++ String c EmptyString) rest
      | O =>
          if String.prefix placeholder s then
            get_substitution placeholder before
              (drop_string (String.length placeholder) s) replacement
            ++ replace_from placeholder replacement (String.length placeholder - 1)
                 (before ++ String c EmptyString) rest
          else
            String c
              (replace_from placeholder replacement O (before ++ String c EmptyString) rest)
      end
  end.

Definition replace_placeholder (placeholder replacement s : string) : string :=
  replace_from placeholder replacement O EmptyString s.

(** The three replacements of GET /result and GET /export: an image that
    is missing or empty leaves its placeholder in place. *)
Definition insert_images (code : string) (images : Images) : string :=
  let finalCode := code in
  let finalCode :=
    if falsy (navLogo images) then finalCode
    else replace_placeholder "NAV_IMAGE_PLACEHOLDER" (default "" (navLogo images)) finalCode in
  let finalCode :=
    if falsy (heroBg images) then finalCode
    else replace_placeholder "HERO_BG_PLACEHOLDER" (default "" (heroBg images)) finalCode in
  let finalCode :=
    if falsy (footerImg images) then finalCode
    else replace_placeholder "FOOTER_IMAGE_PLACEHOLDER" (default "" (footerImg images))
           finalCode in
  finalCode.

Module Download.

(** What GET /result and GET /export send. *)
Inductive Sent : Type :=
| JsonError (error_message : string)
| JsonCode (code : string)
| Attachment (contentType contentDisposition body : string).

Record Answer : Type := mkAnswer {
  answer_status : Z;
  sent : Sent
}.

Definition quote : string := String (ascii_of_nat 34) EmptyString.
Definition newline : string := String (ascii_of_nat 10) EmptyString.

(** The job of a request, when the id is given and known. *)
Definition known_job (requestId : option string) (s : Server) : option Job :=
  match requestId with
  | None => None
  | Some requestId =>
      if String.eqb requestId "" then None else progressMap s !! requestId
  end.

(** The id is a name that [progressMap] inherits: [progressMap[requestId]]
    is truthy, and its [status] is [undefined]. *)
Definition inherited_entry (requestId : option string) : bool :=
  match requestId with
  | None => false
  | Some requestId => inherited requestId
  end.

(** GET /result?requestId=XYZ.  A job that is done without code makes
    [finalCode.replace] throw. *)
Definition get_result (requestId : option string) : M Answer :=
  fun s =>
    match known_job requestId s with
    | None =>
        if inherited_entry requestId then
          (Returns (mkAnswer 400 (JsonError "Not finished or generation error.")), s)
        else (Returns (mkAnswer 400 (JsonError "Invalid or missing requestId")), s)
    | Some job =>
        match status job with
        | done =>
            match code job with
            | Some code =>
                (Returns (mkAnswer 200 (JsonCode (insert_images code (images job)))), s)
            | None => (Throws "TypeError: Cannot read properties of null", s)
            end
        | _ => (Returns (mkAnswer 400 (JsonError "Not finished or generation error.")), s)
        end
    end.

(** The WordPress page template of GET /export. *)
Definition wordpressTemplate (filename finalCode : string) : string :=
  "<?php" ++ newline
  ++ "/**" ++ newline
  ++ " * Template Name: " ++ filename ++ "_Generated_Website" ++ newline
  ++ " */" ++ newline
  ++ "get_header(); ?>" ++ newline
  ++ newline
  ++ "<div id=" ++ quote ++ "generated-website" ++ quote ++ ">" ++ newline
  ++ finalCode ++ newline
  ++ "</div>" ++ newline
  ++ newline
  ++ "<?php get_footer(); ?>" ++ newline.

(** GET /export?requestId=XYZ&type=full|wordpress *)
Definition get_export (requestId type : option string) : M Answer :=
  fun s =>
    match known_job requestId s with
    | None =>
        if inherited_entry requestId then
          (Returns
             (mkAnswer 400
                (JsonError "Generation not completed or encountered an error.")), s)
        else (Returns (mkAnswer 400 (JsonError "Invalid or missing requestId")), s)
    | Some job =>
        match status job with
        | done =>
            if match type with
               | Some t => String.eqb t "full" || String.eqb t "wordpress"
               | None => false
               end
            then
              match code job with
              | Some code =>
                  let finalCode := insert_images code (images job) in
                  let filename := sanitizeFilename (default "" requestId) in
                  if String.eqb (default "" type) "full" then
                    (Returns
                       (mkAnswer 200
                          (Attachment "text/html"
                             ("attachment; filename=" ++ quote ++ filename
                              ++ "_website.html" ++ quote)
                             finalCode)), s)
                  else
                    (Returns
                       (mkAnswer 200
                          (Attachment "application/php"
                             ("attachment; filename=" ++ quote ++ filename
                              ++ "_generated_website.php" ++ quote)
                             (wordpressTemplate filename finalCode))), s)
              | None => (Throws "TypeError: Cannot read properties of null", s)
              end
            else
              (Returns
                 (mkAnswer 400
                    (JsonError "Invalid or missing export type. Use 'full' or 'wordpress'.")), s)
        | _ =>
            (Returns
               (mkAnswer 400
                  (JsonError "Generation not completed or encountered an error.")), s)
        end
    end.

End Download.

(** ** server.js: accounts *)

Module Accounts.

(** The JSON bodies of the account routes. *)
Inductive Reply : Type :=
| Failure (error_message : string)             (* { success: false, error } *)
| Credits (credits : Q)                        (* { success: true, credits } *)
| Wallet (walletAddress : string)              (* { success: true, walletAddress } *)
| Connected (username walletAddress : string) (credits : Q)
            (generatedFiles : list GeneratedFile)
| Success.                                     (* { success: true } *)

Record Answer : Type := mkAnswer {
  answer_status : Z;
  reply : Reply
}.

(** GET /get-credits?walletAddress=XYZ *)
Definition get_credits (store_up : bool) (walletAddress : option string) : M Answer :=
  if falsy walletAddress then
    ret (mkAnswer 400 (Failure "walletAddress is required."))
  else
    try_catch
      (user <- db_call store_up (findOne (default "" walletAddress)) ;;
       match user with
       | None => ret (mkAnswer 400 (Failure "Invalid wallet address."))
       | Some user => ret (mkAnswer 200 (Credits (credits user)))
       end)
      (fun _ => ret (mkAnswer 500 (Failure "Internal server error."))).

(** [User.findOne({ username })] *)
Definition findOne_username (username' : string) : M (option User) :=
  fun s =>
    (Returns
       (snd <$> List.find (fun e => String.eqb (username (snd e)) username')
                          (map_to_list (users s))),
     s).

(** The error of a save that breaks a unique index: code 11000, with the
    name of the index in [keyPattern]. *)
Definition duplicate_username : string := "E11000 duplicate key: username".
Definition duplicate_walletAddress : string := "E11000 duplicate key: walletAddress".

(** [newUser.save()] for a new document: the schema requires the four
    strings, and [username] and [walletAddress] are unique. *)
Definition save_new (user : User) : M unit :=
  fun s =>
    if String.eqb (username user) "" || String.eqb (walletAddress user) ""
       || String.eqb (passwordHash user) "" || String.eqb (xPrv user) ""
       || String.eqb (mnemonic user) ""
    then (Throws "ValidationError", s)
    else
      match fst (findOne_username (username user) s) with
      | Returns (Some _) => (Throws duplicate_username, s)
      | _ =>
          match users s !! walletAddress user with
          | Some _ => (Throws duplicate_walletAddress, s)
          | None =>
              (Returns tt,
               mkServer (<[walletAddress user := user]> (users s))
                        (progressMap s) (journal s))
          end
      end.

(** What [createWallet()] of wasm_rpc returns. *)
Record WalletData : Type := mkWalletData {
  wallet_success : bool;
  receivingAddress : string;
  wallet_xPrv : string;
  wallet_mnemonic : string
}.

(** What one POST /create-wallet meets outside the process. *)
Record CreateWorld : Type := mkCreateWorld {
  create_store_up_find : bool;          (* User.findOne reaches the store *)
  createWallet : Outcome WalletData;    (* createWallet() of wasm_rpc *)
  bcrypt_hash : Outcome string;         (* bcrypt.hash(password, 10) *)
  create_store_up_save : bool           (* newUser.save() reaches the store *)
}.

Record Credentials : Type := mkCredentials {
  given_name : option string;           (* username, or walletAddress *)
  given_password : option string
}.

(** POST /create-wallet: a new account starts with one credit. *)
Definition create_wallet (w : CreateWorld) (body : Credentials) : M Answer :=
  if falsy (given_name body) || falsy (given_password body) then
    ret (mkAnswer 400 (Failure "Username and password are required."))
  else
    let username := default "" (given_name body) in
    try_catch
      (existingUser <- db_call (create_store_up_find w) (findOne_username username) ;;
       match existingUser with
       | Some _ =>
           ret (mkAnswer 400
                  (Failure "Username already exists. Please choose another one."))
       | None =>
           walletData <- await (createWallet w) ;;
           if negb (wallet_success walletData) then
             ret (mkAnswer 500 (Failure "Wallet creation failed."))
           else
             passwordHash <- await (bcrypt_hash w) ;;
             let newUser :=
               mkUser username (receivingAddress walletData) passwordHash
                      (wallet_xPrv walletData) (wallet_mnemonic walletData) 1 [] [] in
             db_call (create_store_up_save w) (save_new newUser) ;;
             ret (mkAnswer 200 (Wallet (receivingAddress walletData)))
       end)
      (fun err =>
         if String.eqb err duplicate_username then
           ret (mkAnswer 400
                  (Failure "Username already exists. Please choose another one."))
         else ret (mkAnswer 500 (Failure "Internal server error."))).

(** What one POST /connect-wallet meets outside the process. *)
Record ConnectWorld : Type := mkConnectWorld {
  connect_store_up : bool;              (* User.findOne reaches the store *)
  bcrypt_compare : Outcome bool         (* bcrypt.compare(password, hash) *)
}.

(** POST /connect-wallet *)
Definition connect_wallet (w : ConnectWorld) (body : Credentials) : M Answer :=
  if falsy (given_name body) || falsy (given_password body) then
    ret (mkAnswer 400 (Failure "Wallet address and password are required."))
  else
    try_catch
      (user <- db_call (connect_store_up w) (findOne (default "" (given_name body))) ;;
       match user with
       | None => ret (mkAnswer 400 (Failure "Invalid wallet address or password."))
       | Some user =>
           passwordMatch <- await (bcrypt_compare w) ;;
           if negb passwordMatch then
             ret (mkAnswer 400 (Failure "Invalid wallet address or password."))
           else
             ret (mkAnswer 200
                    (Connected (username user) (walletAddress user) (credits user)
                               (generatedFiles user)))
       end)
      (fun _ => ret (mkAnswer 500 (Failure "Internal server error."))).

(** [await fetchAndProcessUserDeposits(walletAddress)] inside the server. *)
Definition fetch_deposits (f : Deposit.Feeds) (walletAddress : string) : M unit :=
  fun s =>
    match Deposit.fetchAndProcessUserDeposits f walletAddress (users s) with
    | (Returns tt, db) => (Returns tt, mkServer db (progressMap s) (journal s))
    | (Throws e, db) => (Throws e, mkServer db (progressMap s) (journal s))
    end.

(** POST /scan-deposits: scan both feeds, then read the balance again. *)
Definition scan_deposits (f : Deposit.Feeds) (store_up_after : bool)
    (walletAddress : option string) : M Answer :=
  if falsy walletAddress then
    ret (mkAnswer 400 (Failure "Missing walletAddress"))
  else
    let walletAddress := default "" walletAddress in
    try_catch
      (fetch_deposits f walletAddress ;;
       user <- db_call store_up_after (findOne walletAddress) ;;
       match user with
       | None => ret (mkAnswer 404 (Failure "User not found"))
       | Some user => ret (mkAnswer 200 (Credits (credits user)))
       end)
      (fun _ => ret (mkAnswer 500 (Failure "Failed to scan deposits"))).

(** [req.body] of POST /save-generated-file. *)
Record FileBody : Type := mkFileBody {
  file_walletAddress : option string;
  file_requestId : option string;
  file_content : option string
}.

Record FileWorld : Type := mkFileWorld {
  file_store_up_find : bool;
  file_date : Z;                        (* new Date() *)
  file_store_up_save : bool
}.

(** POST /save-generated-file *)
Definition save_generated_file (w : FileWorld) (body : FileBody) : M Answer :=
  if falsy (file_walletAddress body) || falsy (file_requestId body)
     || falsy (file_content body)
  then ret (mkAnswer 400 (Failure "All fields are required."))
  else
    try_catch
      (user <- db_call (file_store_up_find w)
                 (findOne (default "" (file_walletAddress body))) ;;
       match user with
       | None => ret (mkAnswer 400 (Failure "Invalid wallet address."))
       | Some user =>
           let user :=
             push_generatedFile
               (mkGeneratedFile (default "" (file_requestId body))
                                (default "" (file_content body)) (file_date w))
               user in
           db_call (file_store_up_save w) (save user) ;;
           ret (mkAnswer 200 Success)
       end)
      (fun _ => ret (mkAnswer 500 (Failure "Internal server error."))).

End Accounts.

(** ** server.js: origins and errors *)

Module Cors.

Definition allowedOrigins : list string :=
  ["https://www.kaspercoin.net"; "https://kaspercoin.net";
   "http://localhost:3000"; "http://localhost:8080"].

Definition policy_prefix : string :=
  "The CORS policy for this site does not allow access from ".

(** The [origin] function given to [cors]: [Returns true] is
    [callback(null, true)], [Throws msg] is [callback(new Error(msg), false)]. *)
Definition origin_allowed (origin : option string) : Outcome bool :=
  match origin with
  | None => Returns true
  | Some o =>
      if String.eqb o "" then Returns true
      else if negb (existsb (String.eqb o) allowedOrigins)
      then Throws (policy_prefix ++ o)
      else Returns true
  end.

(** An error that reaches the error-handling middleware. *)
Record Error : Type := mkError {
  is_SyntaxError : bool;                (* err instanceof SyntaxError *)
  error_text : option string            (* err.message *)
}.

(** The error-handling middleware. *)
Definition error_handler (err : Error) : Response :=
  if is_SyntaxError err then mkResponse 400 (ErrorJson "Invalid JSON payload.")
  else if negb (falsy (error_text err))
          && String.prefix "The CORS policy" (default "" (error_text err))
  then mkResponse 403 (ErrorJson (default "" (error_text err)))
  else mkResponse 500 (ErrorJson "Something went wrong!").

(** What a request with the given [Origin] header gets from the two
    together: [None] when it goes on to its route. *)
Definition screen_origin (origin : option string) : option Response :=
  match origin_allowed origin with
  | Returns _ => None
  | Throws msg => Some (error_handler (mkError false (Some msg)))
  end.

End Cors.

(** ** server.js, the section-by-section version *)

Module Live.

Definition SECTIONS_ORDER : list string :=
  ["nav"; "hero"; "roadmap"; "tokenomics"; "exchanges"; "about"; "footer"].

(** One entry of [progressMap] in this version. *)
Record LiveJob : Type := mkLiveJob {
  live_status : Status;
  live_progress : Z;
  sections : gmap string (option string);
  currentIndex : nat;
  live_userInputs : UserInputs
}.

Definition set_live_status (v : Status) (j : LiveJob) : LiveJob :=
  mkLiveJob v (live_progress j) (sections j) (currentIndex j) (live_userInputs j).
Definition set_live_progress (v : Z) (j : LiveJob) : LiveJob :=
  mkLiveJob (live_status j) v (sections j) (currentIndex j) (live_userInputs j).
Definition set_section (k v : string) (j : LiveJob) : LiveJob :=
  mkLiveJob (live_status j) (live_progress j) (<[k := Some v]> (sections j))
            (currentIndex j) (live_userInputs j).
Definition set_currentIndex (v : nat) (j : LiveJob) : LiveJob :=
  mkLiveJob (live_status j) (live_progress j) (sections j) v (live_userInputs j).

(** The object [context = progressMap[requestId]] while the background
    task mutates it, with the values it took, in order. *)
Record Run : Type := mkRun {
  context : LiveJob;
  written : list LiveJob
}.

Definition write (f : LiveJob -> LiveJob) (r : Run) : Run :=
  mkRun (f (context r)) (written r ++ [f (context r)]).

(** [Math.floor((i / SECTIONS_ORDER.length) * 100)]; for [0 <= i <= 7] the
    quotient of the integers is the floor that the doubles give. *)
Definition percent (i : nat) : Z :=
  (Z.of_nat i * 100 / Z.of_nat (length SECTIONS_ORDER))%Z.

(** [generateSectionSnippet(userInputs, section)]; [completion] gives, for
    each section, the text of the chat completion or the error thrown. *)
Definition generateSectionSnippet (completion : string -> Outcome string)
    (section : string) : Outcome string :=
  match completion section with
  | Returns text => Returns (replace_fences (trim text))
  | Throws e => Throws e
  end.

(** The [for] loop of [generateAllSectionsSequential], from index [i]. *)
Fixpoint sections_loop (completion : string -> Outcome string) (i : nat)
    (todo : list string) (r : Run) : Outcome unit * Run :=
  match todo with
  | [] => (Returns tt, r)
  | section :: rest =>
      let r := write (set_currentIndex i) r in
      let r := write (set_live_progress (percent i)) r in
      match generateSectionSnippet completion section with
      | Throws e => (Throws e, r)
      | Returns snippet =>
          let r := write (set_section section snippet) r in
          let r := write (set_live_progress (percent (S i))) r in
          sections_loop completion (S i) rest r
      end
  end.

(** [generateAllSectionsSequential(requestId, user)] on the entry of the
    request; the account is not used. *)
Definition generateAllSectionsSequential (completion : string -> Outcome string)
    (r : Run) : Outcome unit * Run :=
  match sections_loop completion 0 SECTIONS_ORDER r with
  | (Returns _, r) =>
      (Returns tt, write (set_live_progress 100) (write (set_live_status done) r))
  | (Throws _, r) =>
      (Returns tt, write (set_live_progress 100) (write (set_live_status error) r))
  end.

(** The state of this version of the server. *)
Record LiveServer : Type := mkLiveServer {
  live_users : Db;
  live_progressMap : gmap string LiveJob;
  live_journal : list (string * LiveJob)
}.

Record World : Type := mkWorld {
  store_up_debit : bool;
  generateRequestId : string;
  completion : string -> Outcome string;
  store_up_refund : bool
}.

Record Body : Type := mkBody {
  body_walletAddress : option string;
  body_userInputs : option UserInputs
}.

Definition no_sections : gmap string (option string) :=
  <["nav" := None]> (<["hero" := None]> (<["roadmap" := None]> (<["tokenomics" := None]>
    (<["exchanges" := None]> (<["about" := None]> (<["footer" := None]> ∅)))))).

Definition new_job (userInputs : UserInputs) : LiveJob :=
  mkLiveJob in_progress 0 no_sections 0 userInputs.

(** [User.findOneAndUpdate({ walletAddress }, { $inc: { credits: 1 } })] *)
Definition refund (walletAddress : string) (db : Db) : Db :=
  match db !! walletAddress with
  | Some u => <[walletAddress := set_credits (credits u + 1) u]> db
  | None => db
  end.

(** The background task with the [.catch] handler of the route: the
    handler marks the job as failed and refunds the credit. *)
Definition background (w : World) (requestId walletAddress : string)
    (s : LiveServer) : LiveServer :=
  match live_progressMap s !! requestId with
  | None => s
  | Some job =>
      match generateAllSectionsSequential (completion w) (mkRun job []) with
      | (Returns _, r) =>
          mkLiveServer (live_users s)
            (<[requestId := context r]> (live_progressMap s))
            (live_journal s ++ map (pair requestId) (written r))
      | (Throws _, r) =>
          let r := write (set_live_progress 100) (write (set_live_status error) r) in
          mkLiveServer
            (if store_up_refund w then refund walletAddress (live_users s)
             else live_users s)
            (<[requestId := context r]> (live_progressMap s))
            (live_journal s ++ map (pair requestId) (written r))
      end
  end.

(** POST /start-generation of this version, with its background task run
    to the end. *)
Definition post_start_generation (w : World) (body : Body) (s : LiveServer)
    : Response * LiveServer :=
  match body_walletAddress body, body_userInputs body with
  | Some walletAddress, Some userInputs =>
      if String.eqb walletAddress "" then
        (mkResponse 400 (ErrorJson "walletAddress and userInputs are required."), s)
      else if falsy (coinName userInputs) || falsy (colorPalette userInputs)
              || falsy (projectType userInputs) || falsy (themeSelection userInputs)
      then (mkResponse 400 (ErrorJson "Missing required fields in userInputs."), s)
      else if negb (existsb (String.eqb (toLowerCase (default "" (projectType userInputs))))
                            ["nft"; "token"])
      then (mkResponse 400 (ErrorJson "projectType must be 'nft' or 'token'."), s)
      else if negb (existsb (String.eqb (toLowerCase (default "" (themeSelection userInputs))))
                            ["dark"; "light"])
      then (mkResponse 400 (ErrorJson "themeSelection must be 'dark' or 'light'."), s)
      else if negb (store_up_debit w) then
        (mkResponse 500 (ErrorJson "Internal server error."), s)
      else
        match live_users s !! walletAddress with
        | Some u =>
            if Qle_bool 1 (credits u) then
              let requestId := generateRequestId w in
              let s1 :=
                mkLiveServer
                  (<[walletAddress := set_credits (credits u + - (1)) u]> (live_users s))
                  (<[requestId := new_job userInputs]> (live_progressMap s))
                  (live_journal s ++ [(requestId, new_job userInputs)]) in
              (mkResponse 200 (RequestIdJson requestId),
               background w requestId walletAddress s1)
            else
              (mkResponse 400
                 (ErrorJson "Insufficient credits or invalid wallet address."), s)
        | None =>
            (mkResponse 400
               (ErrorJson "Insufficient credits or invalid wallet address."), s)
        end
  | _, _ => (mkResponse 400 (ErrorJson "walletAddress and userInputs are required."), s)
  end.

End Live.

(** ** The server with the section refresh: a body with any JSON values

    POST /start-generation of that version calls [toLowerCase] on
    [projectType] and on [themeSelection] before its [try] block.  The
    JSON body can give these fields any value.  A value that is truthy
    and not a string has no [toLowerCase]: the call throws a TypeError
    outside the [try], the promise of the handler rejects, and the handler
    sends no response; what the runtime does with the rejected promise is
    outside the model.  The wallet address is a string or missing, as
    everywhere. *)

Module SectionServerRaw.

(** A field of [userInputs] as the body gives it. *)
Inductive Field : Type :=
| Text (s : string)       (* a string *)
| OtherFalsy              (* missing, null, false, 0 *)
| OtherTruthy.            (* a number other than 0, true, an array, an object *)

Definition text_of (f : Field) : option string :=
  match f with
  | Text s => Some s
  | _ => None
  end.

Record RawInputs : Type := mkRawInputs {
  raw_coinName : option string;
  raw_colorPalette : option string;
  raw_projectType : Field;
  raw_themeSelection : Field;
  raw_projectDesc : option string
}.

Record RawBody : Type := mkRawBody {
  raw_walletAddress : option string;
  raw_userInputs : option RawInputs
}.

(** The inputs, once both fields are strings or falsy. *)
Definition typed (i : RawInputs) : UserInputs :=
  mkUserInputs (raw_coinName i) (raw_colorPalette i) (text_of (raw_projectType i))
               (text_of (raw_themeSelection i)) (raw_projectDesc i).

(** POST /start-generation: the two validations, each of which throws on
    a truthy value that is not a string, and then the route as
    [SectionServer.post_start_generation] has it. *)
Definition post_start_generation (w : SectionServer.World) (body : RawBody) : M Response :=
  match raw_walletAddress body, raw_userInputs body with
  | Some walletAddress, Some userInputs =>
      if String.eqb walletAddress "" then
        ret (mkResponse 400 (ErrorJson "walletAddress and userInputs are required."))
      else
        match raw_projectType userInputs with
        | OtherTruthy => throw "TypeError: projectType.toLowerCase is not a function"
        | _ =>
            if SectionServer.not_one_of ["nft"; "token"]
                 (text_of (raw_projectType userInputs))
            then
              ret (mkResponse 400
                     (ErrorJson "projectType must be either 'nft' or 'token'."))
            else
              match raw_themeSelection userInputs with
              | OtherTruthy =>
                  throw "TypeError: themeSelection.toLowerCase is not a function"
              | _ =>
                  SectionServer.post_start_generation w
                    (SectionServer.mkBody (Some walletAddress) (Some (typed userInputs)))
              end
        end
  | _, _ => ret (mkResponse 400 (ErrorJson "walletAddress and userInputs are required."))
  end.

End SectionServerRaw.

(** ** Vocabulary of the further statements *)

(** [pat] occurs in [s]. *)
Fixpoint occurs (pat s : string) : bool :=
  String.prefix pat s
  || match s with
     | EmptyString => false
     | String _ rest => occurs pat rest
     end.

(** Every character of [s] is one of [[a-zA-Z0-9_-]]. *)
Definition filename_safe (s : string) : Prop :=
  Forall (fun c => filename_char c = true) (list_ascii_of_string s).

(** A code fence: three backticks in a row. *)
Definition fence : string := backticks 3.

(** The value of an outside call, or [fallback] when it threw. *)
Definition value_or {A} (fallback : A) (o : Outcome A) : A :=
  match o with
  | Returns a => a
  | Throws _ => fallback
  end.

(** The world obeys the schema of models/User.js, which requires the
    content of a generated file: [user.save()] fulfils only when the site
    code that was pushed is not empty. *)
Definition save_needs_content (w : Server.World) : Prop :=
  forall text,
    createChatCompletion (Server.provider w) = Returns text ->
    Server.store_up_save w = true ->
    replace_fences (trim text) <> "".

(** The user inputs of a body name the coin and its colours. *)
Definition names_coin_and_colours (inputs : UserInputs) : bool :=
  negb (falsy (coinName inputs) || falsy (colorPalette inputs)).

(** No occurrence of [pat] starts inside [a] when [a] is followed by
    [rest]. *)
Fixpoint none_starts_in (pat a rest : string) : bool :=
  match a with
  | EmptyString => true
  | String c a' =>
      negb (String.prefix pat (a ++ rest)) && none_starts_in pat a' rest
  end.

(** No two accounts have the same user name. *)
Definition unique_usernames (db : Db) : Prop :=
  forall k1 k2 u1 u2,
    db !! k1 = Some u1 -> db !! k2 = Some u2 -> username u1 = username u2 -> k1 = k2.

(** No account has the user name [name]. *)
Definition username_free (name : string) (db : Db) : Prop :=
  forall k u, db !! k = Some u -> username u <> name.

(** A wallet service and a store that work, for a user called bob. *)
Definition bob_wallet : string := "kaspa:qzbob".

Definition create_world_up : Accounts.CreateWorld :=
  Accounts.mkCreateWorld true
    (Returns (Accounts.mkWalletData true bob_wallet "xprv-bob" "mnemonic-bob"))
    (Returns "$2b$10$bobhash") true.

Definition bob_credentials : Accounts.Credentials :=
  Accounts.mkCredentials (Some "bob") (Some "secret").

Definition bob_login : Accounts.Credentials :=
  Accounts.mkCredentials (Some bob_wallet) (Some "secret").

Definition connect_world_up : Accounts.ConnectWorld :=
  Accounts.mkConnectWorld true (Returns true).

(** Two documents of one account that differ at most in the balance and in
    the deposit records. *)
Definition same_identity (u u' : User) : Prop :=
  username u' = username u /\ walletAddress u' = walletAddress u
  /\ passwordHash u' = passwordHash u /\ xPrv u' = xPrv u
  /\ mnemonic u' = mnemonic u /\ generatedFiles u' = generatedFiles u.

(** A record, whatever its time, for a transfer of the KRC20 feed to
    [wallet]: the id of the operation, the amount in KASPER and its
    credits. *)
Definition kasper_record (wallet : string) (feed : list Deposit.KasperTx)
    (t : ProcessedTransaction) : Prop :=
  exists tx, tx ∈ feed /\ kasper_qualifies wallet tx = true
    /\ txid t = Deposit.hashRev tx /\ coinType t = KASPER
    /\ amount t = inject_Z (Deposit.amt tx) / Deposit.sompi
    /\ creditsAdded t =
         inject_Z (Deposit.amt tx) / Deposit.sompi * Deposit.CREDIT_CONVERSION KASPER.

(** A record, whatever its time, for a transaction of the Kaspa feed that
    pays [wallet]: the hash of the transaction, the KAS paid to the wallet
    and their credits. *)
Definition kaspa_record (wallet : string) (feed : list Deposit.KaspaTx)
    (t : ProcessedTransaction) : Prop :=
  exists tx, tx ∈ feed /\ 0 < kaspa_sum wallet tx
    /\ txid t = Deposit.hash tx /\ coinType t = KAS
    /\ amount t = kaspa_sum wallet tx
    /\ creditsAdded t = kaspa_sum wallet tx * Deposit.CREDIT_CONVERSION KAS.

(** Both feeds deliver one deposit each for the account of the examples:
    1600 KASPER and 2.5 KAS. *)
Definition feeds_both : Deposit.Feeds :=
  Deposit.mkFeeds true (kasper_feed [kasper_transfer "ab12" 160000000000])
    (Returns (Deposit.KaspaArray [kas_tx "9f3c" 250000000]))
    1700000000 true.

(** Both feeds are unreachable. *)
Definition feeds_down : Deposit.Feeds :=
  Deposit.mkFeeds true (Throws "ECONNREFUSED") (Throws "ECONNREFUSED") 1700000000 true.

(** * Properties *)

(** ** Running the server symbolically *)

Ltac run_step :=
  first
    [ rewrite lookup_insert_eq
    | progress cbv [bind ret await throw try_catch promise_catch db_call assign register save
                    findOneAndUpdate_credit]
    | progress cbn [users progressMap journal fst snd] ].

Ltac run_from H := repeat run_step; rewrite ?H; repeat run_step.

Ltac sorted_Z := repeat (constructor; try lia).

(** ** server.js: the background task *)

Lemma doWebsiteGeneration_fulfils w requestId userInputs user s j :
  progressMap s !! requestId = Some j ->
  exists s', Server.doWebsiteGeneration w requestId userInputs user s = (Returns tt, s').
Proof.
  intros Hj. unfold Server.doWebsiteGeneration.
  destruct w as [d rid [chat logo hero] dt sv rf].
  cbn [Server.provider Server.store_up_save Server.date createChatCompletion createLogoImage createHeroImage].
  destruct (falsy _ || falsy _); [run_from Hj; eauto|].
  destruct chat, logo, hero, sv; run_from Hj; eauto.
Qed.

Lemma background_spec w requestId wallet userInputs user s j :
  progressMap s !! requestId = Some j ->
  exists writes s' j',
    Server.background w requestId wallet userInputs user s = (Returns tt, s') /\
    journal s' = (journal s ++ writes)%list /\
    written_to requestId writes /\
    (progress j <= 10 -> Sorted Z.le (progress j :: progresses writes))%Z /\
    progressMap s' !! requestId = Some j' /\
    last writes = Some (requestId, j') /\
    progress j' = 100%Z /\
    terminal (status j') = true /\
    (users s' = users s \/
     exists file, users s' = <[walletAddress user := push_generatedFile file user]> (users s)).
Proof.
  intros Hj. unfold Server.background, Server.doWebsiteGeneration, Server.on_background_error.
  destruct w as [d rid [chat logo hero] dt sv rf].
  cbn [Server.provider Server.store_up_save Server.date createChatCompletion createLogoImage createHeroImage].
  destruct (falsy _ || falsy _).
  { run_from Hj. eexists _, _, _. split; [reflexivity|].
    cbn [journal progressMap users]. rewrite <- ?app_assoc. cbn [app].
    split; [reflexivity|]. split; [repeat constructor|].
    split; [intros; cbn; sorted_Z|].
    split; [apply lookup_insert_eq|].
    repeat split; auto. }
  destruct chat, logo, hero, sv; run_from Hj;
    (eexists _, _, _; split; [reflexivity|];
     cbn [journal progressMap users]; rewrite <- ?app_assoc; cbn [app];
     split; [reflexivity|]; split; [repeat constructor|];
     split; [intros; cbn; sorted_Z|];
     split; [apply lookup_insert_eq|];
     repeat split; eauto).
Qed.

Lemma start_generation_accepted w body s requestId task s1 :
  Server.start_generation w body s =
    (Returns (mkResponse 200 (RequestIdJson requestId), task), s1) ->
  exists wallet userInputs u,
    Server.body_walletAddress body = Some wallet /\
    Server.body_userInputs body = Some userInputs /\
    users s !! wallet = Some u /\
    Qle_bool 1 (credits u) = true /\
    requestId = Server.generateRequestId w /\
    task = Some (Server.background w requestId wallet (Some userInputs)
                   (set_credits (credits u + - (1)) u)) /\
    s1 = mkServer (<[wallet := set_credits (credits u + - (1)) u]> (users s))
                  (<[requestId := Server.new_job]> (progressMap s))
                  (journal s ++ [(requestId, Server.new_job)]).
Proof.
  unfold Server.start_generation.
  destruct (Server.body_walletAddress body) as [wa|]; [|discriminate].
  destruct (Server.body_userInputs body) as [inputs|]; [|discriminate].
  destruct (String.eqb wa ""); [discriminate|].
  cbv [try_catch bind db_call findOneAndUpdate_debit throw ret register].
  destruct (Server.store_up_debit w); [|discriminate].
  destruct (users s !! wa) as [u|] eqn:Hu; [|discriminate].
  destruct (Qle_bool 1 (credits u)) eqn:Hle; [|discriminate].
  cbn [users progressMap journal]. intros H. inversion H; subst.
  exists wa, inputs, u. repeat split; auto.
Qed.

Lemma last_progresses writes requestId j :
  last writes = Some (requestId, j) -> last (progresses writes) = Some (progress j).
Proof.
  induction writes as [|e [|e' l] IH]; intros H.
  - discriminate.
  - cbn in H. inversion H; subst. reflexivity.
  - apply IH. exact H.
Qed.

(** C8.  The progress of a job that GET /progress reports never decreases:
    from the entry that POST /start-generation creates (progress 0) on,
    every value that the route and the background task write to the
    progress of the job is at least the value written before, and the last
    one is 100, with the job done or failed. *)
Theorem C8_progress_never_decreases w body s requestId s' :
  Server.post_start_generation w body s =
    (Returns (mkResponse 200 (RequestIdJson requestId)), s') ->
  requestId <> "" ->
  exists writes st,
    journal s' = (journal s ++ writes)%list /\
    written_to requestId writes /\
    Sorted Z.le (progresses writes) /\
    head (progresses writes) = Some 0%Z /\
    last (progresses writes) = Some 100%Z /\
    terminal st = true /\
    Server.get_progress (Some requestId) s' = mkResponse 200 (ProgressJson st 100).
Proof.
  unfold Server.post_start_generation. intros H Hne.
  destruct (Server.start_generation w body s) as [[[response task]|e] s1] eqn:Hstart;
    [|discriminate].
  assert (response = mkResponse 200 (RequestIdJson requestId)) as ->
    by (destruct task; inversion H; reflexivity).
  destruct (start_generation_accepted _ _ _ _ _ _ Hstart)
    as (wa & inputs & u & _ & _ & _ & _ & Hrid & -> & ->).
  inversion H as [Hs']. clear H.
  destruct (background_spec w requestId wa (Some inputs)
              (set_credits (credits u + - (1)) u)
              (mkServer (<[wa := set_credits (credits u + - (1)) u]> (users s))
                        (<[requestId := Server.new_job]> (progressMap s))
                        (journal s ++ [(requestId, Server.new_job)])) Server.new_job)
    as (writes & s2 & j' & Hrun & Hj & Hw & Hsorted & Hlook & Hlast & Hp & Hterm & _).
  { apply lookup_insert_eq. }
  rewrite Hrun. cbn [snd].
  exists ((requestId, Server.new_job) :: writes), (status j').
  split. { rewrite Hj. cbn [journal]. rewrite <- app_assoc. reflexivity. }
  split. { constructor; [reflexivity | exact Hw]. }
  split. { apply Hsorted. cbn. lia. }
  split. { reflexivity. }
  split. { rewrite <- Hp. apply last_progresses with requestId.
           destruct writes; [discriminate | exact Hlast]. }
  split. { exact Hterm. }
  unfold Server.get_progress. destruct (String.eqb_spec requestId ""); [contradiction|].
  rewrite Hlook, Hp. reflexivity.
Qed.

(** The statement of C8 at a run where everything outside works. *)
Lemma C8_witness :
  Server.post_start_generation world_up start_body (server_with (alice 1)) =
    (Returns (mkResponse 200 (RequestIdJson "00c0ffee00c0ffee")),
     snd (Server.post_start_generation world_up start_body (server_with (alice 1)))) /\
  "00c0ffee00c0ffee" <> "" /\
  exists writes st,
    journal (snd (Server.post_start_generation world_up start_body (server_with (alice 1)))) =
      (journal (server_with (alice 1)) ++ writes)%list /\
    written_to "00c0ffee00c0ffee" writes /\
    Sorted Z.le (progresses writes) /\
    head (progresses writes) = Some 0%Z /\
    last (progresses writes) = Some 100%Z /\
    terminal st = true /\
    Server.get_progress (Some "00c0ffee00c0ffee")
      (snd (Server.post_start_generation world_up start_body (server_with (alice 1)))) =
      mkResponse 200 (ProgressJson st 100).
Proof.
  assert (H1 : Server.post_start_generation world_up start_body (server_with (alice 1)) =
    (Returns (mkResponse 200 (RequestIdJson "00c0ffee00c0ffee")),
     snd (Server.post_start_generation world_up start_body (server_with (alice 1)))))
    by (vm_compute; reflexivity).
  assert (H2 : "00c0ffee00c0ffee" <> "") by discriminate.
  split; [exact H1|]. split; [exact H2|].
  exact (C8_progress_never_decreases world_up start_body (server_with (alice 1))
           "00c0ffee00c0ffee" _ H1 H2).
Defined.

(** The background task changes no balance: the promise of
    [doWebsiteGeneration] is fulfilled whatever happens, so the [.catch]
    handler with the refund is never run. *)
Lemma start_generation_balance w body s requestId s' :
  keyed_by_wallet (users s) ->
  Server.post_start_generation w body s =
    (Returns (mkResponse 200 (RequestIdJson requestId)), s') ->
  exists wallet u,
    Server.body_walletAddress body = Some wallet /\
    users s !! wallet = Some u /\
    balance wallet s' = Some (credits u + - (1)).
Proof.
  unfold Server.post_start_generation. intros Hkey H.
  destruct (Server.start_generation w body s) as [[[response task]|e] s1] eqn:Hstart;
    [|discriminate].
  assert (response = mkResponse 200 (RequestIdJson requestId)) as ->
    by (destruct task; inversion H; reflexivity).
  destruct (start_generation_accepted _ _ _ _ _ _ Hstart)
    as (wa & inputs & u & Hwa & _ & Hu & _ & Hrid & -> & ->).
  inversion H as [Hs']. clear H.
  destruct (background_spec w requestId wa (Some inputs)
              (set_credits (credits u + - (1)) u)
              (mkServer (<[wa := set_credits (credits u + - (1)) u]> (users s))
                        (<[requestId := Server.new_job]> (progressMap s))
                        (journal s ++ [(requestId, Server.new_job)])) Server.new_job)
    as (writes & s2 & j' & Hrun & _ & _ & _ & _ & _ & _ & _ & Husers).
  { apply lookup_insert_eq. }
  rewrite Hrun. cbn [snd]. exists wa, u. split; [exact Hwa|]. split; [exact Hu|].
  unfold balance. destruct Husers as [-> | [file ->]]; cbn [users].
  - rewrite lookup_insert_eq. reflexivity.
  - cbn [walletAddress set_credits]. rewrite (Hkey _ _ Hu).
    rewrite lookup_insert_eq. reflexivity.
Qed.

(** When the save of the generated file succeeds, a job that reached DONE
    or ERROR keeps its state, its code and its images. *)
Lemma background_final_once_terminal w requestId wallet userInputs user s :
  progressMap s !! requestId = Some Server.new_job ->
  Server.store_up_save w = true ->
  exists writes s',
    Server.background w requestId wallet userInputs user s = (Returns tt, s') /\
    journal s' = (journal s ++ writes)%list /\
    final_once_terminal writes.
Proof.
  intros Hj Hsave. unfold Server.background, Server.doWebsiteGeneration, Server.on_background_error.
  destruct w as [d rid [chat logo hero] dt sv rf]. cbn in Hsave. subst sv.
  cbn [Server.provider Server.store_up_save Server.date
       createChatCompletion createLogoImage createHeroImage].
  destruct (falsy _ || falsy _);
    [|destruct chat, logo, hero]; run_from Hj;
    (eexists _, _; split; [reflexivity|];
     cbn [journal]; rewrite <- ?app_assoc; cbn [app];
     split; [reflexivity|];
     cbn; repeat split; intros; try discriminate; repeat constructor).
Qed.

(** C1 (defect of the code).  Balance 1.0; POST /start-generation succeeds
    and debits to 0.0; the chat completion throws.  The job ends in ERROR
    with progress 100, and the balance stays 0: [doWebsiteGeneration]
    catches the error itself, its promise is fulfilled, and the refund in
    the [.catch] handler of the route is never applied. *)
Theorem C1_failed_job_keeps_the_debit :
  let run := Server.post_start_generation world_primary_fails start_body
               (server_with (alice 1)) in
  balance alice_wallet (server_with (alice 1)) = Some 1 /\
  fst run = Returns (mkResponse 200 (RequestIdJson "00c0ffee00c0ffee")) /\
  Server.get_progress (Some "00c0ffee00c0ffee") (snd run) =
    mkResponse 200 (ProgressJson error 100) /\
  exists b, balance alice_wallet (snd run) = Some b /\ b == 0 /\ ~ b == 1.
Proof.
  cbv zeta. split; [reflexivity|]. split; [vm_compute; reflexivity|].
  split; [vm_compute; reflexivity|].
  eexists. split; [vm_compute; reflexivity|]. split; [reflexivity | discriminate].
Qed.

Lemma final_once_terminal_app l1 l2 :
  final_once_terminal (l1 ++ l2) -> final_once_terminal l2.
Proof.
  induction l1 as [|e l1 IH]; [trivial|]. cbn. intros [_ H]. apply IH, H.
Qed.

Lemma changed_after_terminal_not_final l1 e l2 e' l3 :
  terminal (status (snd e)) = true ->
  status (snd e') <> status (snd e) ->
  ~ final_once_terminal (l1 ++ e :: l2 ++ e' :: l3).
Proof.
  intros Ht Hne H. apply final_once_terminal_app in H. destruct H as [H _].
  specialize (H Ht). apply Forall_app in H. destruct H as [_ H].
  inversion H as [|? ? [Hst _] _]. contradiction.
Qed.

(** The journal of a run in which a job is DONE at position 9 and ERROR at
    position 11 is not final once terminal. *)
Lemma done_at_9_error_at_11 (J : list (string * Job)) d :
  J = (firstn 9 J ++ nth 9 J d :: firstn 1 (skipn 10 J) ++ nth 11 J d :: skipn 12 J)%list ->
  status (snd (nth 9 J d)) = done ->
  status (snd (nth 11 J d)) = error ->
  ~ final_once_terminal J.
Proof.
  intros HJ H9 H11. rewrite HJ.
  apply changed_after_terminal_not_final.
  - rewrite H9. reflexivity.
  - rewrite H9, H11. discriminate.
Qed.

(** C7 (defect of the code).  The generation succeeds and the save of the
    generated file fails: the job is set to DONE (a poll can see it, with
    its code and images), and the [catch] block of [doWebsiteGeneration]
    then sets it to ERROR.  Both versions of the server do so. *)
Theorem C7_done_job_becomes_error_when_save_fails :
  let run := Server.post_start_generation world_save_fails start_body
               (server_with (alice 1)) in
  let run' := SectionServer.post_start_generation section_world_save_fails
                section_start_body (server_with (alice 1)) in
  statuses (journal (snd run)) =
    [in_progress; in_progress; in_progress; in_progress; in_progress; in_progress;
     in_progress; in_progress; in_progress; done; done; error; error] /\
  Server.get_progress (Some "00c0ffee00c0ffee") (snd run) =
    mkResponse 200 (ProgressJson error 100) /\
  statuses (journal (snd run')) =
    [in_progress; in_progress; in_progress; in_progress; in_progress; in_progress;
     in_progress; in_progress; in_progress; done; done; error; error] /\
  ~ final_once_terminal (journal (snd run)) /\
  ~ final_once_terminal (journal (snd run')).
Proof.
  cbv zeta. split; [vm_compute; reflexivity|]. split; [vm_compute; reflexivity|].
  split; [vm_compute; reflexivity|].
  split.
  - apply (done_at_9_error_at_11 _ ("", Server.new_job)); vm_compute; reflexivity.
  - apply (done_at_9_error_at_11 _ ("", Server.new_job)); vm_compute; reflexivity.
Qed.

(** The background task of the server with the section refresh writes its
    progress in the same way. *)
Lemma section_background_spec w requestId wallet userInputs user s j :
  progressMap s !! requestId = Some j ->
  exists writes s' j',
    SectionServer.background w requestId wallet userInputs user s = (Returns tt, s') /\
    journal s' = (journal s ++ writes)%list /\
    written_to requestId writes /\
    (progress j <= 10 -> Sorted Z.le (progress j :: progresses writes))%Z /\
    progressMap s' !! requestId = Some j' /\
    last writes = Some (requestId, j') /\
    progress j' = 100%Z /\
    terminal (status j') = true /\
    (users s' = users s \/
     exists file, users s' = <[walletAddress user := push_generatedFile file user]> (users s)).
Proof.
  intros Hj.
  unfold SectionServer.background, SectionServer.doWebsiteGeneration,
    SectionServer.on_background_error.
  destruct w as [d rid [chat logo hero] dt sv rf].
  cbn [SectionServer.provider SectionServer.store_up_save SectionServer.date
       createChatCompletion createLogoImage createHeroImage].
  destruct (projectType (default no_inputs userInputs));
    [destruct chat, logo, hero, sv|]; run_from Hj;
    (eexists _, _, _; split; [reflexivity|];
     cbn [journal progressMap users]; rewrite <- ?app_assoc; cbn [app];
     split; [reflexivity|]; split; [repeat constructor|];
     split; [intros; cbn; sorted_Z|];
     split; [apply lookup_insert_eq|];
     repeat split; eauto).
Qed.

(** ** Debits *)

Lemma Qlt_bool_true a b : Qlt_bool a b = true <-> a < b.
Proof.
  unfold Qlt_bool. rewrite Qlt_alt. destruct (a ?= b); split; congruence.
Qed.

Lemma Qlt_bool_false a b : Qlt_bool a b = false <-> b <= a.
Proof.
  unfold Qlt_bool. rewrite Qle_alt.
  rewrite <- (Qcompare_antisym a b). destruct (a ?= b); cbn; split; congruence.
Qed.

Lemma Qle_bool_false a b : Qle_bool a b = false <-> b < a.
Proof.
  split; intros H.
  - apply Qnot_le_lt. intros Hle. apply Qle_bool_iff in Hle. congruence.
  - destruct (Qle_bool a b) eqn:E; [|reflexivity].
    apply Qle_bool_iff in E. exfalso. apply (Qlt_not_le _ _ H E).
Qed.

Lemma no_overdraft_insert db k u :
  no_overdraft db -> 0 <= credits u -> no_overdraft (<[k := u]> db).
Proof.
  intros Hdb Hu k' u'. rewrite lookup_insert. case_decide.
  - intros [= <-]. exact Hu.
  - apply Hdb.
Qed.

(** POST /start-generation either answers without touching the state, or
    debits one credit of an account that has at least one, creates the job
    and launches the background task. *)
Lemma start_generation_cases w body s :
  (exists response, Server.start_generation w body s = (Returns (response, None), s)) \/
  (exists wallet userInputs u,
     Server.body_walletAddress body = Some wallet /\
     users s !! wallet = Some u /\
     1 <= credits u /\
     Server.start_generation w body s =
       (Returns (mkResponse 200 (RequestIdJson (Server.generateRequestId w)),
                 Some (Server.background w (Server.generateRequestId w) wallet
                         (Some userInputs) (set_credits (credits u + - (1)) u))),
        mkServer (<[wallet := set_credits (credits u + - (1)) u]> (users s))
                 (<[Server.generateRequestId w := Server.new_job]> (progressMap s))
                 (journal s ++ [(Server.generateRequestId w, Server.new_job)]))).
Proof.
  unfold Server.start_generation.
  destruct (Server.body_walletAddress body) as [wa|]; [|left; eexists; reflexivity].
  destruct (Server.body_userInputs body) as [inputs|]; [|left; eexists; reflexivity].
  destruct (String.eqb wa ""); [left; eexists; reflexivity|].
  cbv [try_catch bind db_call findOneAndUpdate_debit throw ret register].
  destruct (Server.store_up_debit w); [|left; eexists; reflexivity].
  destruct (users s !! wa) as [u|] eqn:Hu; [|left; eexists; reflexivity].
  destruct (Qle_bool 1 (credits u)) eqn:Hle; [|left; eexists; reflexivity].
  right. exists wa, inputs, u. apply Qle_bool_iff in Hle. auto.
Qed.

Lemma start_generation_no_overdraft w body s :
  no_overdraft (users s) ->
  no_overdraft (users (snd (Server.post_start_generation w body s))).
Proof.
  intros Hdb. unfold Server.post_start_generation.
  destruct (start_generation_cases w body s)
    as [[response ->] | (wa & inputs & u & _ & Hu & Hle & ->)]; [exact Hdb|].
  destruct (background_spec w (Server.generateRequestId w) wa (Some inputs)
              (set_credits (credits u + - (1)) u)
              (mkServer (<[wa := set_credits (credits u + - (1)) u]> (users s))
                        (<[Server.generateRequestId w := Server.new_job]> (progressMap s))
                        (journal s ++ [(Server.generateRequestId w, Server.new_job)]))
              Server.new_job)
    as (writes & s2 & j' & Hrun & _ & _ & _ & _ & _ & _ & _ & Husers).
  { apply lookup_insert_eq. }
  rewrite Hrun. cbn [snd].
  assert (0 <= credits u + - (1)) by lra.
  destruct Husers as [-> | [file ->]]; cbn [users];
    repeat apply no_overdraft_insert; auto.
Qed.

(** POST /generate-section either answers without touching the state, or
    deducts 0.25 from an account that has at least 0.25 and then answers
    with the snippet or, when the chat completion fails, with an error;
    nothing is given back in that case. *)
Lemma generate_section_cases sw body s :
  (exists response,
     SectionServer.post_generate_section sw body s = (Returns response, s)) \/
  (exists wallet u response,
     SectionServer.section_walletAddress body = Some wallet /\
     users s !! wallet = Some u /\
     SectionServer.section_price <= credits u /\
     SectionServer.post_generate_section sw body s =
       (Returns response,
        mkServer (<[walletAddress u :=
                      set_credits (credits u - SectionServer.section_price) u]> (users s))
                 (progressMap s) (journal s)) /\
     match SectionServer.createSectionCompletion sw with
     | Throws _ => response = mkResponse 500 (ErrorJson "Internal server error.")
     | Returns gptResp =>
         exists sectionImage,
           response = mkResponse 200
             (SectionJson (replace_fences (trim gptResp)) sectionImage
                          (credits u - SectionServer.section_price))
     end).
Proof.
  unfold SectionServer.post_generate_section.
  destruct (SectionServer.section_walletAddress body) as [wa|];
    [|left; eexists; reflexivity].
  destruct (SectionServer.section body) as [sec|]; [|left; eexists; reflexivity].
  destruct (String.eqb wa "" || String.eqb sec ""); [left; eexists; reflexivity|].
  cbv [try_catch bind db_call findOne throw ret save await].
  destruct (SectionServer.store_up_find sw); [|left; eexists; reflexivity].
  destruct (users s !! wa) as [u|] eqn:Hu; [|left; eexists; reflexivity].
  destruct (Qlt_bool (credits u) SectionServer.section_price) eqn:Hlt;
    [left; eexists; reflexivity|].
  apply Qlt_bool_false in Hlt.
  destruct (SectionServer.store_up_section_save sw); [|left; eexists; reflexivity].
  cbn [users progressMap journal walletAddress set_credits credits].
  right. exists wa, u.
  destruct (SectionServer.createSectionCompletion sw) as [gptResp|e].
  - destruct (String.eqb (toLowerCase sec) "nav" || String.eqb (toLowerCase sec) "hero").
    + destruct (SectionServer.createSectionImage sw);
        (eexists; repeat split; eauto).
    + eexists; repeat split; eauto.
  - eexists; repeat split; eauto.
Qed.

Lemma generate_section_no_overdraft sw body s :
  no_overdraft (users s) ->
  no_overdraft (users (snd (SectionServer.post_generate_section sw body s))).
Proof.
  intros Hdb.
  destruct (generate_section_cases sw body s)
    as [[response ->] | (wa & u & response & _ & Hu & Hle & -> & _)]; [exact Hdb|].
  cbn [snd users]. apply no_overdraft_insert; [exact Hdb|].
  cbn [credits set_credits]. lra.
Qed.

(** C3.  Both debits need enough credits.  For an account that exists, with
    the store reachable: POST /start-generation takes one credit iff the
    balance is at least 1, and POST /generate-section takes 0.25 iff the
    balance is at least 0.25; otherwise the route answers 400 (insufficient
    credits) and nothing changes.  Whatever happens outside, neither route
    leaves a negative balance in the store.  With a balance of 0.2 the
    section refresh is refused and the balance stays 0.2. *)
Theorem C3_debits_need_enough_credits
    (w : Server.World) (sw : SectionServer.SectionWorld)
    (wallet sec : string) (inputs : UserInputs) (s : Server) (u : User) :
  wallet <> "" ->
  sec <> "" ->
  keyed_by_wallet (users s) ->
  no_overdraft (users s) ->
  users s !! wallet = Some u ->
  Server.store_up_debit w = true ->
  SectionServer.store_up_find sw = true ->
  SectionServer.store_up_section_save sw = true ->
  (1 <= credits u ->
   exists task s1,
     Server.start_generation w (Server.mkBody (Some wallet) (Some inputs)) s =
       (Returns (mkResponse 200 (RequestIdJson (Server.generateRequestId w)), Some task), s1)
     /\ balance wallet s1 = Some (credits u + - (1)))
  /\ (credits u < 1 ->
      Server.start_generation w (Server.mkBody (Some wallet) (Some inputs)) s =
        (Returns (mkResponse 400
                    (ErrorJson "Insufficient credits or invalid wallet address."), None), s))
  /\ (0.25 <= credits u ->
      exists response s1,
        SectionServer.post_generate_section sw
          (SectionServer.mkSectionBody (Some wallet) (Some sec)) s = (Returns response, s1)
        /\ balance wallet s1 = Some (credits u - 0.25))
  /\ (credits u < 0.25 ->
      SectionServer.post_generate_section sw
        (SectionServer.mkSectionBody (Some wallet) (Some sec)) s =
        (Returns (mkResponse 400
                    (ErrorJson "Insufficient credits for a section refresh (need 0.25).")), s))
  /\ (forall w' body',
        no_overdraft (users (snd (Server.post_start_generation w' body' s))))
  /\ (forall sw' body',
        no_overdraft (users (snd (SectionServer.post_generate_section sw' body' s))))
  /\ SectionServer.post_generate_section sw section_body (server_with (alice 0.2)) =
       (Returns (mkResponse 400
                   (ErrorJson "Insufficient credits for a section refresh (need 0.25).")),
        server_with (alice 0.2)).
Proof.
  intros Hwallet Hsec Hkey Hdb Hu Hdebit Hfind Hsave.
  assert (Ew : String.eqb wallet "" = false) by (apply String.eqb_neq; exact Hwallet).
  assert (Es : String.eqb sec "" = false) by (apply String.eqb_neq; exact Hsec).
  repeat split.
  - intros Hle. apply Qle_bool_iff in Hle.
    unfold Server.start_generation. cbn [Server.body_walletAddress Server.body_userInputs].
    rewrite Ew. cbv [try_catch bind db_call findOneAndUpdate_debit throw ret register].
    rewrite Hdebit, Hu, Hle. cbn [users progressMap journal].
    eexists _, _. split; [reflexivity|].
    unfold balance. cbn [users]. rewrite lookup_insert_eq. reflexivity.
  - intros Hlt. apply Qle_bool_false in Hlt.
    unfold Server.start_generation. cbn [Server.body_walletAddress Server.body_userInputs].
    rewrite Ew. cbv [try_catch bind db_call findOneAndUpdate_debit throw ret register].
    rewrite Hdebit, Hu, Hlt. reflexivity.
  - intros Hle. apply Qlt_bool_false in Hle.
    unfold SectionServer.post_generate_section.
    cbn [SectionServer.section_walletAddress SectionServer.section].
    rewrite Ew, Es. cbn [orb]. cbv [try_catch bind db_call findOne throw ret save await].
    rewrite Hfind, Hu. unfold SectionServer.section_price. rewrite Hle, Hsave.
    cbn [users progressMap journal walletAddress set_credits]. rewrite (Hkey _ _ Hu).
    destruct (SectionServer.createSectionCompletion sw);
      [destruct (String.eqb (toLowerCase sec) "nav" || String.eqb (toLowerCase sec) "hero");
       [destruct (SectionServer.createSectionImage sw)|]|];
      (eexists _, _; split; [reflexivity|];
       unfold balance; cbn [users]; rewrite lookup_insert_eq; reflexivity).
  - intros Hlt. apply Qlt_bool_true in Hlt.
    unfold SectionServer.post_generate_section.
    cbn [SectionServer.section_walletAddress SectionServer.section].
    rewrite Ew, Es. cbn [orb]. cbv [try_catch bind db_call findOne throw ret save await].
    rewrite Hfind, Hu. unfold SectionServer.section_price. rewrite Hlt. reflexivity.
  - intros w' body'. apply start_generation_no_overdraft, Hdb.
  - intros sw' body'. apply generate_section_no_overdraft, Hdb.
  - unfold SectionServer.post_generate_section, section_body.
    cbn [SectionServer.section_walletAddress SectionServer.section].
    cbv [try_catch bind db_call findOne throw ret save await].
    rewrite Hfind. vm_compute. reflexivity.
Qed.

Lemma singleton_keyed_by_wallet u : keyed_by_wallet (users (server_with u)).
Proof.
  intros k u'. cbn [users server_with]. rewrite lookup_singleton_Some.
  intros [<- <-]. reflexivity.
Qed.

Lemma singleton_no_overdraft u : 0 <= credits u -> no_overdraft (users (server_with u)).
Proof.
  intros H k u'. cbn [users server_with]. rewrite lookup_singleton_Some.
  intros [_ <-]. exact H.
Qed.

(** C3 at an account with one credit: the start of a job takes it. *)
Lemma C3_witness :
  alice_wallet <> "" /\ "hero" <> "" /\
  keyed_by_wallet (users (server_with (alice 1))) /\
  no_overdraft (users (server_with (alice 1))) /\
  users (server_with (alice 1)) !! alice_wallet = Some (alice 1) /\
  Server.store_up_debit world_up = true /\
  SectionServer.store_up_find section_world_up = true /\
  SectionServer.store_up_section_save section_world_up = true /\
  1 <= credits (alice 1) /\
  exists task s1,
    Server.start_generation world_up
      (Server.mkBody (Some alice_wallet) (Some coin_inputs)) (server_with (alice 1)) =
      (Returns (mkResponse 200 (RequestIdJson (Server.generateRequestId world_up)),
                Some task), s1)
    /\ balance alice_wallet s1 = Some (credits (alice 1) + - (1)).
Proof.
  assert (H1 : alice_wallet <> "") by discriminate.
  assert (H2 : "hero" <> "") by discriminate.
  assert (H3 := singleton_keyed_by_wallet (alice 1)).
  assert (H4 : no_overdraft (users (server_with (alice 1))))
    by (apply singleton_no_overdraft; discriminate).
  assert (H5 : users (server_with (alice 1)) !! alice_wallet = Some (alice 1))
    by (vm_compute; reflexivity).
  assert (H9 : 1 <= credits (alice 1)) by discriminate.
  repeat (split; [first [assumption | reflexivity]|]).
  exact (proj1 (C3_debits_need_enough_credits world_up section_world_up
                  alice_wallet "hero" coin_inputs (server_with (alice 1)) (alice 1)
                  H1 H2 H3 H4 H5 eq_refl eq_refl eq_refl) H9).
Defined.

(** ** The section refresh keeps its price when the content request fails *)

(** C4 (defect of the code).  Balance 1; POST /generate-section debits
    0.25 and saves; the chat completion of the section throws.  The route
    answers 500 and the balance stays 0.75, not the 1 of before the call:
    the [catch] block of the route only answers, where POST
    /start-generation, for the same failure after its debit, has the code
    that gives the credit back. *)
Theorem C4_failed_section_refresh_keeps_the_debit :
  let before := server_with (alice 1) in
  let run := SectionServer.post_generate_section section_world_chat_fails
               section_body before in
  balance alice_wallet before = Some 1 /\
  fst run = Returns (mkResponse 500 (ErrorJson "Internal server error.")) /\
  exists b, balance alice_wallet (snd run) = Some b /\ b == 0.75 /\ ~ b == 1.
Proof.
  cbv zeta. split; [reflexivity|]. split; [vm_compute; reflexivity|].
  eexists. split; [vm_compute; reflexivity|]. split; [reflexivity | discriminate].
Qed.

(** The same for every account and every section: when the debit of 0.25
    succeeds and the chat completion of the section fails, POST
    /generate-section answers 500 (internal server error) and gives
    nothing back: the balance stays 0.25 below its value before the
    call. *)
Lemma failed_section_refresh_is_not_refunded
    (sw : SectionServer.SectionWorld) (wallet sec e : string) (s : Server) (u : User) :
  wallet <> "" ->
  sec <> "" ->
  keyed_by_wallet (users s) ->
  users s !! wallet = Some u ->
  0.25 <= credits u ->
  SectionServer.store_up_find sw = true ->
  SectionServer.store_up_section_save sw = true ->
  SectionServer.createSectionCompletion sw = Throws e ->
  exists s1,
    SectionServer.post_generate_section sw
      (SectionServer.mkSectionBody (Some wallet) (Some sec)) s =
      (Returns (mkResponse 500 (ErrorJson "Internal server error.")), s1)
    /\ balance wallet s1 = Some (credits u - 0.25)
    /\ credits u - 0.25 < credits u
    /\ progressMap s1 = progressMap s.
Proof.
  intros Hwallet Hsec Hkey Hu Hle Hfind Hsave Hchat.
  assert (Ew : String.eqb wallet "" = false) by (apply String.eqb_neq; exact Hwallet).
  assert (Es : String.eqb sec "" = false) by (apply String.eqb_neq; exact Hsec).
  apply Qlt_bool_false in Hle.
  unfold SectionServer.post_generate_section.
  cbn [SectionServer.section_walletAddress SectionServer.section].
  rewrite Ew, Es. cbn [orb]. cbv [try_catch bind db_call findOne throw ret save await].
  rewrite Hfind, Hu. unfold SectionServer.section_price. rewrite Hle, Hsave, Hchat.
  cbn [users progressMap journal walletAddress set_credits]. rewrite (Hkey _ _ Hu).
  eexists. split; [reflexivity|]. split.
  - unfold balance. cbn [users]. rewrite lookup_insert_eq. reflexivity.
  - split; [lra | reflexivity].
Qed.

(** The account of the example meets these conditions. *)
Lemma failed_section_refresh_is_not_refunded_at_alice :
  alice_wallet <> "" /\ "hero" <> "" /\
  keyed_by_wallet (users (server_with (alice 1))) /\
  users (server_with (alice 1)) !! alice_wallet = Some (alice 1) /\
  0.25 <= credits (alice 1) /\
  SectionServer.store_up_find section_world_chat_fails = true /\
  SectionServer.store_up_section_save section_world_chat_fails = true /\
  SectionServer.createSectionCompletion section_world_chat_fails =
    Throws "Request failed with status code 429" /\
  exists s1,
    SectionServer.post_generate_section section_world_chat_fails
      (SectionServer.mkSectionBody (Some alice_wallet) (Some "hero"))
      (server_with (alice 1)) =
      (Returns (mkResponse 500 (ErrorJson "Internal server error.")), s1)
    /\ balance alice_wallet s1 = Some (credits (alice 1) - 0.25)
    /\ credits (alice 1) - 0.25 < credits (alice 1)
    /\ progressMap s1 = progressMap (server_with (alice 1)).
Proof.
  assert (H1 : alice_wallet <> "") by discriminate.
  assert (H2 : "hero" <> "") by discriminate.
  assert (H3 := singleton_keyed_by_wallet (alice 1)).
  assert (H4 : users (server_with (alice 1)) !! alice_wallet = Some (alice 1))
    by (vm_compute; reflexivity).
  assert (H5 : 0.25 <= credits (alice 1)) by discriminate.
  repeat (split; [first [assumption | reflexivity]|]).
  exact (failed_section_refresh_is_not_refunded section_world_chat_fails
           alice_wallet "hero" _ (server_with (alice 1)) (alice 1)
           H1 H2 H3 H4 H5 eq_refl eq_refl eq_refl).
Defined.

(** ** services/depositService.js: reconciliation *)

Lemma total_creditsAdded_app l1 l2 :
  total_creditsAdded (l1 ++ l2) == total_creditsAdded l1 + total_creditsAdded l2.
Proof.
  unfold total_creditsAdded.
  induction l1 as [|t l1 IH]; cbn [app fold_right].
  - ring.
  - rewrite IH. ring.
Qed.

Lemma alreadyProcessed_true u h : Deposit.alreadyProcessed u h = true <-> h ∈ txids u.
Proof.
  unfold Deposit.alreadyProcessed, txids. rewrite existsb_exists, list_elem_of_In, in_map_iff.
  split; intros (t & H1 & H2); exists t.
  - apply String.eqb_eq in H2. auto.
  - split; [exact H2|]. apply String.eqb_eq. exact H1.
Qed.

Lemma alreadyProcessed_false u h : Deposit.alreadyProcessed u h = false <-> h ∉ txids u.
Proof.
  rewrite <- alreadyProcessed_true. destruct (Deposit.alreadyProcessed u h); split; congruence.
Qed.




(** One KRC20 operation either leaves the account as it is, or, when it is
    a transfer to the account with an id that is not recorded, adds one
    record for it. *)
Lemma kasper_tx_cases now wallet u tx :
((kasper_qualifies wallet tx = true -> Deposit.hashRev tx ∈ txids u)
   /\ Deposit.kasper_tx now wallet u tx = u)
  \/
  (kasper_qualifies wallet tx = true
   /\ (Deposit.hashRev tx ∉ txids u)
   /\ Deposit.kasper_tx now wallet u tx =
        push_processedTransaction
          (mkProcessedTransaction (Deposit.hashRev tx) KASPER
             (inject_Z (Deposit.amt tx) / Deposit.sompi)
             (inject_Z (Deposit.amt tx) / Deposit.sompi * Deposit.CREDIT_CONVERSION KASPER)
             now)
          (set_credits
             (credits u
              + inject_Z (Deposit.amt tx) / Deposit.sompi * Deposit.CREDIT_CONVERSION KASPER)
             u)).
Proof.
  unfold Deposit.kasper_tx, kasper_qualifies. cbv zeta.
  destruct (String.eqb (toLowerCase (Deposit.op tx)) "transfer"
            && String.eqb (Deposit.to tx) wallet); cbn [andb];
    [|left; split; [discriminate | reflexivity]].
  destruct (Deposit.alreadyProcessed u (Deposit.hashRev tx)) eqn:E; cbn [negb].
  - left. apply alreadyProcessed_true in E. auto.
  - right. apply alreadyProcessed_false in E. auto.
Qed.

(** One Kaspa transaction either leaves the account as it is, or, when its
    outputs pay the account more than zero and its id is not recorded, adds
    one record for it. *)
Lemma kaspa_tx_cases now wallet u tx :
  ((0 < kaspa_sum wallet tx -> Deposit.hash tx ∈ txids u)
   /\ Deposit.kaspa_tx now wallet u tx = u)
  \/
  (0 < kaspa_sum wallet tx
   /\ (Deposit.hash tx ∉ txids u)
   /\ Deposit.kaspa_tx now wallet u tx =
        push_processedTransaction
          (mkProcessedTransaction (Deposit.hash tx) KAS
             (kaspa_sum wallet tx)
             (kaspa_sum wallet tx * Deposit.CREDIT_CONVERSION KAS)
             now)
          (set_credits (credits u + kaspa_sum wallet tx * Deposit.CREDIT_CONVERSION KAS) u)).
Proof.
  unfold Deposit.kaspa_tx, kaspa_sum. cbv zeta.
  destruct (Deposit.outputs tx) as [[|out outs]|];
    [left; split; [intros H; discriminate H | reflexivity]
    | |left; split; [intros H; discriminate H | reflexivity]].
  destruct (Qlt_bool 0 (Deposit.sumToUser wallet (out :: outs))) eqn:Hpos.
  - destruct (Deposit.alreadyProcessed u (Deposit.hash tx)) eqn:E; cbn [negb].
    + left. apply alreadyProcessed_true in E. auto.
    + right. apply alreadyProcessed_false in E. apply Qlt_bool_true in Hpos. auto.
  - left. split; [|reflexivity]. intros H. apply Qlt_bool_true in H. congruence.
Qed.

(** The two loops of the deposit service have the same shape: a step either
    leaves the account as it is, and then a wanted transaction is already
    recorded, or it adds one record under the id of the transaction, which
    was wanted and not recorded. *)
Section ScanLoop.
Context {T : Type}.
Variable step : User -> T -> User.
Variable key : T -> string.
Variable wanted : T -> Prop.

Hypothesis step_cases : forall u tx,
  ((wanted tx -> key tx ∈ txids u) /\ step u tx = u)
  \/ (wanted tx /\ (key tx ∉ txids u) /\
      exists coin a c now,
        step u tx =
          push_processedTransaction (mkProcessedTransaction (key tx) coin a c now)
            (set_credits (credits u + c) u)).





(** When every wanted transaction of the feed is recorded, the loop
    changes nothing. *)
Lemma loop_fixpoint txs : forall u,
  (forall tx, tx ∈ txs -> wanted tx -> key tx ∈ txids u) ->
  fold_left step txs u = u.
Proof.
  induction txs as [|tx0 txs IH]; intros u Hrec; cbn [fold_left]; [reflexivity|].
  destruct (step_cases u tx0) as [[_ ->] | (Hw & Hfresh & _)].
  - apply IH. intros tx Hin. apply Hrec. apply elem_of_cons. right. exact Hin.
  - exfalso. apply Hfresh, Hrec; [apply elem_of_cons; left; reflexivity | exact Hw].
Qed.
End ScanLoop.

Lemma kasper_loop_cases now wallet u tx :
  ((kasper_qualifies wallet tx = true -> Deposit.hashRev tx ∈ txids u)
   /\ Deposit.kasper_tx now wallet u tx = u)
  \/ (kasper_qualifies wallet tx = true /\ (Deposit.hashRev tx ∉ txids u) /\
      exists coin a c now',
        Deposit.kasper_tx now wallet u tx =
          push_processedTransaction
            (mkProcessedTransaction (Deposit.hashRev tx) coin a c now')
            (set_credits (credits u + c) u)).
Proof.
  destruct (kasper_tx_cases now wallet u tx) as [H | (Hq & Hf & ->)]; [left; exact H|].
  right. split; [exact Hq|]. split; [exact Hf|]. eauto.
Qed.

Lemma kaspa_loop_cases now wallet u tx :
  ((0 < kaspa_sum wallet tx -> Deposit.hash tx ∈ txids u)
   /\ Deposit.kaspa_tx now wallet u tx = u)
  \/ (0 < kaspa_sum wallet tx /\ (Deposit.hash tx ∉ txids u) /\
      exists coin a c now',
        Deposit.kaspa_tx now wallet u tx =
          push_processedTransaction
            (mkProcessedTransaction (Deposit.hash tx) coin a c now')
            (set_credits (credits u + c) u)).
Proof.
  destruct (kaspa_tx_cases now wallet u tx) as [H | (Hq & Hf & ->)]; [left; exact H|].
  right. split; [exact Hq|]. split; [exact Hf|]. eauto.
Qed.

Lemma processUserKasperDeposits_loop now r u :
  Deposit.processUserKasperDeposits now r u =
    fold_left (Deposit.kasper_tx now (walletAddress u)) (kasper_transactions r) u.
Proof.
  unfold Deposit.processUserKasperDeposits, kasper_transactions.
  destruct r as [data|e]; [|reflexivity].
  destruct (String.eqb (Deposit.message data) "successful"); reflexivity.
Qed.

Lemma processUserKaspaDeposits_loop now r u :
  Deposit.processUserKaspaDeposits now r u =
    fold_left (Deposit.kaspa_tx now (walletAddress u)) (kaspa_transactions r) u.
Proof.
  unfold Deposit.processUserKaspaDeposits, kaspa_transactions.
  destruct r as [[txs|]|e]; reflexivity.
Qed.



(** A scan of feeds whose wanted transactions are all recorded changes
    nothing. *)
Lemma scan_nothing_new f u :
  (forall tx, tx ∈ kasper_transactions (Deposit.kasper_response f) ->
              kasper_qualifies (walletAddress u) tx = true ->
              Deposit.hashRev tx ∈ txids u) ->
  (forall tx, tx ∈ kaspa_transactions (Deposit.kaspa_response f) ->
              0 < kaspa_sum (walletAddress u) tx ->
              Deposit.hash tx ∈ txids u) ->
  Deposit.processUserDeposits f u = u.
Proof.
  intros Hk Hn. unfold Deposit.processUserDeposits.
  rewrite processUserKasperDeposits_loop.
  rewrite (loop_fixpoint _ _ _ (kasper_loop_cases (Deposit.clock f) (walletAddress u)) _ u Hk).
  rewrite processUserKaspaDeposits_loop.
  apply (loop_fixpoint _ _ _ (kaspa_loop_cases (Deposit.clock f) (walletAddress u)) _ u Hn).
Qed.






(** The scenario of the duplicate delivery: the Kaspa feed returns the same
    transaction of 2.5 KAS twice; one record exists afterwards and the
    balance went from 0 to 2.5. *)
Example duplicate_delivery_is_credited_once :
  let u1 := Deposit.processUserDeposits feeds_duplicate (alice 0) in
  txids u1 = ["9f3c"]
  /\ map coinType (processedTransactions u1) = [KAS]
  /\ total_creditsAdded (processedTransactions u1) == 2.5
  /\ credits u1 == 2.5.
Proof. repeat split; reflexivity. Qed.


(** ** Conversion of deposits to credits *)

Lemma sumToUser_from wallet outs : forall acc,
  fold_left
    (fun sum out =>
       if String.eqb (Deposit.script_public_key_address out) wallet
       then sum + inject_Z (Deposit.out_amount out) / Deposit.sompi
       else sum)
    outs acc
  == acc + inject_Z (sompis_to wallet outs) / Deposit.sompi.
Proof.
  induction outs as [|out outs IH]; intros acc; cbn [fold_left sompis_to fold_right].
  - unfold Deposit.sompi. field.
  - rewrite IH. fold (sompis_to wallet outs).
    destruct (String.eqb (Deposit.script_public_key_address out) wallet).
    + rewrite inject_Z_plus. unfold Deposit.sompi. field.
    + reflexivity.
Qed.

(** The KAS paid to the account: the sompis of the outputs addressed to
    it, divided by 10^8. *)
Lemma sumToUser_sompis wallet outs :
  Deposit.sumToUser wallet outs == inject_Z (sompis_to wallet outs) / 100000000.
Proof.
  unfold Deposit.sumToUser. rewrite sumToUser_from. unfold Deposit.sompi. field.
Qed.

(** C6, as stated, fails in its example: a KRC20 transfer of 800 raw units
    to an account with balance 0 credits 800 / 10^8 / 800 = 10^-8 credits,
    not one credit. *)
Lemma C6_counterexample :
  let u1 := Deposit.processUserKasperDeposits 1700000000
              (kasper_feed [kasper_transfer "9f3c" 800]) (alice 0) in
  txids u1 = ["9f3c"] /\ credits u1 == 1 / 100000000 /\ ~ credits u1 == 1.
Proof. cbv zeta. split; [reflexivity|]. split; [reflexivity | discriminate]. Qed.

(** C6, amended.  A deposit is converted to credits by dividing the raw
    amount by 10^8 and multiplying by the rate of the coin: 1/800 for a
    KRC20 transfer of KASPER, 1 for the sompis that a Kaspa transaction
    pays to the account.  A KASPER transfer of 800 * 10^8 raw units credits
    exactly one credit; one of 800 raw units credits 10^-8 credits. *)
Theorem C6_deposits_are_scaled_then_converted
    (now : Z) (wallet : string) (u : User)
    (ktx : Deposit.KasperTx) (ntx : Deposit.KaspaTx) (outs : list Deposit.KaspaOutput) :
  kasper_qualifies wallet ktx = true ->
  Deposit.hashRev ktx ∉ txids u ->
  Deposit.outputs ntx = Some outs ->
  0 < kaspa_sum wallet ntx ->
  Deposit.hash ntx ∉ txids u ->
  credits (Deposit.kasper_tx now wallet u ktx)
    == credits u + inject_Z (Deposit.amt ktx) / 100000000 * (1 / 800)
  /\ (Deposit.amt ktx = (800 * 100000000)%Z ->
      credits (Deposit.kasper_tx now wallet u ktx) == credits u + 1)
  /\ (Deposit.amt ktx = 800%Z ->
      credits (Deposit.kasper_tx now wallet u ktx) == credits u + 1 / 100000000)
  /\ credits (Deposit.kaspa_tx now wallet u ntx)
       == credits u + inject_Z (sompis_to wallet outs) / 100000000 * 1
  /\ Deposit.CREDIT_CONVERSION KASPER == 1 / 800
  /\ Deposit.CREDIT_CONVERSION KAS == 1.
Proof.
  intros Hq Hk Houts Hpos Hn.
  destruct (kasper_tx_cases now wallet u ktx) as [[Hrec _] | (_ & _ & Ek)];
    [exfalso; exact (Hk (Hrec Hq))|].
  destruct (kaspa_tx_cases now wallet u ntx) as [[Hrec _] | (_ & _ & En)];
    [exfalso; exact (Hn (Hrec Hpos))|].
  assert (Hcred : credits (Deposit.kasper_tx now wallet u ktx)
                  == credits u + inject_Z (Deposit.amt ktx) / 100000000 * (1 / 800)).
  { rewrite Ek. cbn [credits push_processedTransaction set_credits].
    unfold Deposit.sompi, Deposit.CREDIT_CONVERSION. reflexivity. }
  split; [exact Hcred|]. split; [|split; [|split; [|split]]].
  - intros E. rewrite Hcred, E. apply Qplus_inj_l. reflexivity.
  - intros E. rewrite Hcred, E. apply Qplus_inj_l. reflexivity.
  - rewrite En. cbn [credits push_processedTransaction set_credits].
    unfold kaspa_sum. rewrite Houts, sumToUser_sompis.
    unfold Deposit.CREDIT_CONVERSION. field.
  - reflexivity.
  - reflexivity.
Qed.

(** C6 (amended) at a transfer of 800 KASPER and a payment of 2.5 KAS. *)
Lemma C6_witness :
  kasper_qualifies alice_wallet (kasper_transfer "77aa" 80000000000) = true /\
("77aa" ∉ txids (alice 0)) /\
  Deposit.outputs (kas_tx "9f3c" 250000000) =
    Some [Deposit.mkKaspaOutput alice_wallet 250000000] /\
  0 < kaspa_sum alice_wallet (kas_tx "9f3c" 250000000) /\
  ("9f3c" ∉ txids (alice 0)) /\
  credits (Deposit.kasper_tx 1700000000 alice_wallet (alice 0)
             (kasper_transfer "77aa" 80000000000)) == credits (alice 0) + 1.
Proof.
  assert (H1 : kasper_qualifies alice_wallet (kasper_transfer "77aa" 80000000000) = true)
    by reflexivity.
  assert (H2 : "77aa" ∉ txids (alice 0)) by (intros H; inversion H).
  assert (H3 : Deposit.outputs (kas_tx "9f3c" 250000000) =
               Some [Deposit.mkKaspaOutput alice_wallet 250000000]) by reflexivity.
  assert (H4 : 0 < kaspa_sum alice_wallet (kas_tx "9f3c" 250000000)) by reflexivity.
  assert (H5 : "9f3c" ∉ txids (alice 0)) by (intros H; inversion H).
  repeat (split; [assumption|]).
  exact (proj1 (proj2 (C6_deposits_are_scaled_then_converted 1700000000 alice_wallet
                         (alice 0) (kasper_transfer "77aa" 80000000000)
                         (kas_tx "9f3c" 250000000) _ H1 H2 H3 H4 H5)) eq_refl).
Defined.

(** ** Which deposits are credited *)







(** ** Deduplication *)

(** C10, as stated, fails: the account has a KAS deposit recorded under the
    id 9f3c; a KRC20 transfer of 800 KASPER to the account with the same id
    is skipped: no record is added and the balance does not change. *)
Lemma C10_counterexample :
  let tx := kasper_transfer "9f3c" 80000000000 in
  let u1 := Deposit.processUserKasperDeposits 1700000000 (kasper_feed [tx])
              alice_paid_in_kas in
  map coinType (records_of "9f3c" alice_paid_in_kas) = [KAS] /\
  kasper_qualifies alice_wallet tx = true /\
  u1 = alice_paid_in_kas /\
  map coinType (records_of "9f3c" u1) = [KAS].
Proof. cbv zeta. repeat split; reflexivity. Qed.

(** C10, amended.  Processed deposits are deduplicated by transaction id
    alone: a transaction whose id is recorded for the account, under
    either coin type, is skipped by the KRC20 loop and by the Kaspa loop. *)
Theorem C10_deduplication_by_txid_alone
    (now : Z) (wallet : string) (u : User) (r : ProcessedTransaction)
    (ktx : Deposit.KasperTx) (ntx : Deposit.KaspaTx) :
  r ∈ processedTransactions u ->
  (txid r = Deposit.hashRev ktx -> Deposit.kasper_tx now wallet u ktx = u)
  /\ (txid r = Deposit.hash ntx -> Deposit.kaspa_tx now wallet u ntx = u).
Proof.
  intros Hr.
  assert (Hin : txid r ∈ txids u).
  { unfold txids. apply list_elem_of_In, in_map, list_elem_of_In, Hr. }
  split; intros E; rewrite E in Hin.
  - destruct (kasper_tx_cases now wallet u ktx) as [[_ H] | (_ & Hf & _)];
      [exact H | contradiction].
  - destruct (kaspa_tx_cases now wallet u ntx) as [[_ H] | (_ & Hf & _)];
      [exact H | contradiction].
Qed.

(** C10 (amended) at the account of the counterexample. *)
Lemma C10_witness :
  mkProcessedTransaction "9f3c" KAS 2.5 2.5 1700000000
    ∈ processedTransactions alice_paid_in_kas /\
  Deposit.kasper_tx 1700000000 alice_wallet alice_paid_in_kas
    (kasper_transfer "9f3c" 80000000000) = alice_paid_in_kas.
Proof.
  assert (H : mkProcessedTransaction "9f3c" KAS 2.5 2.5 1700000000
                ∈ processedTransactions alice_paid_in_kas)
    by (apply elem_of_cons; left; reflexivity).
  split; [exact H|].
  exact (proj1 (C10_deduplication_by_txid_alone 1700000000 alice_wallet alice_paid_in_kas
                  _ (kasper_transfer "9f3c" 80000000000) (kas_tx "9f3c" 1) H) eq_refl).
Defined.

(** * The rest of the server *)

(** ** File names *)

Lemma sanitizeFilename_filename_safe name : filename_safe (sanitizeFilename name).
Proof.
  unfold filename_safe. induction name as [|c rest IH]; cbn; constructor; [|exact IH].
  destruct (filename_char c) eqn:E; [exact E | reflexivity].
Qed.

(** X1.  [sanitizeFilename] keeps the length of the name and leaves only
    letters, digits, underscores and hyphens: no quote, slash, dot or line
    break reaches the file name of the [Content-Disposition] header. *)
Theorem sanitizeFilename_safe (name : string) :
  filename_safe (sanitizeFilename name)
  /\ String.length (sanitizeFilename name) = String.length name.
Proof.
  split; [apply sanitizeFilename_filename_safe|].
  induction name as [|c rest IH]; cbn; [reflexivity|]. f_equal. exact IH.
Qed.

(** X2.  The names that [sanitizeFilename] leaves as they are are exactly
    the safe ones; so sanitising twice is sanitising once. *)
Theorem sanitizeFilename_fixpoint (name : string) :
  (sanitizeFilename name = name <-> filename_safe name)
  /\ sanitizeFilename (sanitizeFilename name) = sanitizeFilename name.
Proof.
  assert (Hfix : forall s, filename_safe s -> sanitizeFilename s = s).
  { unfold filename_safe. induction s as [|c rest IH]; cbn; [reflexivity|].
    intros H. inversion H as [|? ? Hc Hrest]; subst.
    rewrite Hc. f_equal. apply IH, Hrest. }
  split; [split|].
  - intros E. rewrite <- E. apply sanitizeFilename_filename_safe.
  - apply Hfix.
  - apply Hfix, sanitizeFilename_filename_safe.
Qed.

(** ** Code fences *)

Lemma occurs_fence_cons c s :
  Ascii.eqb c backtick = false ->
  occurs fence (String c s) = occurs fence s.
Proof.
  intros Hc. cbn [occurs fence backticks String.prefix].
  destruct (ascii_dec backtick c) as [E|E]; [|reflexivity].
  subst c. rewrite Ascii.eqb_refl in Hc. discriminate.
Qed.

Lemma occurs_fence_flush run c s :
  Ascii.eqb c backtick = false ->
  occurs fence (flush_run run ++ String c s) = occurs fence s.
Proof.
  intros Hc. pose proof (occurs_fence_cons c s Hc) as Hcons.
  assert (Hne : backtick <> c).
  { intros E. subst c. rewrite Ascii.eqb_refl in Hc. discriminate. }
  unfold flush_run.
  destruct run as [|[|[|run]]];
    cbv [Nat.leb backticks append];
    cbn [occurs fence backticks String.prefix];
    repeat match goal with
           | |- context [ascii_dec backtick backtick] =>
               destruct (ascii_dec backtick backtick) as [_|F]; [|contradiction]
           | |- context [ascii_dec backtick c] =>
               destruct (ascii_dec backtick c) as [E|_]; [contradiction|]
           end;
    cbn [orb]; reflexivity.
Qed.

Lemma occurs_fence_flush_end run : occurs fence (flush_run run) = false.
Proof.
  unfold flush_run. destruct run as [|[|[|run]]]; reflexivity.
Qed.

Lemma replace_fences_from_no_fence s : forall run,
  occurs fence (replace_fences_from run s) = false.
Proof.
  induction s as [|c s IH]; intros run; cbn [replace_fences_from].
  - apply occurs_fence_flush_end.
  - destruct (Ascii.eqb c backtick) eqn:Hc; [apply IH|].
    rewrite (occurs_fence_flush run c _ Hc). apply IH.
Qed.

(** X3.  [replace_fences] leaves no code fence: no three backticks in a
    row occur in [s.replace(/```+/g, "")], whatever [s] is. *)
Theorem replace_fences_no_fence (s : string) :
  occurs fence (replace_fences s) = false.
Proof. apply replace_fences_from_no_fence. Qed.

Lemma append_cons c a b : (String c a ++ b)%string = String c (a ++ b).
Proof. reflexivity. Qed.

Lemma append_empty_r a : (a ++ "")%string = a.
Proof. induction a as [|c a IH]; [reflexivity|]. rewrite append_cons, IH. reflexivity. Qed.

Lemma occurs_app_r pat a b : occurs pat (a ++ b) = false -> occurs pat b = false.
Proof.
  induction a as [|c a IH]; [trivial|].
  rewrite append_cons. cbn [occurs]. intros H.
  apply orb_false_elim in H. apply IH, H.
Qed.

Lemma backticks_snoc run s :
  (backticks run ++ String backtick s)%string = (backticks (S run) ++ s)%string.
Proof.
  induction run as [|run IH]; [reflexivity|].
  cbn [backticks]. rewrite !append_cons. f_equal. exact IH.
Qed.

Lemma fence_in_long_run run t :
  (3 <= run)%nat -> occurs fence (backticks run ++ t) = true.
Proof.
  intros H. destruct run as [|[|[|run]]]; try lia.
  cbn [backticks]. rewrite !append_cons. cbn [occurs fence backticks String.prefix].
  destruct (ascii_dec backtick backtick) as [_|F]; [|contradiction].
  cbn. destruct (backticks run ++ t)%string; reflexivity.
Qed.

Lemma replace_fences_from_identity s : forall run,
  occurs fence (backticks run ++ s) = false ->
  replace_fences_from run s = (backticks run ++ s)%string.
Proof.
  induction s as [|c s IH]; intros run H; cbn [replace_fences_from].
  - rewrite append_empty_r in *. unfold flush_run.
    destruct (Nat.leb_spec 3 run) as [Hge|Hlt]; [|reflexivity].
    pose proof (fence_in_long_run run "" Hge) as F. rewrite append_empty_r in F. congruence.
  - destruct (Ascii.eqb c backtick) eqn:Hc.
    + apply Ascii.eqb_eq in Hc. subst c. rewrite backticks_snoc in *. apply IH, H.
    + unfold flush_run. destruct (Nat.leb_spec 3 run) as [Hge|Hlt].
      { rewrite (fence_in_long_run run _ Hge) in H. discriminate. }
      f_equal. f_equal. apply (IH 0%nat). cbn [backticks]. 
      apply occurs_app_r in H. rewrite occurs_fence_cons in H by exact Hc. exact H.
Qed.

(** X4.  [replace_fences] changes exactly the texts that contain a code
    fence; applying it twice is applying it once. *)
Theorem replace_fences_fixpoint (s : string) :
  (replace_fences s = s <-> occurs fence s = false)
  /\ replace_fences (replace_fences s) = replace_fences s.
Proof.
  assert (Hfix : forall t, occurs fence t = false -> replace_fences t = t).
  { intros t H. unfold replace_fences. apply (replace_fences_from_identity t 0%nat), H. }
  split; [split|].
  - intros E. rewrite <- E. apply replace_fences_from_no_fence.
  - apply Hfix.
  - apply Hfix, replace_fences_from_no_fence.
Qed.

(** ** GET /result and GET /export *)

(** The job that the background task of server.js leaves behind, for each
    outcome of the outside calls. *)
Lemma background_outcome w requestId wallet inputs user s :
  progressMap s !! requestId = Some Server.new_job ->
  exists s' j',
    Server.background w requestId wallet (Some inputs) user s = (Returns tt, s')
    /\ progressMap s' !! requestId = Some j'
    /\ match createChatCompletion (Server.provider w) with
       | Returns text =>
           if names_coin_and_colours inputs then
             code j' = Some (replace_fences (trim text))
             /\ images j' =
                  mkImages
                    (Some (value_or Server.logo_fallback
                             (createLogoImage (Server.provider w))))
                    (Some (value_or Server.hero_fallback
                             (createHeroImage (Server.provider w))))
                    (Some (value_or Server.logo_fallback
                             (createLogoImage (Server.provider w))))
             /\ status j' = (if Server.store_up_save w then done else error)
           else j' = mkJob error 100 None no_images
       | Throws _ => j' = mkJob error 100 None no_images
       end.
Proof.
  intros Hj. unfold Server.background, Server.doWebsiteGeneration, Server.on_background_error.
  unfold names_coin_and_colours.
  destruct w as [d rid [chat logo hero] dt sv rf].
  cbn [Server.provider Server.store_up_save Server.date
       createChatCompletion createLogoImage createHeroImage].
  change (default no_inputs (Some inputs)) with inputs.
  destruct (falsy (coinName inputs) || falsy (colorPalette inputs)); cbn [negb].
  - run_from Hj. eexists _, _. split; [reflexivity|].
    cbn [progressMap]. split; [apply lookup_insert_eq|]. destruct chat; reflexivity.
  - destruct chat, logo, hero, sv; run_from Hj;
      (eexists _, _; split; [reflexivity|];
       cbn [progressMap]; split; [apply lookup_insert_eq|]; repeat split).
Qed.

(** X5.  GET /result serves the site of a job iff the job ended DONE.  Take
    a world in which [user.save()] fulfils only for a site code that is
    not empty, as the schema demands.  After an accepted POST
    /start-generation: if the inputs name the coin and its colours, the
    chat completion succeeded and [user.save()] of the generated file
    fulfilled, the answer is the code, which is the completion trimmed and
    without code fences and is not empty, with the images inserted; in
    every other case, also when the save was refused, it is 400.  A failed
    image request never makes the answer fail. *)
Theorem result_served_iff_job_done
    (w : Server.World) (body : Server.Body) (inputs : UserInputs)
    (s s' : Server) (requestId : string) :
  Server.post_start_generation w body s =
    (Returns (mkResponse 200 (RequestIdJson requestId)), s') ->
  Server.body_userInputs body = Some inputs ->
  requestId <> "" ->
  save_needs_content w ->
  match createChatCompletion (Server.provider w) with
  | Returns text =>
      if names_coin_and_colours inputs && Server.store_up_save w then
        replace_fences (trim text) <> ""
        /\ Download.get_result (Some requestId) s' =
          (Returns
             (Download.mkAnswer 200
                (Download.JsonCode
                   (insert_images (replace_fences (trim text))
                      (mkImages
                         (Some (value_or Server.logo_fallback
                                  (createLogoImage (Server.provider w))))
                         (Some (value_or Server.hero_fallback
                                  (createHeroImage (Server.provider w))))
                         (Some (value_or Server.logo_fallback
                                  (createLogoImage (Server.provider w)))))))), s')
      else
        Download.get_result (Some requestId) s' =
          (Returns (Download.mkAnswer 400
                      (Download.JsonError "Not finished or generation error.")), s')
  | Throws _ =>
      Download.get_result (Some requestId) s' =
        (Returns (Download.mkAnswer 400
                    (Download.JsonError "Not finished or generation error.")), s')
  end.
Proof.
  unfold Server.post_start_generation. intros H Hinputs Hne Hschema.
  destruct (Server.start_generation w body s) as [[[response task]|e] s1] eqn:Hstart;
    [|discriminate].
  assert (response = mkResponse 200 (RequestIdJson requestId)) as ->
    by (destruct task; inversion H; reflexivity).
  destruct (start_generation_accepted _ _ _ _ _ _ Hstart)
    as (wa & inputs' & u & _ & Hin' & _ & _ & Hrid & -> & ->).
  rewrite Hinputs in Hin'. inversion Hin'; subst inputs'. clear Hin'.
  inversion H as [Hs']. clear H.
  destruct (background_outcome w requestId wa inputs
              (set_credits (credits u + - (1)) u)
              (mkServer (<[wa := set_credits (credits u + - (1)) u]> (users s))
                        (<[requestId := Server.new_job]> (progressMap s))
                        (journal s ++ [(requestId, Server.new_job)])))
    as (s2 & j' & Hrun & Hlook & Hout).
  { apply lookup_insert_eq. }
  rewrite Hrun. cbn [snd].
  unfold Download.get_result, Download.known_job.
  destruct (String.eqb_spec requestId ""); [contradiction|]. rewrite Hlook.
  unfold save_needs_content in Hschema.
  destruct (createChatCompletion (Server.provider w)) as [text|e].
  - destruct (names_coin_and_colours inputs); cbn [andb].
    + destruct Hout as (Hcode & Himg & Hst). rewrite Hst, Hcode, Himg.
      destruct (Server.store_up_save w); [|reflexivity].
      split; [apply (Hschema text); reflexivity | reflexivity].
    + subst j'. reflexivity.
  - subst j'. reflexivity.
Qed.

(** The statement of X5 at a run where everything outside works. *)
Lemma result_served_iff_job_done_witness :
  Server.post_start_generation world_up start_body (server_with (alice 1)) =
    (Returns (mkResponse 200 (RequestIdJson "00c0ffee00c0ffee")),
     snd (Server.post_start_generation world_up start_body (server_with (alice 1)))) /\
  Server.body_userInputs start_body = Some coin_inputs /\
  "00c0ffee00c0ffee" <> "" /\
  save_needs_content world_up /\
  replace_fences (trim "<html></html>") <> "" /\
  Download.get_result (Some "00c0ffee00c0ffee")
    (snd (Server.post_start_generation world_up start_body (server_with (alice 1)))) =
    (Returns
       (Download.mkAnswer 200
          (Download.JsonCode
             (insert_images (replace_fences (trim "<html></html>"))
                (mkImages (Some "data:logo") (Some "data:hero") (Some "data:logo"))))),
     snd (Server.post_start_generation world_up start_body (server_with (alice 1)))).
Proof.
  assert (H1 : Server.post_start_generation world_up start_body (server_with (alice 1)) =
    (Returns (mkResponse 200 (RequestIdJson "00c0ffee00c0ffee")),
     snd (Server.post_start_generation world_up start_body (server_with (alice 1)))))
    by (vm_compute; reflexivity).
  assert (H2 : Server.body_userInputs start_body = Some coin_inputs) by reflexivity.
  assert (H3 : "00c0ffee00c0ffee" <> "") by discriminate.
  assert (H4 : save_needs_content world_up).
  { intros text Htext _. cbn in Htext. inversion Htext; subst text.
    vm_compute. discriminate. }
  split; [exact H1|]. split; [exact H2|]. split; [exact H3|]. split; [exact H4|].
  exact (result_served_iff_job_done world_up start_body coin_inputs
           (server_with (alice 1)) _ "00c0ffee00c0ffee" H1 H2 H3 H4).
Defined.

(** X6.  GET /export sends what GET /result shows.  When GET /result
    answers with a code, GET /export?type=full sends that code as an HTML
    attachment and type=wordpress sends it inside the page template, both
    under the sanitised request id as file name; neither route changes the
    state.  Any other type is refused. *)
Theorem export_matches_result
    (requestId : string) (type : option string) (s s1 : Server) (shown : string) :
  Download.get_result (Some requestId) s =
    (Returns (Download.mkAnswer 200 (Download.JsonCode shown)), s1) ->
  s1 = s
  /\ Download.get_export (Some requestId) (Some "full") s =
       (Returns
          (Download.mkAnswer 200
             (Download.Attachment "text/html"
                ("attachment; filename=" ++ Download.quote ++ sanitizeFilename requestId
                 ++ "_website.html" ++ Download.quote)
                shown)), s)
  /\ Download.get_export (Some requestId) (Some "wordpress") s =
       (Returns
          (Download.mkAnswer 200
             (Download.Attachment "application/php"
                ("attachment; filename=" ++ Download.quote ++ sanitizeFilename requestId
                 ++ "_generated_website.php" ++ Download.quote)
                (Download.wordpressTemplate (sanitizeFilename requestId) shown))), s)
  /\ (type <> Some "full" -> type <> Some "wordpress" ->
      Download.get_export (Some requestId) type s =
        (Returns
           (Download.mkAnswer 400
              (Download.JsonError
                 "Invalid or missing export type. Use 'full' or 'wordpress'.")), s)).
Proof.
  unfold Download.get_result, Download.get_export.
  destruct (Download.known_job (Some requestId) s) as [job|];
    [|destruct (Download.inherited_entry (Some requestId)); discriminate].
  destruct (status job); try discriminate.
  destruct (code job) as [c|]; [|discriminate].
  intros H. inversion H; subst. cbn [default].
  repeat split.
  intros Hfull Hwp. destruct type as [t|]; [|reflexivity].
  destruct (String.eqb_spec t "full") as [->|_]; [contradiction|].
  destruct (String.eqb_spec t "wordpress") as [->|_]; [contradiction|].
  reflexivity.
Qed.

(** The statement of X6 for the job of the run where everything works. *)
Lemma export_matches_result_witness :
  let s := snd (Server.post_start_generation world_up start_body (server_with (alice 1))) in
  Download.get_result (Some "00c0ffee00c0ffee") s =
    (Returns (Download.mkAnswer 200 (Download.JsonCode "<html></html>")), s) /\
  Download.get_export (Some "00c0ffee00c0ffee") (Some "full") s =
    (Returns
       (Download.mkAnswer 200
          (Download.Attachment "text/html"
             ("attachment; filename=" ++ Download.quote
              ++ sanitizeFilename "00c0ffee00c0ffee"
              ++ "_website.html" ++ Download.quote)
             "<html></html>")), s).
Proof.
  cbv zeta.
  assert (H : Download.get_result (Some "00c0ffee00c0ffee")
                (snd (Server.post_start_generation world_up start_body
                        (server_with (alice 1)))) =
              (Returns (Download.mkAnswer 200 (Download.JsonCode "<html></html>")),
               snd (Server.post_start_generation world_up start_body
                      (server_with (alice 1)))))
    by (vm_compute; reflexivity).
  split; [exact H|].
  exact (proj1 (proj2 (export_matches_result "00c0ffee00c0ffee" None _ _ _ H))).
Defined.

(** ** Placeholders *)

Lemma replace_from_absent placeholder replacement s : forall before,
  occurs placeholder s = false ->
  replace_from placeholder replacement 0 before s = s.
Proof.
  induction s as [|c s IH]; intros before H; [reflexivity|].
  cbn [occurs] in H. apply orb_false_elim in H. destruct H as [Hp Ho].
  cbn [replace_from]. rewrite Hp. f_equal. apply IH, Ho.
Qed.

(** X7.  A code that contains none of the three placeholders is shown as
    it is, whatever the images are. *)
Theorem insert_images_without_placeholders (code : string) (images : Images) :
  occurs "NAV_IMAGE_PLACEHOLDER" code = false ->
  occurs "HERO_BG_PLACEHOLDER" code = false ->
  occurs "FOOTER_IMAGE_PLACEHOLDER" code = false ->
  insert_images code images = code.
Proof.
  intros Hnav Hhero Hfooter. unfold insert_images, replace_placeholder. cbv zeta.
  assert (E1 : (if falsy (navLogo images) then code
                else replace_from "NAV_IMAGE_PLACEHOLDER" (default "" (navLogo images))
                       0 "" code) = code).
  { destruct (falsy (navLogo images)); [reflexivity|]. apply replace_from_absent, Hnav. }
  rewrite E1.
  assert (E2 : (if falsy (heroBg images) then code
                else replace_from "HERO_BG_PLACEHOLDER" (default "" (heroBg images))
                       0 "" code) = code).
  { destruct (falsy (heroBg images)); [reflexivity|]. apply replace_from_absent, Hhero. }
  rewrite E2.
  destruct (falsy (footerImg images)); [reflexivity|]. apply replace_from_absent, Hfooter.
Qed.

(** X7 at a page without placeholders. *)
Lemma insert_images_without_placeholders_witness :
  occurs "NAV_IMAGE_PLACEHOLDER" "<html></html>" = false /\
  occurs "HERO_BG_PLACEHOLDER" "<html></html>" = false /\
  occurs "FOOTER_IMAGE_PLACEHOLDER" "<html></html>" = false /\
  insert_images "<html></html>"
    (mkImages (Some "data:logo") (Some "data:hero") (Some "data:logo")) = "<html></html>".
Proof.
  repeat (split; [reflexivity|]).
  exact (insert_images_without_placeholders "<html></html>"
           (mkImages (Some "data:logo") (Some "data:hero") (Some "data:logo"))
           eq_refl eq_refl eq_refl).
Defined.

Lemma get_substitution_plain matched before after replacement :
  occurs "$" replacement = false ->
  get_substitution matched before after replacement = replacement.
Proof.
  induction replacement as [|c rest IH]; [reflexivity|].
  cbn [occurs String.prefix]. intros H. apply orb_false_elim in H. destruct H as [Hc Hrest].
  cbn [get_substitution].
  destruct (Ascii.eqb_spec c "$"%char) as [->|Hne].
  - exfalso. revert Hc. destruct (ascii_dec "$" "$") as [_|F]; [|contradiction].
    destruct rest; discriminate.
  - f_equal. apply IH, Hrest.
Qed.

Lemma replace_from_any_before placeholder replacement s :
  occurs "$" replacement = false ->
  forall skip before before',
    replace_from placeholder replacement skip before s =
    replace_from placeholder replacement skip before' s.
Proof.
  intros Hplain. induction s as [|c s IH]; intros skip before before'; [reflexivity|].
  cbn [replace_from]. destruct skip as [|skip]; [|apply IH].
  destruct (String.prefix placeholder (String c s)).
  - rewrite !get_substitution_plain by exact Hplain. f_equal. apply IH.
  - f_equal. apply IH.
Qed.

Lemma replace_from_skip placeholder replacement t b :
  occurs "$" replacement = false ->
  forall before,
    replace_from placeholder replacement (String.length t) before (t ++ b) =
    replace_from placeholder replacement 0 "" b.
Proof.
  intros Hplain. induction t as [|c t IH]; intros before.
  - apply replace_from_any_before, Hplain.
  - rewrite append_cons. cbn [String.length replace_from]. apply IH.
Qed.

Lemma prefix_append p b : String.prefix p (p ++ b) = true.
Proof.
  induction p as [|c p IH]; [destruct b; reflexivity|].
  rewrite append_cons. cbn [String.prefix].
  destruct (ascii_dec c c) as [_|F]; [exact IH | contradiction].
Qed.

Lemma append_assoc_string a b c : ((a ++ b) ++ c)%string = (a ++ b ++ c)%string.
Proof.
  induction a as [|x a IH]; [reflexivity|]. rewrite !append_cons, IH. reflexivity.
Qed.

Lemma append_empty_l a : (EmptyString ++ a)%string = a.
Proof. reflexivity. Qed.

Lemma replace_from_start placeholder replacement before c rest :
  replace_from placeholder replacement 0 before (String c rest) =
    if String.prefix placeholder (String c rest) then
      (get_substitution placeholder before
         (drop_string (String.length placeholder) (String c rest)) replacement
       ++ replace_from placeholder replacement (String.length placeholder - 1)
            (before ++ String c EmptyString) rest)%string
    else
      String c (replace_from placeholder replacement 0 (before ++ String c EmptyString) rest).
Proof. reflexivity. Qed.

(** X8.  How a placeholder is replaced.  Take an image text without a
    dollar sign (a data URL has none) and a text [a ++ placeholder ++ b] in
    which no occurrence of the placeholder starts inside [a]: the result
    is [a], the image, and [b] with its placeholders replaced in the same
    way.  Every occurrence is replaced, from left to right. *)
Theorem replace_placeholder_first (placeholder image a b : string) :
  placeholder <> "" ->
  occurs "$" image = false ->
  none_starts_in placeholder a (placeholder ++ b) = true ->
  replace_placeholder placeholder image (a ++ placeholder ++ b) =
    (a ++ image ++ replace_placeholder placeholder image b)%string.
Proof.
  intros Hne Hplain. unfold replace_placeholder. generalize ""%string as before.
  induction a as [|c a IH]; intros before Hnone.
  - rewrite !append_empty_l. destruct placeholder as [|p0 rest]; [contradiction|].
    pose proof (prefix_append (String p0 rest) b) as Hpre.
    rewrite append_cons in Hpre |- *.
    rewrite replace_from_start, Hpre, get_substitution_plain by exact Hplain.
    f_equal. cbn [String.length].
    replace (S (String.length rest) - 1)%nat with (String.length rest) by lia.
    rewrite replace_from_skip by exact Hplain.
    apply replace_from_any_before, Hplain.
  - cbn [none_starts_in] in Hnone. apply andb_true_iff in Hnone.
    destruct Hnone as [Hhere Hrest]. apply negb_true_iff in Hhere.
    rewrite append_cons in *. rewrite replace_from_start, Hhere.
    rewrite append_cons. f_equal. rewrite (IH _ Hrest). f_equal. f_equal.
    apply replace_from_any_before, Hplain.
Qed.

(** X8 at a page with one logo placeholder. *)
Lemma replace_placeholder_first_witness :
  "NAV_IMAGE_PLACEHOLDER" <> "" /\
  occurs "$" "data:image/png;base64,iVBORw0K" = false /\
  none_starts_in "NAV_IMAGE_PLACEHOLDER" "<img src='" ("NAV_IMAGE_PLACEHOLDER" ++ "'>") = true /\
  replace_placeholder "NAV_IMAGE_PLACEHOLDER" "data:image/png;base64,iVBORw0K"
    ("<img src='" ++ "NAV_IMAGE_PLACEHOLDER" ++ "'>") =
    ("<img src='" ++ "data:image/png;base64,iVBORw0K"
     ++ replace_placeholder "NAV_IMAGE_PLACEHOLDER" "data:image/png;base64,iVBORw0K" "'>")%string.
Proof.
  assert (H1 : "NAV_IMAGE_PLACEHOLDER" <> "") by discriminate.
  split; [exact H1|]. split; [reflexivity|]. split; [reflexivity|].
  exact (replace_placeholder_first "NAV_IMAGE_PLACEHOLDER" "data:image/png;base64,iVBORw0K"
           "<img src='" "'>" H1 eq_refl eq_refl).
Defined.

(** ** Accounts *)

Lemma find_username_None name (db : Db) :
  snd <$> List.find (fun e => String.eqb (username (snd e)) name) (map_to_list db) = None ->
  username_free name db.
Proof.
  destruct (List.find _ (map_to_list db)) as [e|] eqn:E; [discriminate|].
  intros _ k u Hu Hname.
  assert (F : String.eqb (username u) name = false).
  { apply (find_none _ _ E (k, u)). apply list_elem_of_In, elem_of_map_to_list, Hu. }
  apply String.eqb_neq in F. contradiction.
Qed.

Lemma find_username_Some name (db : Db) u :
  snd <$> List.find (fun e => String.eqb (username (snd e)) name) (map_to_list db) = Some u ->
  exists k, db !! k = Some u /\ username u = name.
Proof.
  destruct (List.find _ (map_to_list db)) as [[k u']|] eqn:E; [|discriminate].
  intros [= <-]. apply find_some in E. destruct E as [Hin Hname].
  exists k. split.
  - apply elem_of_map_to_list, list_elem_of_In, Hin.
  - apply String.eqb_eq, Hname.
Qed.

(** POST /create-wallet either answers with an error and leaves the state
    as it is, or stores one new account and answers with its address. *)
Lemma create_wallet_cases w body s :
  (exists answer,
     Accounts.create_wallet w body s = (Returns answer, s)
     /\ Accounts.answer_status answer <> 200%Z)
  \/
  (exists name data hash,
     Accounts.given_name body = Some name
     /\ name <> ""
     /\ Accounts.createWallet w = Returns data
     /\ Accounts.bcrypt_hash w = Returns hash
     /\ Accounts.receivingAddress data <> ""
     /\ username_free name (users s)
     /\ users s !! Accounts.receivingAddress data = None
     /\ Accounts.create_wallet w body s =
          (Returns (Accounts.mkAnswer 200 (Accounts.Wallet (Accounts.receivingAddress data))),
           mkServer
             (<[Accounts.receivingAddress data :=
                  mkUser name (Accounts.receivingAddress data) hash
                         (Accounts.wallet_xPrv data) (Accounts.wallet_mnemonic data)
                         1 [] []]> (users s))
             (progressMap s) (journal s))).
Proof.
  unfold Accounts.create_wallet.
  destruct (Accounts.given_name body) as [name|]; cbn [falsy orb].
  2:{ left. eexists. split; [reflexivity | discriminate]. }
  destruct (String.eqb_spec name "") as [->|Hname]; cbn [orb].
  { left. eexists. split; [reflexivity | discriminate]. }
  destruct (falsy (Accounts.given_password body)).
  { left. eexists. split; [reflexivity | discriminate]. }
  change (default "" (Some name)) with name.
  cbv [try_catch bind db_call throw ret await Accounts.findOne_username Accounts.save_new].
  destruct (Accounts.create_store_up_find w).
  2:{ left. eexists. split; [reflexivity | discriminate]. }
  cbn [fst users username walletAddress passwordHash xPrv mnemonic].
  destruct (snd <$> List.find _ (map_to_list (users s))) as [existing|] eqn:Hfind.
  { left. eexists. split; [reflexivity | discriminate]. }
  apply find_username_None in Hfind.
  destruct (Accounts.createWallet w) as [data|e].
  2:{ left. destruct (String.eqb e Accounts.duplicate_username);
        (eexists; split; [reflexivity | discriminate]). }
  destruct (Accounts.wallet_success data); cbn [negb].
  2:{ left. eexists. split; [reflexivity | discriminate]. }
  destruct (Accounts.bcrypt_hash w) as [hash|e].
  2:{ left. destruct (String.eqb e Accounts.duplicate_username);
        (eexists; split; [reflexivity | discriminate]). }
  destruct (Accounts.create_store_up_save w).
  2:{ left. eexists. split; [reflexivity | discriminate]. }
  rewrite (proj2 (String.eqb_neq name "") Hname). cbn [orb].
  destruct (String.eqb_spec (Accounts.receivingAddress data) "") as [Ea|Ha]; cbn [orb].
  { left. eexists. split; [reflexivity | discriminate]. }
  destruct (String.eqb hash "" || String.eqb (Accounts.wallet_xPrv data) ""
            || String.eqb (Accounts.wallet_mnemonic data) "") eqn:Hreq.
  { left. eexists. split; [reflexivity | discriminate]. }
  destruct (snd <$> List.find _ (map_to_list (users s))) as [existing|] eqn:Hfind2.
  { left. eexists. split; [reflexivity | discriminate]. }
  destruct (users s !! Accounts.receivingAddress data) as [taken|] eqn:Htaken.
  { left. eexists. split; [reflexivity | discriminate]. }
  right. exists name, data, hash. repeat split; auto.
Qed.


(** What POST /create-wallet does to the state. *)
Lemma create_wallet_outcome
    (w : Accounts.CreateWorld) (body : Accounts.Credentials)
    (s s' : Server) (answer : Accounts.Answer) :
  Accounts.create_wallet w body s = (Returns answer, s') ->
  (Accounts.answer_status answer <> 200%Z -> s' = s)
  /\ (Accounts.answer_status answer = 200%Z ->
      exists name address u,
        Accounts.reply answer = Accounts.Wallet address
        /\ Accounts.given_name body = Some name
        /\ address <> ""
        /\ users s !! address = None
        /\ username_free name (users s)
        /\ users s' !! address = Some u
        /\ username u = name /\ walletAddress u = address
        /\ credits u = 1 /\ generatedFiles u = [] /\ processedTransactions u = []
        /\ (forall k, k <> address -> users s' !! k = users s !! k)
        /\ progressMap s' = progressMap s /\ journal s' = journal s).
Proof.
  intros Hrun.
  destruct (create_wallet_cases w body s)
    as [(answer' & Hcase & Hstatus)
       | (name & data & hash & Hname & Hne & _ & _ & Ha & Hfree & Haddr & Hcase)];
    rewrite Hcase in Hrun; inversion Hrun; subst; clear Hrun.
  - split; [reflexivity | contradiction].
  - split; [intros H; exfalso; apply H; reflexivity|]. intros _.
    eexists name, (Accounts.receivingAddress data), _.
    cbn [Accounts.reply users progressMap journal].
    split; [reflexivity|]. split; [exact Hname|]. split; [exact Ha|].
    split; [exact Haddr|]. split; [exact Hfree|].
    split; [apply lookup_insert_eq|].
    repeat split. intros k Hk. apply lookup_insert_ne. congruence.
Qed.

(** X9.  POST /create-wallet creates at most one account.  When it answers
    200, the address it gives back was free, no account had the user name,
    and the store holds, under that address, a new account with the user
    name, one credit, no generated file and no processed transaction;
    every other account, and the job table, are as before.  With any other
    answer the state is unchanged. *)
Theorem create_wallet_creates_one_account
    (w : Accounts.CreateWorld) (body : Accounts.Credentials)
    (s s' : Server) (answer : Accounts.Answer) :
  Accounts.create_wallet w body s = (Returns answer, s') ->
  (Accounts.answer_status answer <> 200%Z -> s' = s)
  /\ (Accounts.answer_status answer = 200%Z ->
      exists name address u,
        Accounts.reply answer = Accounts.Wallet address
        /\ Accounts.given_name body = Some name
        /\ address <> ""
        /\ users s !! address = None
        /\ username_free name (users s)
        /\ users s' !! address = Some u
        /\ username u = name /\ walletAddress u = address
        /\ credits u = 1 /\ generatedFiles u = [] /\ processedTransactions u = []
        /\ (forall k, k <> address -> users s' !! k = users s !! k)
        /\ progressMap s' = progressMap s /\ journal s' = journal s).
Proof. apply create_wallet_outcome. Qed.

(** X9 at the creation of an account for bob next to that of alice. *)
Lemma create_wallet_creates_one_account_witness :
  let run := Accounts.create_wallet create_world_up bob_credentials (server_with (alice 1)) in
  run = (Returns (Accounts.mkAnswer 200 (Accounts.Wallet bob_wallet)), snd run) /\
  exists name address u,
    Accounts.reply (Accounts.mkAnswer 200 (Accounts.Wallet bob_wallet)) = Accounts.Wallet address
    /\ Accounts.given_name bob_credentials = Some name
    /\ address <> ""
    /\ users (server_with (alice 1)) !! address = None
    /\ username_free name (users (server_with (alice 1)))
    /\ users (snd run) !! address = Some u
    /\ username u = name /\ walletAddress u = address
    /\ credits u = 1 /\ generatedFiles u = [] /\ processedTransactions u = []
    /\ (forall k, k <> address ->
                  users (snd run) !! k = users (server_with (alice 1)) !! k)
    /\ progressMap (snd run) = progressMap (server_with (alice 1))
    /\ journal (snd run) = journal (server_with (alice 1)).
Proof.
  cbv zeta.
  assert (H : Accounts.create_wallet create_world_up bob_credentials (server_with (alice 1)) =
              (Returns (Accounts.mkAnswer 200 (Accounts.Wallet bob_wallet)),
               snd (Accounts.create_wallet create_world_up bob_credentials
                      (server_with (alice 1)))))
    by (vm_compute; reflexivity).
  split; [exact H|].
  exact (proj2 (create_wallet_creates_one_account create_world_up bob_credentials
                  (server_with (alice 1)) _ _ H) eq_refl).
Defined.

Lemma keyed_by_wallet_insert db u :
  keyed_by_wallet db -> keyed_by_wallet (<[walletAddress u := u]> db).
Proof.
  intros Hdb k u'. rewrite lookup_insert. case_decide.
  - intros [= <-]. congruence.
  - apply Hdb.
Qed.

(** X10.  POST /create-wallet keeps the store sound: if every account is
    stored under its own address, user names are unique and no balance is
    negative, the same holds afterwards, whatever the outside does. *)
Theorem create_wallet_keeps_store_sound
    (w : Accounts.CreateWorld) (body : Accounts.Credentials) (s : Server) :
  keyed_by_wallet (users s) ->
  unique_usernames (users s) ->
  no_overdraft (users s) ->
  let s' := snd (Accounts.create_wallet w body s) in
  keyed_by_wallet (users s') /\ unique_usernames (users s') /\ no_overdraft (users s').
Proof.
  intros Hkey Huniq Hdb. cbv zeta.
  destruct (create_wallet_cases w body s)
    as [(answer' & -> & _)
       | (name & data & hash & _ & _ & _ & _ & _ & Hfree & Haddr & ->)]; cbn [snd users].
  - auto.
  - set (a := Accounts.receivingAddress data) in *.
    set (u := mkUser name a hash _ _ 1 [] []).
    split; [|split].
    + apply (keyed_by_wallet_insert (users s) u Hkey).
    + intros k1 k2 u1 u2. rewrite !lookup_insert.
      repeat case_decide; subst.
      * reflexivity.
      * intros [= <-] H2 E. exfalso. apply (Hfree _ _ H2). symmetry. exact E.
      * intros H1 [= <-] E. exfalso. apply (Hfree _ _ H1). exact E.
      * apply Huniq.
    + apply no_overdraft_insert; [exact Hdb|]. cbn. discriminate.
Qed.

(** X10 at the store that holds alice alone. *)
Lemma create_wallet_keeps_store_sound_witness :
  keyed_by_wallet (users (server_with (alice 1))) /\
  unique_usernames (users (server_with (alice 1))) /\
  no_overdraft (users (server_with (alice 1))) /\
  unique_usernames
    (users (snd (Accounts.create_wallet create_world_up bob_credentials
                   (server_with (alice 1))))).
Proof.
  assert (H1 := singleton_keyed_by_wallet (alice 1)).
  assert (H2 : unique_usernames (users (server_with (alice 1)))).
  { intros k1 k2 u1 u2. cbn [users server_with]. rewrite !lookup_singleton_Some.
    intros [<- _] [<- _] _. reflexivity. }
  assert (H3 : no_overdraft (users (server_with (alice 1))))
    by (apply singleton_no_overdraft; discriminate).
  split; [exact H1|]. split; [exact H2|]. split; [exact H3|].
  exact (proj1 (proj2 (create_wallet_keeps_store_sound create_world_up bob_credentials
                         (server_with (alice 1)) H1 H2 H3))).
Defined.

(** X11.  A created account can be used at once.  After a POST
    /create-wallet that answered with an address, GET /get-credits for
    that address answers 1, and POST /connect-wallet with a password that
    bcrypt accepts answers with the user name, the address, one credit and
    no files; neither changes the state. *)
Theorem created_account_is_usable
    (w : Accounts.CreateWorld) (body : Accounts.Credentials) (s s' : Server)
    (address password : string) :
  Accounts.create_wallet w body s =
    (Returns (Accounts.mkAnswer 200 (Accounts.Wallet address)), s') ->
  password <> "" ->
  Accounts.get_credits true (Some address) s' =
    (Returns (Accounts.mkAnswer 200 (Accounts.Credits 1)), s')
  /\ Accounts.connect_wallet (Accounts.mkConnectWorld true (Returns true))
       (Accounts.mkCredentials (Some address) (Some password)) s' =
     (Returns (Accounts.mkAnswer 200
                 (Accounts.Connected (default "" (Accounts.given_name body))
                    address 1 [])), s').
Proof.
  intros Hrun Hpw.
  destruct (create_wallet_outcome w body s s' _ Hrun) as [_ H].
  destruct (H eq_refl)
    as (name & a & u & Hreply & Hname & Ha & _ & _ & Hu & Hun & Hwa & Hc & Hf & _).
  assert (a = address) as -> by (cbn in Hreply; congruence). clear Hreply.
  assert (Ea : String.eqb address "" = false) by (apply String.eqb_neq; exact Ha).
  assert (Ep : String.eqb password "" = false) by (apply String.eqb_neq; exact Hpw).
  split.
  - unfold Accounts.get_credits. cbn [falsy].
    change (default "" (Some address)) with address. rewrite Ea.
    cbv [try_catch bind db_call findOne ret]. rewrite Hu, Hc. reflexivity.
  - unfold Accounts.connect_wallet.
    cbn [falsy Accounts.given_name Accounts.given_password
         Accounts.connect_store_up Accounts.bcrypt_compare].
    change (default "" (Some address)) with address.
    rewrite Ea, Ep. cbn [orb].
    cbv [try_catch bind db_call findOne ret await]. rewrite Hu. cbn [negb].
    rewrite Hname, Hun, Hwa, Hc, Hf. reflexivity.
Qed.

(** X11 at the account created for bob. *)
Lemma created_account_is_usable_witness :
  let s' := snd (Accounts.create_wallet create_world_up bob_credentials
                   (server_with (alice 1))) in
  Accounts.create_wallet create_world_up bob_credentials (server_with (alice 1)) =
    (Returns (Accounts.mkAnswer 200 (Accounts.Wallet bob_wallet)), s') /\
  "secret" <> "" /\
  Accounts.get_credits true (Some bob_wallet) s' =
    (Returns (Accounts.mkAnswer 200 (Accounts.Credits 1)), s') /\
  Accounts.connect_wallet connect_world_up bob_login s' =
    (Returns (Accounts.mkAnswer 200 (Accounts.Connected "bob" bob_wallet 1 [])), s').
Proof.
  cbv zeta.
  assert (H : Accounts.create_wallet create_world_up bob_credentials (server_with (alice 1)) =
              (Returns (Accounts.mkAnswer 200 (Accounts.Wallet bob_wallet)),
               snd (Accounts.create_wallet create_world_up bob_credentials
                      (server_with (alice 1)))))
    by (vm_compute; reflexivity).
  assert (H2 : "secret" <> "") by discriminate.
  split; [exact H|]. split; [exact H2|].
  exact (created_account_is_usable create_world_up bob_credentials
           (server_with (alice 1)) _ bob_wallet "secret" H H2).
Defined.

(** X12.  The credit of a new account buys exactly one generation.  After
    a POST /create-wallet that answered with an address, a first POST
    /start-generation for it is accepted; whatever then happens to the
    job, a second one is refused for lack of credits, and the balance is
    1 - 1. *)
Theorem signup_credit_buys_one_job
    (cw : Accounts.CreateWorld) (body : Accounts.Credentials)
    (w1 w2 : Server.World) (inputs1 inputs2 : UserInputs)
    (s s0 : Server) (address : string) :
  Accounts.create_wallet cw body s =
    (Returns (Accounts.mkAnswer 200 (Accounts.Wallet address)), s0) ->
  Server.store_up_debit w1 = true ->
  Server.store_up_debit w2 = true ->
  exists s1,
    Server.post_start_generation w1 (Server.mkBody (Some address) (Some inputs1)) s0 =
      (Returns (mkResponse 200 (RequestIdJson (Server.generateRequestId w1))), s1)
    /\ Server.post_start_generation w2 (Server.mkBody (Some address) (Some inputs2)) s1 =
         (Returns (mkResponse 400
                     (ErrorJson "Insufficient credits or invalid wallet address.")), s1)
    /\ balance address s1 = Some (1 + - (1)).
Proof.
  intros Hrun Hd1 Hd2.
  destruct (create_wallet_outcome cw body s s0 _ Hrun) as [_ H].
  destruct (H eq_refl)
    as (name & a & u & Hreply & _ & Ha & _ & _ & Hu & _ & Hwa & Hc & _).
  assert (a = address) as -> by (cbn in Hreply; congruence). clear Hreply H.
  assert (Ea : String.eqb address "" = false) by (apply String.eqb_neq; exact Ha).
  assert (Hbal : exists s1,
            Server.post_start_generation w1
              (Server.mkBody (Some address) (Some inputs1)) s0 =
              (Returns (mkResponse 200 (RequestIdJson (Server.generateRequestId w1))), s1)
            /\ balance address s1 = Some (1 + - (1))).
  { unfold Server.post_start_generation.
    destruct (start_generation_cases w1 (Server.mkBody (Some address) (Some inputs1)) s0)
      as [[response Hcase] | (wa & inputs & u' & Hwa' & Hu' & _ & Hcase)].
    - exfalso. revert Hcase. unfold Server.start_generation.
      cbn [Server.body_walletAddress Server.body_userInputs]. rewrite Ea.
      cbv [try_catch bind db_call findOneAndUpdate_debit throw ret register].
      rewrite Hd1, Hu, Hc. cbn. discriminate.
    - cbn in Hwa'. inversion Hwa'; subst wa. rewrite Hu in Hu'. inversion Hu'; subst u'.
      rewrite Hcase.
      destruct (background_spec w1 (Server.generateRequestId w1) address (Some inputs)
                  (set_credits (credits u + - (1)) u)
                  (mkServer (<[address := set_credits (credits u + - (1)) u]> (users s0))
                     (<[Server.generateRequestId w1 := Server.new_job]> (progressMap s0))
                     (journal s0 ++ [(Server.generateRequestId w1, Server.new_job)]))
                  Server.new_job)
        as (writes & s2 & j' & Hbg & _ & _ & _ & _ & _ & _ & _ & Husers).
      { apply lookup_insert_eq. }
      rewrite Hbg. cbn [snd]. eexists. split; [reflexivity|].
      unfold balance. destruct Husers as [-> | [file ->]]; cbn [users].
      + rewrite lookup_insert_eq. cbn. rewrite Hc. reflexivity.
      + cbn [walletAddress set_credits]. rewrite Hwa, lookup_insert_eq. cbn.
        rewrite Hc. reflexivity. }
  destruct Hbal as (s1 & Hfirst & Hb). exists s1. split; [exact Hfirst|].
  split; [|exact Hb].
  unfold balance in Hb. destruct (users s1 !! address) as [u1|] eqn:Hu1; [|discriminate].
  cbn in Hb. inversion Hb as [Hc1].
  unfold Server.post_start_generation, Server.start_generation.
  cbn [Server.body_walletAddress Server.body_userInputs]. rewrite Ea.
  cbv [try_catch bind db_call findOneAndUpdate_debit throw ret register].
  rewrite Hd2, Hu1, Hc1. reflexivity.
Qed.

(** X12 at the account created for bob. *)
Lemma signup_credit_buys_one_job_witness :
  let s0 := snd (Accounts.create_wallet create_world_up bob_credentials
                   (server_with (alice 1))) in
  Accounts.create_wallet create_world_up bob_credentials (server_with (alice 1)) =
    (Returns (Accounts.mkAnswer 200 (Accounts.Wallet bob_wallet)), s0) /\
  Server.store_up_debit world_primary_fails = true /\
  Server.store_up_debit world_up = true /\
  exists s1,
    Server.post_start_generation world_primary_fails
      (Server.mkBody (Some bob_wallet) (Some coin_inputs)) s0 =
      (Returns (mkResponse 200
                  (RequestIdJson (Server.generateRequestId world_primary_fails))), s1)
    /\ Server.post_start_generation world_up
         (Server.mkBody (Some bob_wallet) (Some coin_inputs)) s1 =
         (Returns (mkResponse 400
                     (ErrorJson "Insufficient credits or invalid wallet address.")), s1)
    /\ balance bob_wallet s1 = Some (1 + - (1)).
Proof.
  cbv zeta.
  assert (H : Accounts.create_wallet create_world_up bob_credentials (server_with (alice 1)) =
              (Returns (Accounts.mkAnswer 200 (Accounts.Wallet bob_wallet)),
               snd (Accounts.create_wallet create_world_up bob_credentials
                      (server_with (alice 1)))))
    by (vm_compute; reflexivity).
  split; [exact H|]. split; [reflexivity|]. split; [reflexivity|].
  exact (signup_credit_buys_one_job create_world_up bob_credentials
           world_primary_fails world_up coin_inputs coin_inputs
           (server_with (alice 1)) _ bob_wallet H eq_refl eq_refl).
Defined.

(** ** services/depositService.js: what a scan writes *)

Lemma same_identity_refl u : same_identity u u.
Proof. repeat split. Qed.

Lemma same_identity_trans u u1 u2 :
  same_identity u u1 -> same_identity u1 u2 -> same_identity u u2.
Proof.
  intros (A1 & A2 & A3 & A4 & A5 & A6) (B1 & B2 & B3 & B4 & B5 & B6).
  repeat split; congruence.
Qed.

Lemma same_identity_push u t c :
  same_identity u (push_processedTransaction t (set_credits c u)).
Proof. repeat split. Qed.

(** A loop whose step, on the transactions of the feed, either leaves the
    document alone or pushes one record of a known kind and adds its
    credits. *)
Section ScanAdds.
Context {T : Type}.
Variable step : User -> T -> User.
Variable feed : list T.
Variable good : ProcessedTransaction -> Prop.

Hypothesis step_adds : forall u tx, tx ∈ feed ->
  step u tx = u
  \/ exists t, good t
       /\ step u tx = push_processedTransaction t (set_credits (credits u + creditsAdded t) u).

Lemma loop_adds txs : forall u,
  (forall tx, tx ∈ txs -> tx ∈ feed) ->
  exists new,
    processedTransactions (fold_left step txs u) = (processedTransactions u ++ new)%list
    /\ Forall good new
    /\ credits (fold_left step txs u) == credits u + total_creditsAdded new
    /\ same_identity u (fold_left step txs u).
Proof.
  induction txs as [|tx txs IH]; intros u Hsub; cbn [fold_left].
  - exists []. rewrite app_nil_r. split; [reflexivity|]. split; [constructor|].
    split; [cbn; ring | apply same_identity_refl].
  - assert (Hin : tx ∈ feed) by (apply Hsub, elem_of_cons; left; reflexivity).
    assert (Hsub' : forall tx', tx' ∈ txs -> tx' ∈ feed)
      by (intros tx' H; apply Hsub, elem_of_cons; right; exact H).
    destruct (step_adds u tx Hin) as [-> | (t & Hgood & ->)]; [apply IH, Hsub'|].
    destruct (IH (push_processedTransaction t (set_credits (credits u + creditsAdded t) u))
                Hsub') as (new & Hp & Hg & Hc & Hid).
    exists (t :: new). split; [|split; [|split]].
    + rewrite Hp. cbn [processedTransactions push_processedTransaction set_credits].
      rewrite <- app_assoc. reflexivity.
    + constructor; assumption.
    + rewrite Hc. cbn [credits push_processedTransaction set_credits total_creditsAdded
                        fold_right]. fold (total_creditsAdded new). ring.
    + eapply same_identity_trans; [apply same_identity_push | exact Hid].
Qed.

End ScanAdds.

Lemma kasper_tx_adds now wallet feed u tx :
  tx ∈ feed ->
  Deposit.kasper_tx now wallet u tx = u
  \/ exists t, kasper_record wallet feed t
       /\ Deposit.kasper_tx now wallet u tx =
            push_processedTransaction t (set_credits (credits u + creditsAdded t) u).
Proof.
  intros Hin.
  destruct (kasper_tx_cases now wallet u tx) as [[_ H] | (Hq & _ & H)]; [left; exact H|].
  right. eexists. split; [|exact H].
  exists tx. cbn [txid coinType amount creditsAdded]. auto 7.
Qed.

Lemma kaspa_tx_adds now wallet feed u tx :
  tx ∈ feed ->
  Deposit.kaspa_tx now wallet u tx = u
  \/ exists t, kaspa_record wallet feed t
       /\ Deposit.kaspa_tx now wallet u tx =
            push_processedTransaction t (set_credits (credits u + creditsAdded t) u).
Proof.
  intros Hin.
  destruct (kaspa_tx_cases now wallet u tx) as [[_ H] | (Hq & _ & H)]; [left; exact H|].
  right. eexists. split; [|exact H].
  exists tx. cbn [txid coinType amount creditsAdded]. auto 7.
Qed.

(** What one scan of both feeds does to a document. *)
Lemma scan_adds f u :
  exists new1 new2,
    processedTransactions (Deposit.processUserDeposits f u) =
      (processedTransactions u ++ new1 ++ new2)%list
    /\ Forall (kasper_record (walletAddress u)
                 (kasper_transactions (Deposit.kasper_response f))) new1
    /\ Forall (kaspa_record (walletAddress u)
                 (kaspa_transactions (Deposit.kaspa_response f))) new2
    /\ credits (Deposit.processUserDeposits f u) ==
         credits u + total_creditsAdded new1 + total_creditsAdded new2
    /\ same_identity u (Deposit.processUserDeposits f u).
Proof.
  unfold Deposit.processUserDeposits.
  rewrite processUserKaspaDeposits_loop, processUserKasperDeposits_loop.
  destruct (loop_adds _ _ _
              (fun u0 tx => kasper_tx_adds (Deposit.clock f) (walletAddress u)
                              (kasper_transactions (Deposit.kasper_response f)) u0 tx)
              (kasper_transactions (Deposit.kasper_response f)) u (fun _ H => H))
    as (new1 & Hp1 & Hg1 & Hc1 & Hid1).
  set (u1 := fold_left _ _ u) in *.
  assert (Hw : walletAddress u1 = walletAddress u) by apply Hid1.
  rewrite Hw.
  destruct (loop_adds _ _ _
              (fun u0 tx => kaspa_tx_adds (Deposit.clock f) (walletAddress u)
                              (kaspa_transactions (Deposit.kaspa_response f)) u0 tx)
              (kaspa_transactions (Deposit.kaspa_response f)) u1 (fun _ H => H))
    as (new2 & Hp2 & Hg2 & Hc2 & Hid2).
  exists new1, new2. split; [|split; [|split; [|split]]].
  - rewrite Hp2, Hp1, <- app_assoc. reflexivity.
  - exact Hg1.
  - exact Hg2.
  - rewrite Hc2, Hc1. reflexivity.
  - eapply same_identity_trans; eassumption.
Qed.

(** X13.  A scan only appends records that come from the feeds.  Whatever
    the two feeds answer, the deposit records after a scan are those of
    before, then one record per credited KRC20 transfer of the feed to the
    account, then one per credited transaction of the Kaspa feed that pays
    the account more than 0.  Each new record carries the id, the coin
    and the amount of its transaction, and a [creditsAdded] equal to the
    amount times the conversion rate of the coin.  The balance grows by
    exactly these credits, and the name, the address, the secrets and the
    generated files of the account are left as they are.  Nothing is said
    about the times of the records. *)
Theorem scan_appends_records_of_the_feeds (f : Deposit.Feeds) (u : User) :
  let u' := Deposit.processUserDeposits f u in
  exists new1 new2,
    processedTransactions u' = (processedTransactions u ++ new1 ++ new2)%list
    /\ Forall (kasper_record (walletAddress u)
                 (kasper_transactions (Deposit.kasper_response f))) new1
    /\ Forall (kaspa_record (walletAddress u)
                 (kaspa_transactions (Deposit.kaspa_response f))) new2
    /\ Forall (fun t => creditsAdded t ==
                          amount t * Deposit.CREDIT_CONVERSION (coinType t))
              (new1 ++ new2)
    /\ credits u' == credits u + total_creditsAdded (new1 ++ new2)
    /\ same_identity u u'.
Proof.
  cbv zeta. destruct (scan_adds f u) as (new1 & new2 & Hp & Hg1 & Hg2 & Hc & Hid).
  exists new1, new2. split; [exact Hp|]. split; [exact Hg1|]. split; [exact Hg2|].
  split; [|split; [|exact Hid]].
  - apply Forall_app. split.
    + eapply Forall_impl; [exact Hg1|].
      intros t (tx & _ & _ & _ & -> & -> & ->). reflexivity.
    + eapply Forall_impl; [exact Hg2|].
      intros t (tx & _ & _ & _ & -> & -> & ->). reflexivity.
  - rewrite Hc, total_creditsAdded_app. ring.
Qed.

Lemma total_creditsAdded_nonneg l :
  Forall (fun t => 0 <= creditsAdded t) l -> 0 <= total_creditsAdded l.
Proof.
  induction 1 as [|t l Ht _ IH]; cbn [total_creditsAdded fold_right].
  - apply Qle_refl.
  - fold (total_creditsAdded l). lra.
Qed.

Lemma kaspa_record_nonneg wallet feed t :
  kaspa_record wallet feed t -> 0 <= creditsAdded t.
Proof.
  intros (tx & _ & Hpos & _ & _ & _ & ->). cbn [Deposit.CREDIT_CONVERSION].
  assert (E : kaspa_sum wallet tx * (1 / 1) == kaspa_sum wallet tx) by field.
  rewrite E. apply Qlt_le_weak, Hpos.
Qed.

Lemma kasper_record_nonneg wallet feed t :
  (forall tx, tx ∈ feed -> kasper_qualifies wallet tx = true -> (0 <= Deposit.amt tx)%Z) ->
  kasper_record wallet feed t -> 0 <= creditsAdded t.
Proof.
  intros Hpos (tx & Hin & Hq & _ & _ & _ & ->). cbn [Deposit.CREDIT_CONVERSION].
  specialize (Hpos tx Hin Hq).
  assert (H0 : 0 <= inject_Z (Deposit.amt tx))
    by (change 0 with (inject_Z 0); rewrite <- Zle_Qle; exact Hpos).
  unfold Deposit.sompi.
  assert (E : inject_Z (Deposit.amt tx) / 100000000 * (1 / 800) ==
              inject_Z (Deposit.amt tx) * (1 / 80000000000)) by field.
  rewrite E. apply Qmult_le_0_compat; [exact H0 | discriminate].
Qed.

(** X14.  A scan never lowers a balance, provided the KRC20 feed reports
    no negative amount for a transfer to the account.  Whether the scan
    returns or throws, the scanned account is still stored with a balance
    at least the one of before, and every other account is stored as
    before; so a store without overdraft stays without overdraft. *)
Theorem scan_never_lowers_the_balance
    (f : Deposit.Feeds) (wallet : string) (db : Db) (u : User) :
  db !! wallet = Some u ->
  (forall tx, tx ∈ kasper_transactions (Deposit.kasper_response f) ->
              kasper_qualifies (walletAddress u) tx = true -> (0 <= Deposit.amt tx)%Z) ->
  let db' := snd (Deposit.fetchAndProcessUserDeposits f wallet db) in
  (exists u', db' !! wallet = Some u' /\ credits u <= credits u')
  /\ (forall k, k <> wallet -> db' !! k = db !! k)
  /\ (no_overdraft db -> no_overdraft db').
Proof.
  intros Hu Hamt. cbv zeta.
  assert (Hmono : credits u <= credits (Deposit.processUserDeposits f u)).
  { destruct (scan_adds f u) as (new1 & new2 & _ & Hg1 & Hg2 & Hc & _).
    rewrite Hc.
    assert (H1 : 0 <= total_creditsAdded new1).
    { apply total_creditsAdded_nonneg. eapply Forall_impl; [exact Hg1|].
      intros t. apply kasper_record_nonneg. exact Hamt. }
    assert (H2 : 0 <= total_creditsAdded new2).
    { apply total_creditsAdded_nonneg. eapply Forall_impl; [exact Hg2|].
      intros t. apply kaspa_record_nonneg. }
    lra. }
  unfold Deposit.fetchAndProcessUserDeposits.
  destruct (Deposit.find_ok f); cbn [negb snd].
  2:{ split; [exists u; split; [exact Hu | apply Qle_refl]|]. split; auto. }
  rewrite Hu. destruct (Deposit.save_ok f); cbn [snd].
  2:{ split; [exists u; split; [exact Hu | apply Qle_refl]|]. split; auto. }
  split; [eexists; split; [apply lookup_insert_eq | exact Hmono]|].
  split; [intros k Hk; apply lookup_insert_ne; congruence|].
  intros Hno k u' Hk. destruct (decide (k = wallet)) as [->|Hne].
  - rewrite lookup_insert_eq in Hk. inversion Hk; subst u'.
    eapply Qle_trans; [exact (Hno _ _ Hu) | exact Hmono].
  - rewrite lookup_insert_ne in Hk by congruence. exact (Hno _ _ Hk).
Qed.

(** X14 at a scan that finds 1600 KASPER and 2.5 KAS for alice. *)
Lemma scan_never_lowers_the_balance_witness :
  let db := users (server_with (alice 1)) in
  db !! alice_wallet = Some (alice 1) /\
  (forall tx, tx ∈ kasper_transactions (Deposit.kasper_response feeds_both) ->
              kasper_qualifies (walletAddress (alice 1)) tx = true ->
              (0 <= Deposit.amt tx)%Z) /\
  exists u', snd (Deposit.fetchAndProcessUserDeposits feeds_both alice_wallet db)
               !! alice_wallet = Some u'
             /\ credits (alice 1) <= credits u'.
Proof.
  cbv zeta.
  assert (H1 : users (server_with (alice 1)) !! alice_wallet = Some (alice 1))
    by (vm_compute; reflexivity).
  assert (H2 : forall tx, tx ∈ kasper_transactions (Deposit.kasper_response feeds_both) ->
                          kasper_qualifies (walletAddress (alice 1)) tx = true ->
                          (0 <= Deposit.amt tx)%Z).
  { intros tx Hin _.
    change (kasper_transactions (Deposit.kasper_response feeds_both))
      with [kasper_transfer "ab12" 160000000000] in Hin.
    apply list_elem_of_singleton in Hin. subst tx. cbn. lia. }
  split; [exact H1|]. split; [exact H2|].
  exact (proj1 (scan_never_lowers_the_balance feeds_both alice_wallet
                  (users (server_with (alice 1))) (alice 1) H1 H2)).
Defined.

(** ** server.js: the other account routes *)

Lemma server_eta s : mkServer (users s) (progressMap s) (journal s) = s.
Proof. destruct s; reflexivity. Qed.

(** The outcomes of POST /scan-deposits with an address in the body. *)
Lemma scan_deposits_cases f after w s :
  w <> "" ->
  (users s !! w = None
   /\ Accounts.scan_deposits f after (Some w) s =
        (Returns (Accounts.mkAnswer 500 (Accounts.Failure "Failed to scan deposits")), s))
  \/ (exists u, users s !! w = Some u
      /\ ((Accounts.scan_deposits f after (Some w) s =
             (Returns (Accounts.mkAnswer 500 (Accounts.Failure "Failed to scan deposits")), s)
           /\ (Deposit.find_ok f = false \/ Deposit.save_ok f = false))
          \/ (Deposit.find_ok f = true /\ Deposit.save_ok f = true /\ after = false
              /\ Accounts.scan_deposits f after (Some w) s =
                   (Returns (Accounts.mkAnswer 500
                               (Accounts.Failure "Failed to scan deposits")),
                    mkServer (<[w := Deposit.processUserDeposits f u]> (users s))
                             (progressMap s) (journal s)))
          \/ (Deposit.find_ok f = true /\ Deposit.save_ok f = true /\ after = true
              /\ Accounts.scan_deposits f after (Some w) s =
                   (Returns (Accounts.mkAnswer 200
                               (Accounts.Credits
                                  (credits (Deposit.processUserDeposits f u)))),
                    mkServer (<[w := Deposit.processUserDeposits f u]> (users s))
                             (progressMap s) (journal s))))).
Proof.
  intros Hw. assert (Ew : String.eqb w "" = false) by (apply String.eqb_neq; exact Hw).
  unfold Accounts.scan_deposits. cbn [falsy]. rewrite Ew. cbv zeta.
  change (default "" (Some w)) with w.
  cbv [try_catch bind Accounts.fetch_deposits Deposit.fetchAndProcessUserDeposits].
  destruct (Deposit.find_ok f) eqn:Hfind; cbn [negb].
  2:{ rewrite server_eta. cbv [ret].
      destruct (users s !! w) as [u|] eqn:Hu; [right; exists u|left]; auto 6. }
  destruct (users s !! w) as [u|] eqn:Hu.
  2:{ left. rewrite server_eta. auto. }
  right. exists u. split; [reflexivity|].
  destruct (Deposit.save_ok f) eqn:Hsave.
  2:{ left. rewrite server_eta. auto. }
  right. destruct after; cbv [db_call throw findOne ret]; cbn [users].
  - right. rewrite lookup_insert_eq. auto.
  - left. auto.
Qed.

(** X15.  POST /scan-deposits never answers 404.  The route always
    answers, with 200, 400 or 500, and leaves the jobs alone.  For a
    wallet address that has no account it answers 500 [Failed to scan
    deposits] and changes nothing: the deposit service throws before the
    route can look the account up, so its [User not found] answer is never
    sent. *)
Theorem scan_deposits_never_answers_404
    (f : Deposit.Feeds) (after : bool) (walletAddress : option string) (s : Server) :
  exists a s',
    Accounts.scan_deposits f after walletAddress s = (Returns a, s')
    /\ (Accounts.answer_status a = 200 \/ Accounts.answer_status a = 400
        \/ Accounts.answer_status a = 500)%Z
    /\ Accounts.reply a <> Accounts.Failure "User not found"
    /\ progressMap s' = progressMap s /\ journal s' = journal s
    /\ (forall w, walletAddress = Some w -> w <> "" -> users s !! w = None ->
          a = Accounts.mkAnswer 500 (Accounts.Failure "Failed to scan deposits")
          /\ s' = s).
Proof.
  destruct walletAddress as [w|].
  2:{ do 2 eexists. split; [reflexivity|]. cbn. split; [auto|]. split; [discriminate|].
      split; [reflexivity|]. split; [reflexivity|]. intros w H. discriminate H. }
  destruct (String.eqb_spec w "") as [->|Hw].
  { do 2 eexists. split; [reflexivity|]. cbn. split; [auto|]. split; [discriminate|].
    split; [reflexivity|]. split; [reflexivity|]. intros w [= <-] H. congruence. }
  destruct (scan_deposits_cases f after w s Hw)
    as [[Hu ->] | (u & Hu & [[-> _] | [(_ & _ & _ & ->) | (_ & _ & _ & ->)]])];
    do 2 eexists; (split; [reflexivity|]); cbn;
    (split; [auto|]); (split; [discriminate|]);
    (split; [reflexivity|]); (split; [reflexivity|]);
    intros w' [= <-] _ Hnone; try congruence.
  split; reflexivity.
Qed.

(** X16.  A scan that answers 200 reports the balance it stored.  The
    account existed, the store now holds the scanned document under its
    address, the answer carries the balance of that document, which is the
    balance of before plus the credits of the records the scan added, and
    every other account and every job is as before. *)
Theorem scan_deposits_reports_the_stored_balance
    (f : Deposit.Feeds) (after : bool) (walletAddress : option string)
    (s s' : Server) (r : Accounts.Reply) :
  Accounts.scan_deposits f after walletAddress s =
    (Returns (Accounts.mkAnswer 200 r), s') ->
  exists w u u' new,
    walletAddress = Some w
    /\ users s !! w = Some u
    /\ users s' !! w = Some u'
    /\ r = Accounts.Credits (credits u')
    /\ processedTransactions u' = (processedTransactions u ++ new)%list
    /\ credits u' == credits u + total_creditsAdded new
    /\ same_identity u u'
    /\ (forall k, k <> w -> users s' !! k = users s !! k)
    /\ progressMap s' = progressMap s /\ journal s' = journal s.
Proof.
  intros Hrun. destruct walletAddress as [w|]; [|discriminate Hrun].
  destruct (String.eqb_spec w "") as [->|Hw]; [discriminate Hrun|].
  destruct (scan_deposits_cases f after w s Hw)
    as [[Hu H] | (u & Hu & [[H _] | [(_ & _ & _ & H) | (_ & _ & _ & H)]])];
    rewrite H in Hrun; try discriminate Hrun.
  inversion Hrun; subst r s'. clear Hrun H.
  destruct (scan_adds f u) as (new1 & new2 & Hp & _ & _ & Hc & Hid).
  exists w, u, (Deposit.processUserDeposits f u), (new1 ++ new2)%list.
  split; [reflexivity|]. split; [exact Hu|]. cbn [users progressMap journal].
  split; [apply lookup_insert_eq|]. split; [reflexivity|]. split; [exact Hp|].
  split; [rewrite Hc, total_creditsAdded_app; ring|]. split; [exact Hid|].
  split; [intros k Hk; apply lookup_insert_ne; congruence|]. split; reflexivity.
Qed.

(** X16 at a scan that finds 1600 KASPER and 2.5 KAS for alice, who had one
    credit: the answer is 1 + 2 + 2.5 credits. *)
Lemma scan_deposits_reports_the_stored_balance_witness :
  let s' := snd (Accounts.scan_deposits feeds_both true (Some alice_wallet)
                   (server_with (alice 1))) in
  Accounts.scan_deposits feeds_both true (Some alice_wallet) (server_with (alice 1)) =
    (Returns (Accounts.mkAnswer 200
                (Accounts.Credits (1 + 160000000000 / 100000000 * (1 / 800)
                                   + (0 + 250000000 / 100000000) * (1 / 1)))), s') /\
  exists w u u' new,
    Some alice_wallet = Some w
    /\ users (server_with (alice 1)) !! w = Some u
    /\ users s' !! w = Some u'
    /\ Accounts.Credits (1 + 160000000000 / 100000000 * (1 / 800)
                         + (0 + 250000000 / 100000000) * (1 / 1))
       = Accounts.Credits (credits u')
    /\ processedTransactions u' = (processedTransactions u ++ new)%list
    /\ credits u' == credits u + total_creditsAdded new
    /\ same_identity u u'
    /\ (forall k, k <> w -> users s' !! k = users (server_with (alice 1)) !! k)
    /\ progressMap s' = progressMap (server_with (alice 1))
    /\ journal s' = journal (server_with (alice 1)).
Proof.
  cbv zeta.
  assert (H : Accounts.scan_deposits feeds_both true (Some alice_wallet)
                (server_with (alice 1)) =
              (Returns (Accounts.mkAnswer 200
                          (Accounts.Credits (1 + 160000000000 / 100000000 * (1 / 800)
                                             + (0 + 250000000 / 100000000) * (1 / 1)))),
               snd (Accounts.scan_deposits feeds_both true (Some alice_wallet)
                      (server_with (alice 1)))))
    by reflexivity.
  split; [exact H|].
  exact (scan_deposits_reports_the_stored_balance feeds_both true (Some alice_wallet)
           (server_with (alice 1)) _ _ H).
Defined.

(** X17.  A scan survives feeds that deliver nothing.  When both feeds
    fail, or answer without a usable list of transactions, while the store
    works, POST /scan-deposits for an account still answers 200 with the
    balance of the account, and the state is the one of before. *)
Theorem scan_deposits_survives_failing_feeds
    (f : Deposit.Feeds) (w : string) (u : User) (s : Server) :
  w <> "" ->
  users s !! w = Some u ->
  Deposit.find_ok f = true -> Deposit.save_ok f = true ->
  kasper_transactions (Deposit.kasper_response f) = [] ->
  kaspa_transactions (Deposit.kaspa_response f) = [] ->
  Accounts.scan_deposits f true (Some w) s =
    (Returns (Accounts.mkAnswer 200 (Accounts.Credits (credits u))), s).
Proof.
  intros Hw Hu Hfind Hsave Hk Hn.
  assert (Hsame : Deposit.processUserDeposits f u = u).
  { apply scan_nothing_new; [rewrite Hk | rewrite Hn]; intros tx Hin; inversion Hin. }
  destruct (scan_deposits_cases f true w s Hw)
    as [[Hnone _] | (u0 & Hu0 & [[_ [H|H]] | [(_ & _ & H & _) | (_ & _ & _ & ->)]])];
    try congruence.
  assert (u0 = u) as -> by congruence.
  rewrite Hsame, (insert_id _ _ _ Hu), server_eta. reflexivity.
Qed.

(** X17 at alice while both feeds refuse the connection. *)
Lemma scan_deposits_survives_failing_feeds_witness :
  alice_wallet <> "" /\
  users (server_with (alice 1)) !! alice_wallet = Some (alice 1) /\
  Deposit.find_ok feeds_down = true /\ Deposit.save_ok feeds_down = true /\
  kasper_transactions (Deposit.kasper_response feeds_down) = [] /\
  kaspa_transactions (Deposit.kaspa_response feeds_down) = [] /\
  Accounts.scan_deposits feeds_down true (Some alice_wallet) (server_with (alice 1)) =
    (Returns (Accounts.mkAnswer 200 (Accounts.Credits (credits (alice 1)))),
     server_with (alice 1)).
Proof.
  assert (H1 : alice_wallet <> "") by discriminate.
  assert (H2 : users (server_with (alice 1)) !! alice_wallet = Some (alice 1))
    by (vm_compute; reflexivity).
  split; [exact H1|]. split; [exact H2|].
  split; [reflexivity|]. split; [reflexivity|]. split; [reflexivity|]. split; [reflexivity|].
  exact (scan_deposits_survives_failing_feeds feeds_down alice_wallet (alice 1)
           (server_with (alice 1)) H1 H2 eq_refl eq_refl eq_refl eq_refl).
Defined.

(** X18.  POST /connect-wallet only reads, and refuses without saying why.
    The route always answers and never changes the state.  It answers 200
    only for a stored account whose password bcrypt accepted, and then
    with the name, the address, the balance and the files of that account.
    With a working store, an address without account and a password that
    bcrypt rejects get the same answer, 400 [Invalid wallet address or
    password.] *)
Theorem connect_wallet_only_reads
    (w : Accounts.ConnectWorld) (body : Accounts.Credentials) (s : Server) :
  exists a,
    Accounts.connect_wallet w body s = (Returns a, s)
    /\ (Accounts.answer_status a = 200%Z ->
        exists address u,
          Accounts.given_name body = Some address
          /\ users s !! address = Some u
          /\ Accounts.bcrypt_compare w = Returns true
          /\ Accounts.reply a =
               Accounts.Connected (username u) (walletAddress u) (credits u)
                                  (generatedFiles u))
    /\ (forall address password,
          Accounts.given_name body = Some address -> address <> "" ->
          Accounts.given_password body = Some password -> password <> "" ->
          Accounts.connect_store_up w = true ->
          users s !! address = None
          \/ (exists u, users s !! address = Some u)
             /\ Accounts.bcrypt_compare w = Returns false ->
          a = Accounts.mkAnswer 400
                (Accounts.Failure "Invalid wallet address or password.")).
Proof.
  unfold Accounts.connect_wallet.
  destruct (falsy (Accounts.given_name body) || falsy (Accounts.given_password body))
    eqn:Hfalsy.
  { eexists. split; [reflexivity|]. split; [discriminate|].
    intros address password Hn Ha Hp Hpw _ _. exfalso. revert Hfalsy.
    rewrite Hn, Hp. cbn [falsy].
    apply String.eqb_neq in Ha, Hpw. rewrite Ha, Hpw. discriminate. }
  destruct (Accounts.given_name body) as [address|] eqn:Hname; [|discriminate Hfalsy].
  change (default "" (Some address)) with address.
  cbv [try_catch bind db_call findOne ret await throw].
  destruct (Accounts.connect_store_up w) eqn:Hup.
  2:{ eexists. split; [reflexivity|]. split; [discriminate|].
      intros ? ? _ _ _ _ H. discriminate H. }
  destruct (users s !! address) as [u|] eqn:Hu.
  2:{ eexists. split; [reflexivity|]. split; [discriminate|]. reflexivity. }
  destruct (Accounts.bcrypt_compare w) as [[|]|e] eqn:Hcmp; cbn [negb];
    eexists; (split; [reflexivity|]); cbn [Accounts.answer_status Accounts.reply].
  - split; [intros _; exists address, u; auto|].
    intros a p [= <-] _ _ _ _ [Hnone | [_ H]]; congruence.
  - split; [discriminate | reflexivity].
  - split; [discriminate|].
    intros a p [= <-] _ _ _ _ [Hnone | [_ H]]; congruence.
Qed.

(** The outcomes of POST /save-generated-file with all three fields. *)
Lemma save_generated_file_cases w address rid text s :
  address <> "" -> rid <> "" -> text <> "" ->
  (exists a,
     Accounts.save_generated_file w
       (Accounts.mkFileBody (Some address) (Some rid) (Some text)) s = (Returns a, s)
     /\ Accounts.answer_status a <> 200%Z)
  \/ (exists u,
        users s !! address = Some u
        /\ Accounts.save_generated_file w
             (Accounts.mkFileBody (Some address) (Some rid) (Some text)) s =
             (Returns (Accounts.mkAnswer 200 Accounts.Success),
              mkServer
                (<[walletAddress u :=
                     push_generatedFile
                       (mkGeneratedFile rid text (Accounts.file_date w)) u]> (users s))
                (progressMap s) (journal s))).
Proof.
  intros Ha Hr Ht. apply String.eqb_neq in Ha, Hr, Ht.
  unfold Accounts.save_generated_file.
  cbn [Accounts.file_walletAddress Accounts.file_requestId Accounts.file_content falsy].
  rewrite Ha, Hr, Ht. cbn [orb].
  change (default "" (Some address)) with address.
  change (default "" (Some rid)) with rid.
  change (default "" (Some text)) with text.
  cbv [try_catch bind db_call findOne ret await throw save].
  destruct (Accounts.file_store_up_find w).
  2:{ left. eexists. split; [reflexivity|]. discriminate. }
  destruct (users s !! address) as [u|] eqn:Hu.
  2:{ left. eexists. split; [reflexivity|]. discriminate. }
  destruct (Accounts.file_store_up_save w).
  - right. exists u. split; reflexivity.
  - left. eexists. split; [reflexivity|]. discriminate.
Qed.

(** X19.  POST /save-generated-file appends one file and nothing else.  In
    a store keyed by wallet address, a 200 answer means that the account
    existed and now has the files of before followed by one file with the
    request id and the content of the body, stamped with the date of the
    request; its balance and its deposit records are as before, and so are
    all other accounts and all jobs.  Any other answer leaves the state
    untouched.  The route checks neither a balance nor that the request id
    names a job. *)
Theorem save_generated_file_appends_one_file
    (w : Accounts.FileWorld) (body : Accounts.FileBody) (s s' : Server)
    (a : Accounts.Answer) :
  keyed_by_wallet (users s) ->
  Accounts.save_generated_file w body s = (Returns a, s') ->
  (Accounts.answer_status a = 200%Z ->
   exists address rid text u u',
     body = Accounts.mkFileBody (Some address) (Some rid) (Some text)
     /\ users s !! address = Some u
     /\ users s' !! address = Some u'
     /\ generatedFiles u' =
          (generatedFiles u ++ [mkGeneratedFile rid text (Accounts.file_date w)])%list
     /\ credits u' = credits u
     /\ processedTransactions u' = processedTransactions u
     /\ (forall k, k <> address -> users s' !! k = users s !! k))
  /\ (Accounts.answer_status a <> 200%Z -> s' = s)
  /\ progressMap s' = progressMap s /\ journal s' = journal s.
Proof.
  intros Hkeyed Hrun.
  assert (Hearly : Accounts.save_generated_file w body s =
                     (Returns (Accounts.mkAnswer 400
                                 (Accounts.Failure "All fields are required.")), s) ->
                   (Accounts.answer_status a = 200%Z ->
                    exists address rid text u u',
                      body = Accounts.mkFileBody (Some address) (Some rid) (Some text)
                      /\ users s !! address = Some u
                      /\ users s' !! address = Some u'
                      /\ generatedFiles u' =
                           (generatedFiles u
                            ++ [mkGeneratedFile rid text (Accounts.file_date w)])%list
                      /\ credits u' = credits u
                      /\ processedTransactions u' = processedTransactions u
                      /\ (forall k, k <> address -> users s' !! k = users s !! k))
                   /\ (Accounts.answer_status a <> 200%Z -> s' = s)
                   /\ progressMap s' = progressMap s /\ journal s' = journal s).
  { intros H. rewrite H in Hrun. inversion Hrun; subst a s'.
    split; [discriminate|]. split; [reflexivity|]. split; reflexivity. }
  destruct body as [[address|] [rid|] [text|]];
    try (apply Hearly; unfold Accounts.save_generated_file;
         cbn [Accounts.file_walletAddress Accounts.file_requestId
              Accounts.file_content falsy];
         repeat match goal with
                | |- context [String.eqb ?x ""] => destruct (String.eqb x "")
                end;
         reflexivity).
  destruct (String.eqb_spec address "") as [->|Ha]; [apply Hearly; reflexivity|].
  destruct (String.eqb_spec rid "") as [->|Hr].
  { apply Hearly. unfold Accounts.save_generated_file.
    cbn [Accounts.file_walletAddress Accounts.file_requestId Accounts.file_content falsy].
    rewrite orb_true_r. reflexivity. }
  destruct (String.eqb_spec text "") as [->|Ht].
  { apply Hearly. unfold Accounts.save_generated_file.
    cbn [Accounts.file_walletAddress Accounts.file_requestId Accounts.file_content falsy].
    rewrite orb_true_r. reflexivity. }
  clear Hearly.
  destruct (save_generated_file_cases w address rid text s Ha Hr Ht)
    as [(a0 & H & Hstatus) | (u & Hu & H)]; rewrite H in Hrun; inversion Hrun; subst a s'.
  - split; [intros E; contradiction|]. split; [reflexivity|]. split; reflexivity.
  - cbn [Accounts.answer_status users progressMap journal].
    split; [|split; [intros E; contradiction|]; split; reflexivity].
    intros _. rewrite (Hkeyed _ _ Hu).
    exists address, rid, text, u. eexists.
    split; [reflexivity|]. split; [exact Hu|]. split; [apply lookup_insert_eq|].
    split; [reflexivity|]. split; [reflexivity|]. split; [reflexivity|].
    intros k Hk. apply lookup_insert_ne. congruence.
Qed.

(** X19 at a file saved for alice. *)
Lemma save_generated_file_appends_one_file_witness :
  let w := Accounts.mkFileWorld true 1700000000 true in
  let body := Accounts.mkFileBody (Some alice_wallet) (Some "00c0ffee00c0ffee")
                (Some "<html></html>") in
  let s' := snd (Accounts.save_generated_file w body (server_with (alice 0))) in
  keyed_by_wallet (users (server_with (alice 0))) /\
  Accounts.save_generated_file w body (server_with (alice 0)) =
    (Returns (Accounts.mkAnswer 200 Accounts.Success), s') /\
  progressMap s' = progressMap (server_with (alice 0)).
Proof.
  cbv zeta.
  assert (H1 : keyed_by_wallet (users (server_with (alice 0))))
    by apply singleton_keyed_by_wallet.
  assert (H2 : Accounts.save_generated_file (Accounts.mkFileWorld true 1700000000 true)
                 (Accounts.mkFileBody (Some alice_wallet) (Some "00c0ffee00c0ffee")
                    (Some "<html></html>")) (server_with (alice 0)) =
               (Returns (Accounts.mkAnswer 200 Accounts.Success),
                snd (Accounts.save_generated_file
                       (Accounts.mkFileWorld true 1700000000 true)
                       (Accounts.mkFileBody (Some alice_wallet) (Some "00c0ffee00c0ffee")
                          (Some "<html></html>")) (server_with (alice 0)))))
    by (vm_compute; reflexivity).
  split; [exact H1|]. split; [exact H2|].
  exact (proj1 (proj2 (proj2 (save_generated_file_appends_one_file _ _ _ _ _ H1 H2)))).
Defined.

(** ** The server with the section refresh: what is checked before a debit *)

Lemma not_one_of_false allowed x :
  SectionServer.not_one_of allowed x = false ->
  exists v, x = Some v /\ v <> "" /\ toLowerCase v ∈ allowed.
Proof.
  unfold SectionServer.not_one_of. destruct x as [v|]; [|discriminate].
  intros H. apply orb_false_iff in H. destruct H as [Hv Hin].
  apply negb_false_iff, existsb_exists in Hin. destruct Hin as (a & Hin & Ha).
  apply String.eqb_eq in Ha. exists v. split; [reflexivity|].
  split; [apply String.eqb_neq; exact Hv|].
  rewrite Ha. apply list_elem_of_In. exact Hin.
Qed.

(** The route on a body whose fields are strings or missing: it always
    answers; a 200 means that both fields were valid and the account had
    a credit; any other answer leaves accounts and jobs untouched. *)
Lemma section_start_generation_cases
    (w : SectionServer.World) (body : SectionServer.Body) (s : Server) :
  exists r s',
    SectionServer.post_start_generation w body s = (Returns r, s')
    /\ (http_status r = 200%Z ->
        exists wallet inputs pt th u,
          SectionServer.body_walletAddress body = Some wallet
          /\ SectionServer.body_userInputs body = Some inputs
          /\ projectType inputs = Some pt /\ toLowerCase pt ∈ ["nft"; "token"]
          /\ themeSelection inputs = Some th /\ toLowerCase th ∈ ["dark"; "light"]
          /\ users s !! wallet = Some u /\ 1 <= credits u
          /\ payload r = RequestIdJson (SectionServer.generateRequestId w))
    /\ (http_status r <> 200%Z -> s' = s).
Proof.
  unfold SectionServer.post_start_generation, SectionServer.start_generation.
  destruct (SectionServer.body_walletAddress body) as [wa|];
    [|do 2 eexists; split; [reflexivity|]; split; [discriminate | reflexivity]].
  destruct (SectionServer.body_userInputs body) as [inputs|];
    [|do 2 eexists; split; [reflexivity|]; split; [discriminate | reflexivity]].
  destruct (String.eqb wa "");
    [do 2 eexists; split; [reflexivity|]; split; [discriminate | reflexivity]|].
  destruct (SectionServer.not_one_of ["nft"; "token"] (projectType inputs)) eqn:Hpt;
    [do 2 eexists; split; [reflexivity|]; split; [discriminate | reflexivity]|].
  destruct (SectionServer.not_one_of ["dark"; "light"] (themeSelection inputs)) eqn:Hth;
    [do 2 eexists; split; [reflexivity|]; split; [discriminate | reflexivity]|].
  cbv [try_catch bind db_call findOneAndUpdate_debit throw ret register].
  destruct (SectionServer.store_up_debit w);
    [|do 2 eexists; split; [reflexivity|]; split; [discriminate | reflexivity]].
  destruct (users s !! wa) as [u|] eqn:Hu;
    [|do 2 eexists; split; [reflexivity|]; split; [discriminate | reflexivity]].
  destruct (Qle_bool 1 (credits u)) eqn:Hle;
    [|do 2 eexists; split; [reflexivity|]; split; [discriminate | reflexivity]].
  do 2 eexists. split; [reflexivity|]. cbn [http_status payload].
  split; [|intros H; contradiction].
  intros _. apply not_one_of_false in Hpt, Hth.
  destruct Hpt as (pt & Hpt & _ & Hpt'). destruct Hth as (th & Hth & _ & Hth').
  apply Qle_bool_iff in Hle.
  exists wa, inputs, pt, th, u. auto 10.
Qed.

(** X20.  The server with the section refresh validates before it debits.
    Take POST /start-generation with a body whose [projectType] and
    [themeSelection] are any JSON values.  Either the handler throws a
    TypeError before its [try] block and sends no response, which happens
    only for a value that is truthy and not a string, and happens for
    every such project type once a wallet address is given, or it
    answers.  It
    answers 200 only if the project type is a string that is [nft] or
    [token] and the theme is a string that is [dark] or [light], where
    letter case does not count and the KELVIN SIGN counts as k, and the
    account has at least one credit.  Whenever the answer is not 200, and
    whenever the handler throws, the handler has changed neither accounts
    nor jobs: nothing is debited for a request that was not accepted. *)
Theorem section_start_generation_validates_first
    (w : SectionServer.World) (body : SectionServerRaw.RawBody) (s : Server) :
  let run := SectionServerRaw.post_start_generation w body s in
  (forall wallet inputs,
     SectionServerRaw.raw_walletAddress body = Some wallet -> wallet <> "" ->
     SectionServerRaw.raw_userInputs body = Some inputs ->
     SectionServerRaw.raw_projectType inputs = SectionServerRaw.OtherTruthy ->
     run = (Throws "TypeError: projectType.toLowerCase is not a function", s))
  /\
  match fst run with
  | Throws _ =>
      snd run = s
      /\ exists inputs,
           SectionServerRaw.raw_userInputs body = Some inputs
           /\ (SectionServerRaw.raw_projectType inputs = SectionServerRaw.OtherTruthy
               \/ SectionServerRaw.raw_themeSelection inputs = SectionServerRaw.OtherTruthy)
  | Returns r =>
      (http_status r = 200%Z ->
       exists wallet inputs pt th u,
         SectionServerRaw.raw_walletAddress body = Some wallet
         /\ SectionServerRaw.raw_userInputs body = Some inputs
         /\ SectionServerRaw.raw_projectType inputs = SectionServerRaw.Text pt
         /\ toLowerCase pt ∈ ["nft"; "token"]
         /\ SectionServerRaw.raw_themeSelection inputs = SectionServerRaw.Text th
         /\ toLowerCase th ∈ ["dark"; "light"]
         /\ users s !! wallet = Some u /\ 1 <= credits u
         /\ payload r = RequestIdJson (SectionServer.generateRequestId w))
      /\ (http_status r <> 200%Z -> snd run = s)
  end.
Proof.
  cbv zeta. split.
  { intros wa inputs Hwa Hne Hin Hpt. unfold SectionServerRaw.post_start_generation.
    rewrite Hwa, Hin. apply String.eqb_neq in Hne. rewrite Hne, Hpt. reflexivity. }
  unfold SectionServerRaw.post_start_generation.
  destruct (SectionServerRaw.raw_walletAddress body) as [wa|];
    [|cbn; split; [discriminate | reflexivity]].
  destruct (SectionServerRaw.raw_userInputs body) as [inputs|];
    [|cbn; split; [discriminate | reflexivity]].
  destruct (String.eqb wa ""); [cbn; split; [discriminate | reflexivity]|].
  destruct (SectionServerRaw.raw_projectType inputs) as [pt| |] eqn:Hpt.
  3:{ cbn. split; [reflexivity|]. exists inputs. auto. }
  2:{ cbn. split; [discriminate | reflexivity]. }
  cbn [SectionServerRaw.text_of].
  destruct (SectionServer.not_one_of ["nft"; "token"] (Some pt));
    [cbn; split; [discriminate | reflexivity]|].
  destruct (SectionServerRaw.raw_themeSelection inputs) as [th| |] eqn:Hth.
  3:{ cbn. split; [reflexivity|]. exists inputs. auto. }
  - destruct (section_start_generation_cases w
                (SectionServer.mkBody (Some wa) (Some (SectionServerRaw.typed inputs))) s)
      as (r & s' & -> & H200 & Hother).
    cbn [fst snd]. split; [|exact Hother].
    intros Hr. destruct (H200 Hr) as (wa' & i' & pt' & th' & u & E1 & E2 & E3 & H3 & E4 & H4
                                      & Hu & Hc & Hp).
    cbn in E1, E2. inversion E1; subst wa'. inversion E2; subst i'.
    unfold SectionServerRaw.typed in E3, E4. cbn [projectType themeSelection] in E3, E4.
    rewrite Hpt in E3. rewrite Hth in E4. cbn in E3, E4.
    inversion E3; subst pt'. inversion E4; subst th'.
    exists wa, inputs, pt, th, u. auto 10.
  - destruct (section_start_generation_cases w
                (SectionServer.mkBody (Some wa) (Some (SectionServerRaw.typed inputs))) s)
      as (r & s' & -> & H200 & Hother).
    cbn [fst snd]. split; [|exact Hother].
    intros Hr. destruct (H200 Hr) as (wa' & i' & pt' & th' & u & _ & E2 & _ & _ & E4 & _).
    cbn in E2. inversion E2; subst i'.
    unfold SectionServerRaw.typed in E4. cbn [themeSelection] in E4.
    rewrite Hth in E4. discriminate E4.
Qed.

(** ** server.js, section by section: the pipeline *)

(** The eight ways through the loop: the first completion that throws, or
    none. *)
Ltac live_paths completion :=
  unfold Live.generateAllSectionsSequential, Live.SECTIONS_ORDER;
  cbn [Live.sections_loop]; unfold Live.generateSectionSnippet;
  repeat match goal with
         | |- context [completion ?sec] =>
             let H := fresh "Hsec" in
             destruct (completion sec) as [?text|?e] eqn:H
         end;
  cbn [fst snd Live.write Live.context Live.written app map Live.live_progress Live.live_status
       Live.sections Live.currentIndex Live.live_userInputs
       Live.set_live_progress Live.set_live_status Live.set_section Live.set_currentIndex
       Live.new_job];
  repeat match goal with
         | |- context [Live.percent ?k] =>
             let v := eval vm_compute in (Live.percent k) in
             change (Live.percent k) with v
         end.

(** X21.  The progress of a section-by-section job never goes back and
    ends at 100.  Whatever the seven chat completions do,
    [generateAllSectionsSequential] fulfils, so the [.catch] handler of
    the route with its refund never runs; the values that the entry of the
    job takes have a progress that never decreases and stays between 0 and
    100; the last value is the final one, with progress 100 and the state
    done or error; the user inputs stored with the job are kept. *)
Theorem live_progress_never_decreases
    (completion : string -> Outcome string) (inputs : UserInputs) :
  let run := Live.generateAllSectionsSequential completion
               (Live.mkRun (Live.new_job inputs) []) in
  fst run = Returns tt
  /\ Sorted Z.le (0%Z :: map Live.live_progress (Live.written (snd run)))
  /\ Forall (fun j => (0 <= Live.live_progress j <= 100)%Z) (Live.written (snd run))
  /\ last (Live.written (snd run)) = Some (Live.context (snd run))
  /\ Live.live_progress (Live.context (snd run)) = 100%Z
  /\ terminal (Live.live_status (Live.context (snd run))) = true
  /\ Live.live_userInputs (Live.context (snd run)) = inputs.
Proof.
  cbv zeta. live_paths completion.
  all: split; [reflexivity|].
  all: split; [sorted_Z|].
  all: split; [repeat (constructor; [cbn; lia|]); constructor|].
  all: split; [reflexivity|].
  all: split; [reflexivity|].
  all: split; reflexivity.
Qed.

(** X22.  The sections are filled in order, up to the first failure.
    After [generateAllSectionsSequential], some number [k] of sections,
    the first [k] of [SECTIONS_ORDER], hold the trimmed completion of
    their own section with the code fences removed, so without any code
    fence; all later sections are still null, and the entry has no other
    section.  The job is done exactly when [k] is 7, and in error exactly
    when the completion of section [k] threw; [currentIndex] is the index
    of the last section that was started. *)
Theorem live_sections_filled_in_order
    (completion : string -> Outcome string) (inputs : UserInputs) :
  let job := Live.context (snd (Live.generateAllSectionsSequential completion
                                  (Live.mkRun (Live.new_job inputs) []))) in
  exists k : nat,
    (k <= length Live.SECTIONS_ORDER)%nat
    /\ (forall i sec, Live.SECTIONS_ORDER !! i = Some sec -> (i < k)%nat ->
          exists t, completion sec = Returns t
                    /\ Live.sections job !! sec = Some (Some (replace_fences (trim t)))
                    /\ occurs fence (replace_fences (trim t)) = false)
    /\ (forall i sec, Live.SECTIONS_ORDER !! i = Some sec -> (k <= i)%nat ->
          Live.sections job !! sec = Some None)
    /\ (forall sec, sec ∉ Live.SECTIONS_ORDER -> Live.sections job !! sec = None)
    /\ (Live.live_status job = done <-> k = length Live.SECTIONS_ORDER)
    /\ (Live.live_status job = error <->
        exists sec e, Live.SECTIONS_ORDER !! k = Some sec /\ completion sec = Throws e)
    /\ Live.currentIndex job = Nat.min k 6.
Proof.
  cbv zeta. live_paths completion.
  all: [> exists 7%nat | exists 6%nat | exists 5%nat | exists 4%nat | exists 3%nat
        | exists 2%nat | exists 1%nat | exists 0%nat ].
  all: split; [cbn; lia|].
  all: unfold Live.no_sections.
  all: split;
    [intros i sec Hi Hlt;
     do 7 (destruct i as [|i];
           [cbn in Hi; inversion Hi; subst sec;
            first
              [ lia
              | eexists; split; [eassumption|];
                split; [|apply replace_fences_from_no_fence];
                repeat first [rewrite lookup_insert_eq
                             | rewrite lookup_insert_ne by discriminate];
                reflexivity ]|]);
     cbn in Hi; discriminate Hi|].
  all: split;
    [intros i sec Hi Hle;
     do 7 (destruct i as [|i];
           [cbn in Hi; inversion Hi; subst sec;
            first
              [ lia
              | repeat first [rewrite lookup_insert_eq
                             | rewrite lookup_insert_ne by discriminate];
                reflexivity ]|]);
     cbn in Hi; discriminate Hi|].
  all: split;
    [intros sec Hnot;
     assert (Hne : forall k, k ∈ ["nav"; "hero"; "roadmap"; "tokenomics"; "exchanges";
                                  "about"; "footer"] -> k <> sec)
       by (intros k Hk ->; exact (Hnot Hk));
     rewrite !lookup_insert_ne by (apply Hne, list_elem_of_In; cbn; tauto);
     apply lookup_empty|].
  all: split; [split; intros H; first [reflexivity | discriminate H]|].
  all: split; [|reflexivity].
  all: split;
    [intros H; first [discriminate H | eexists _, _; split; [reflexivity | eassumption]]
    |intros (sec & err & H1 & H2); first [reflexivity | discriminate H1]].
Qed.

Lemma generateAllSectionsSequential_fulfils completion r :
  exists r0 st,
    (st = done \/ st = error)
    /\ Live.generateAllSectionsSequential completion r =
         (Returns tt,
          Live.write (Live.set_live_progress 100) (Live.write (Live.set_live_status st) r0)).
Proof.
  unfold Live.generateAllSectionsSequential.
  destruct (Live.sections_loop completion 0 Live.SECTIONS_ORDER r) as [[[]|e] r0];
    eexists _, _; split; [left | reflexivity | right | reflexivity]; reflexivity.
Qed.

(** X23.  A section-by-section generation costs one credit, also when it
    fails.  POST /start-generation of this version answers 200 only for a
    body with all required inputs and an account with at least one credit.
    After the background task has ended, whatever the completions did and
    whether or not the store could be reached for a refund, the account is
    stored with exactly one credit less and otherwise as before, no other
    account has changed, and the job is stored in a final state with
    progress 100.  Any other answer leaves the state untouched. *)
Theorem live_start_generation_costs_one_credit
    (w : Live.World) (body : Live.Body) (s : Live.LiveServer) :
  let r := fst (Live.post_start_generation w body s) in
  let s' := snd (Live.post_start_generation w body s) in
  (http_status r = 200%Z ->
   exists wallet inputs u job,
     Live.body_walletAddress body = Some wallet
     /\ Live.body_userInputs body = Some inputs
     /\ Live.live_users s !! wallet = Some u
     /\ 1 <= credits u
     /\ payload r = RequestIdJson (Live.generateRequestId w)
     /\ Live.live_users s' =
          <[wallet := set_credits (credits u + - (1)) u]> (Live.live_users s)
     /\ Live.live_progressMap s' !! Live.generateRequestId w = Some job
     /\ terminal (Live.live_status job) = true
     /\ Live.live_progress job = 100%Z)
  /\ (http_status r <> 200%Z -> s' = s).
Proof.
  cbv zeta. unfold Live.post_start_generation.
  destruct (Live.body_walletAddress body) as [wa|]; [|split; [discriminate | reflexivity]].
  destruct (Live.body_userInputs body) as [inputs|]; [|split; [discriminate | reflexivity]].
  destruct (String.eqb wa ""); [split; [discriminate | reflexivity]|].
  destruct (falsy _ || falsy _ || falsy _ || falsy _);
    [split; [discriminate | reflexivity]|].
  destruct (negb (existsb _ ["nft"; "token"])); [split; [discriminate | reflexivity]|].
  destruct (negb (existsb _ ["dark"; "light"])); [split; [discriminate | reflexivity]|].
  destruct (Live.store_up_debit w); cbn [negb]; [|split; [discriminate | reflexivity]].
  destruct (Live.live_users s !! wa) as [u|] eqn:Hu; [|split; [discriminate | reflexivity]].
  destruct (Qle_bool 1 (credits u)) eqn:Hle; [|split; [discriminate | reflexivity]].
  cbv zeta. cbn [fst snd http_status payload]. split; [|intros H; contradiction].
  intros _. apply Qle_bool_iff in Hle.
  unfold Live.background. cbn [Live.live_progressMap Live.live_users Live.live_journal].
  rewrite lookup_insert_eq.
  destruct (generateAllSectionsSequential_fulfils (Live.completion w)
              (Live.mkRun (Live.new_job inputs) [])) as (r0 & st & Hst & ->).
  cbn [Live.live_users Live.live_progressMap].
  exists wa, inputs, u. eexists.
  split; [reflexivity|]. split; [reflexivity|]. split; [exact Hu|]. split; [exact Hle|].
  split; [reflexivity|]. split; [reflexivity|]. split; [apply lookup_insert_eq|].
  cbn [Live.write Live.context Live.set_live_progress Live.set_live_status
       Live.live_status Live.live_progress].
  split; [destruct Hst as [-> | ->]; reflexivity | reflexivity].
Qed.

(** ** server.js: origins *)

(** X24.  A request from an origin that is not allowed gets 403 with the
    message of the CORS check.  A request goes on to its route exactly
    when it has no origin, an empty one, or one that is literally in
    [allowedOrigins].  For every other origin the message that the CORS
    check builds starts with the words the error handler looks for, so the
    answer is 403 with that message, which names the origin, and never the
    500 of an unhandled error. *)
Theorem disallowed_origin_gets_403 (origin : option string) :
  (Cors.screen_origin origin = None <->
   origin = None \/ origin = Some ""
   \/ exists o, origin = Some o /\ o ∈ Cors.allowedOrigins)
  /\ (forall o, origin = Some o -> o <> "" -> o ∉ Cors.allowedOrigins ->
        Cors.screen_origin origin =
          Some (mkResponse 403
                  (ErrorJson
                     ("The CORS policy for this site does not allow access from " ++ o)))).
Proof.
  unfold Cors.screen_origin, Cors.origin_allowed.
  destruct origin as [o|].
  2:{ split; [split; auto|]. intros o H. discriminate H. }
  destruct (String.eqb_spec o "") as [->|Ho].
  { split; [split; auto|]. intros o [= <-] H. congruence. }
  destruct (existsb (String.eqb o) Cors.allowedOrigins) eqn:Hin; cbn [negb].
  - apply existsb_exists in Hin. destruct Hin as (a & Hin & Ha).
    apply String.eqb_eq in Ha. subst a. apply list_elem_of_In in Hin.
    split; [split; [intros _; right; right; exists o; auto | reflexivity]|].
    intros o' [= <-] _ Hnot. contradiction.
  - assert (Hnot : o ∉ Cors.allowedOrigins).
    { intros H. apply list_elem_of_In in H.
      assert (Hex : existsb (String.eqb o) Cors.allowedOrigins = true)
        by (apply existsb_exists; exists o; split; [exact H | apply String.eqb_refl]).
      congruence. }
    assert (Hanswer : Cors.error_handler (Cors.mkError false (Some (Cors.policy_prefix ++ o))) =
                      mkResponse 403 (ErrorJson (Cors.policy_prefix ++ o)))
      by reflexivity.
    rewrite Hanswer. split.
    + split; [discriminate|].
      intros [H | [H | (o' & H & Hin')]]; try discriminate H; congruence.
    + intros o' [= <-] _ _. reflexivity.
Qed.
